(** * Seasonal demand planning engine: a shallow embedding

    The development follows the analytic core of the pharmacy repository:
    [Engine.py] (the original script) and its refactoring into
    [backend/utils/analyzer.py], [backend/utils/analysis_engine.py] and
    [backend/utils/forecast.py].

    Conventions of the embedding.
    - A pandas DataFrame is a list of rows (records); a column operation is a
      [map] over the rows, a boolean mask a [filter].
    - Numeric columns hold rationals ([Q]).  The source computes in binary
      floating point; the embedding computes the same expressions exactly.
    - [NaN], [NaT] and [None] cells are [None] of an option type.
    - Python exceptions and the calls to the external fitting libraries are
      threaded through a small state-and-exception monad (module [Py]). *)

From Stdlib Require Import String Ascii Decimal DecimalString.
From Stdlib Require Import ZArith QArith Qround Lqa Lia.
From Stdlib Require Import Bool List Permutation Sorted.
Import ListNotations.

Close Scope Q_scope.
Set Implicit Arguments.

(** ** Python and pandas primitives *)

Module Prim.

(** [int(x)] and [Series.astype(int)] on a number: truncation toward zero. *)
Definition py_int (x : Q) : Z := Z.quot (Qnum x) (Zpos (Qden x)).

(** [df.head(n)] for [n >= 0]. *)
Definition head {A : Type} (n : nat) (df : list A) : list A := firstn n df.

(** [df.iloc[a:b]] for [0 <= a] and [0 <= b]: the rows at the positions
    [a <= i < b] that exist. *)
Definition iloc {A : Type} (a b : nat) (df : list A) : list A :=
  skipn a (firstn b df).

(** [df.iloc[a:]]. *)
Definition iloc_from {A : Type} (a : nat) (df : list A) : list A := skipn a df.

(** [Series.sum()] of a numeric column. *)
Definition qsum (xs : list Q) : Q := fold_right Qplus 0%Q xs.

(** [Series.mean()] of a non-empty numeric column. *)
Definition qmean (xs : list Q) : Q :=
  (qsum xs / inject_Z (Z.of_nat (length xs)))%Q.

(** [Series.nunique()] of a column of strings. *)
Definition nunique (xs : list string) : nat := length (nodup string_dec xs).

(** Sorting a column of plain values: insertion into a sorted list.  For
    values the sorted column does not depend on the algorithm. *)
Fixpoint insert_sorted {A : Type} (leb : A -> A -> bool) (x : A) (l : list A)
  : list A :=
  match l with
  | [] => [x]
  | y :: l' => if leb x y then x :: l else y :: insert_sorted leb x l'
  end.

Definition isort {A : Type} (leb : A -> A -> bool) (l : list A) : list A :=
  fold_right (insert_sorted leb) [] l.

(** [np.round] to the nearest integer, halves to the even neighbour. *)
Definition round_half_even (x : Q) : Z :=
  let f := Qfloor x in
  let r := (x - inject_Z f)%Q in
  match (r ?= 1 # 2)%Q with
  | Lt => f
  | Gt => (f + 1)%Z
  | Eq => if Z.even f then f else (f + 1)%Z
  end.

(** [Series.round(2)]. *)
Definition round2 (x : Q) : Q :=
  (inject_Z (round_half_even (x * 100)) / 100)%Q.

(** [Series.quantile(q)] with the default linear interpolation, for
    [0 <= q <= 1]: position [q * (n - 1)] in the sorted column, interpolated
    between its two neighbours.  [None] is the NaN of an empty column. *)
Definition quantile (q : Q) (xs : list Q) : option Q :=
  match xs with
  | [] => None
  | _ =>
    let v := isort Qle_bool xs in
    let n := length xs in
    let pos := (q * inject_Z (Z.of_nat (n - 1)))%Q in
    let lo := Z.to_nat (Qfloor pos) in
    let hi := Nat.min (lo + 1) (n - 1) in
    let frac := (pos - inject_Z (Qfloor pos))%Q in
    let a := nth lo v 0%Q in
    let b := nth hi v 0%Q in
    Some (a + (b - a) * frac)%Q
  end.

(** [df.groupby(key)]: the rows of one group, and the group keys, which
    are the distinct values of the key column, sorted (groupby sorts its
    keys by default). *)
Definition group_of {A : Type} (key : A -> string) (k : string) (rows : list A)
  : list A :=
  filter (fun r => String.eqb (key r) k) rows.

Definition group_keys {A : Type} (key : A -> string) (rows : list A)
  : list string :=
  isort String.leb (nodup string_dec (map key rows)).

(** [str(n)] of a natural number, for formatted messages. *)
Definition str_of_nat (n : nat) : string :=
  NilZero.string_of_uint (Nat.to_uint n).

(** [a >= b] on floats where [b] may be NaN: false against NaN. *)
Definition ge_nan (a : Q) (b : option Q) : bool :=
  match b with
  | Some t => Qle_bool t a
  | None => false
  end.

End Prim.

(** ** Calendar

    A [Timestamp] of the [date] column is a calendar day, counted in days
    from 1970-01-01 (the time of day lives in the separate [time] column). *)

Module Calendar.

Definition Timestamp := Z.

(** Days from 1970-01-01 of the civil date [y-m-d] (proleptic Gregorian). *)
Definition days_from_civil (y m d : Z) : Z :=
  let y' := (if m <=? 2 then y - 1 else y)%Z in
  let era := (y' / 400)%Z in
  let yoe := (y' - era * 400)%Z in
  let mp := ((m + 9) mod 12)%Z in
  let doy := ((153 * mp + 2) / 5 + d - 1)%Z in
  let doe := (yoe * 365 + yoe / 4 - yoe / 100 + doy)%Z in
  (era * 146097 + doe - 719468)%Z.

(** [Timestamp.month] *)
Definition month_of (t : Timestamp) : Z :=
  let z := (t + 719468)%Z in
  let era := (z / 146097)%Z in
  let doe := (z - era * 146097)%Z in
  let yoe := ((doe - doe / 1460 + doe / 36524 - doe / 146096) / 365)%Z in
  let doy := (doe - (365 * yoe + yoe / 4 - yoe / 100))%Z in
  let mp := ((5 * doy + 2) / 153)%Z in
  (if mp <? 10 then mp + 3 else mp - 9)%Z.

(** [get_season] of Engine.create_features (Indian climate). *)
Definition get_season (month : Z) : string :=
  if existsb (Z.eqb month) [2; 3; 4; 5]%Z then "Summer"
  else if existsb (Z.eqb month) [6; 7; 8; 9]%Z then "Monsoon"
  else "Winter".

(** [(a - b).days] *)
Definition days_between (a b : Timestamp) : Z := (a - b)%Z.

(** [Series.max()] and [Series.min()] of a non-empty column of dates. *)
Definition max_date (d : Timestamp) (ds : list Timestamp) : Timestamp :=
  fold_right Z.max d ds.
Definition min_date (d : Timestamp) (ds : list Timestamp) : Timestamp :=
  fold_right Z.min d ds.

(** Weekday, Monday = 0 (1970-01-01 was a Thursday). *)
Definition weekday (t : Timestamp) : Z := ((t + 3) mod 7)%Z.

(** The bin of [resample('W-Mon')]: weeks end on Monday, closed and
    labelled on the right, so a day falls in the week of the first Monday
    on or after it. *)
Definition week_end (t : Timestamp) : Timestamp :=
  (t + (- weekday t) mod 7)%Z.

End Calendar.

(** ** Priority tiers

  [Engine.categorize_medicines_by_priority] and
  [RecommendationEngine.categorize_by_priority] (analyzer.py); the two
  bodies are the same, the second reads the fractions from
  [config.PRIORITY_LEVELS]. *)

Module Priority.
Import Prim.

Inductive level := CRITICAL | HIGH | MEDIUM | LOW.

(** config.PRIORITY_LEVELS *)
Definition PRIORITY_LEVELS (p : level) : Q :=
  match p with
  | CRITICAL => (20 # 100)%Q
  | HIGH => (30 # 100)%Q
  | MEDIUM => (30 # 100)%Q
  | LOW => (20 # 100)%Q
  end.

Definition action_of (p : level) : string :=
  match p with
  | CRITICAL => "MUST ORDER IMMEDIATELY"
  | HIGH => "ORDER RECOMMENDED"
  | MEDIUM => "ORDER IF BUDGET ALLOWS"
  | LOW => "STOCK ON DEMAND"
  end.

(** A row of a tier's frame: the recommendation row and the two columns
    the function adds. *)
Record tiered (A : Type) := Tiered {
  row : A;
  priority_level : level;
  action : string
}.

(** [max(int(total_medicines * fraction), 1)] *)
Definition tier_count (total_medicines : nat) (p : level) : nat :=
  Nat.max (Z.to_nat (py_int (inject_Z (Z.of_nat total_medicines) * PRIORITY_LEVELS p)%Q)) 1.

Definition tag {A : Type} (p : level) (rows : list A) : list (tiered A) :=
  map (fun r => Tiered r p (action_of p)) rows.

(** The returned dict, in insertion order; [{}] for an empty frame. *)
Definition categorize_medicines_by_priority {A : Type}
    (recommendations_df : list A) : list (level * list (tiered A)) :=
  match recommendations_df with
  | [] => []
  | _ =>
    let total_medicines := length recommendations_df in
    let priority_a_count := tier_count total_medicines CRITICAL in
    let priority_a := tag CRITICAL (head priority_a_count recommendations_df) in
    let priority_b_count := tier_count total_medicines HIGH in
    let priority_b :=
      tag HIGH (iloc priority_a_count (priority_a_count + priority_b_count)
                     recommendations_df) in
    let priority_c_count := tier_count total_medicines MEDIUM in
    let priority_c :=
      tag MEDIUM (iloc (priority_a_count + priority_b_count)
                       (priority_a_count + priority_b_count + priority_c_count)
                       recommendations_df) in
    let priority_d :=
      tag LOW (iloc_from (priority_a_count + priority_b_count + priority_c_count)
                         recommendations_df) in
    [ (CRITICAL, priority_a); (HIGH, priority_b);
      (MEDIUM, priority_c); (LOW, priority_d) ]
  end.

(** [RecommendationEngine.categorize_by_priority] of analyzer.py: the dict
    is filled entry by entry. *)
Definition categorize_by_priority {A : Type}
    (recommendations_df : list A) : list (level * list (tiered A)) :=
  match recommendations_df with
  | [] => []
  | _ =>
    let categorized := [] in
    let total_medicines := length recommendations_df in
    let critical_count := tier_count total_medicines CRITICAL in
    let critical_df := tag CRITICAL (head critical_count recommendations_df) in
    let categorized := categorized ++ [(CRITICAL, critical_df)] in
    let high_count := tier_count total_medicines HIGH in
    let high_df :=
      tag HIGH (iloc critical_count (critical_count + high_count)
                     recommendations_df) in
    let categorized := categorized ++ [(HIGH, high_df)] in
    let medium_count := tier_count total_medicines MEDIUM in
    let medium_df :=
      tag MEDIUM (iloc (critical_count + high_count)
                       (critical_count + high_count + medium_count)
                       recommendations_df) in
    let categorized := categorized ++ [(MEDIUM, medium_df)] in
    let low_df :=
      tag LOW (iloc_from (critical_count + high_count + medium_count)
                         recommendations_df) in
    categorized ++ [(LOW, low_df)]
  end.

(** The rows of a tier, without the added columns. *)
Definition rows_of {A : Type} (t : list (tiered A)) : list A := map (@row A) t.

(** Every row of a tier frame carries the tier's level and action. *)
Definition labelled {A : Type} (p : level) (t : list (tiered A)) : Prop :=
  Forall (fun x => priority_level x = p /\ action x = action_of p) t.

(** A categorization with the four tiers, in the order CRITICAL, HIGH,
    MEDIUM, LOW, each labelled with its level and action. *)
Definition four_tiers {A : Type} (result : list (level * list (tiered A)))
    (critical high medium low : list (tiered A)) : Prop :=
  result = [(CRITICAL, critical); (HIGH, high); (MEDIUM, medium); (LOW, low)] /\
  labelled CRITICAL critical /\ labelled HIGH high /\
  labelled MEDIUM medium /\ labelled LOW low.

(** Every tier of the categorization has at least one member. *)
Definition all_tiers_populated {A : Type}
    (result : list (level * list (tiered A))) : Prop :=
  exists critical high medium low,
    four_tiers result critical high medium low /\
    1 <= length critical /\ 1 <= length high /\
    1 <= length medium /\ 1 <= length low.

End Priority.

(** ** Seasonal aggregation and heuristic recommendations

    [Engine.get_heuristic_recommendations]; the statements of
    [SeasonalAnalysisEngine.get_seasonal_recommendations]
    (analysis_engine.py) are the same up to the fast-mover column. *)

Module Engine.
Import Prim Calendar.

(** A row of the feature-engineered frame, restricted to the columns the
    recommendation and forecasting functions read.  The [date] is a parsed
    Timestamp and the numeric columns are numbers. *)
Record FeatRow := mkFeatRow {
  date : Timestamp;
  invoice_id : string;
  medicine_name_clean : string;
  quantity : Q;
  unit_price : Q;
  total_sales : Q;
  Season : string
}.

(** The two derived columns of a row: [total_sales] as clean_data computes
    it, [Season] as create_features maps it from the month of the date. *)
Definition feature_row (date : Timestamp) (invoice_id medicine_name_clean : string)
    (quantity unit_price : Q) : FeatRow :=
  mkFeatRow date invoice_id medicine_name_clean quantity unit_price
            (quantity * unit_price)%Q (get_season (month_of date)).


(** A row of [season_data.groupby('medicine_name_clean').agg(...)] after
    [reset_index()] and the renaming of the columns. *)
Record AggRow := mkAggRow {
  agg_medicine_name : string;
  agg_last_season_sales : Q;
  agg_total_revenue : Q;
  agg_unique_orders : nat;
  agg_avg_unit_price : Q
}.

(** [groupby('medicine_name_clean').agg({'quantity': 'sum',
    'total_sales': 'sum', 'invoice_id': 'nunique', 'unit_price': 'mean'})
    .reset_index()]: split by key, aggregate each group, one row per key. *)
Definition groupby_agg (rows : list FeatRow) : list AggRow :=
  map (fun key =>
         let g := group_of medicine_name_clean key rows in
         mkAggRow key
                  (qsum (map quantity g))
                  (qsum (map total_sales g))
                  (nunique (map invoice_id g))
                  (qmean (map unit_price g)))
      (group_keys medicine_name_clean rows).

(** The frame with the two derived columns, before sorting. *)
Record Scored := mkScored {
  sc_agg : AggRow;
  sc_suggested_stock_quantity : Z;
  sc_daily_avg_sales : Q
}.

Definition sc_key (r : Scored) : Q := agg_last_season_sales (sc_agg r).

(** A row of the returned frame. *)
Record Recommendation := mkRecommendation {
  rank : nat;
  medicine_name : string;
  last_season_sales : Q;
  suggested_stock_quantity : Z;
  daily_avg_sales : Q;
  total_revenue : Q;
  avg_unit_price : Q;
  unique_orders : nat;
  is_fast_mover : bool
}.

(** [(season_data['date'].max() - season_data['date'].min()).days], with
    the fallback to 90 when it is 0; [r] is any row of the non-empty frame. *)
Definition days_in_season (r : FeatRow) (season_data : list FeatRow) : Z :=
  let dates := map date season_data in
  let d := days_between (max_date (date r) dates) (min_date (date r) dates) in
  if (d =? 0)%Z then 90%Z else d.

(** [(last_season_sales * (1 + buffer)).astype(int)] *)
Definition suggested_stock (last_season_sales buffer : Q) : Z :=
  py_int (last_season_sales * (1 + buffer))%Q.

Definition score (buffer : Q) (days : Z) (a : AggRow) : Scored :=
  mkScored a
           (suggested_stock (agg_last_season_sales a) buffer)
           (round2 (agg_last_season_sales a / inject_Z days)).

(** [recommendations['rank'] = range(1, len(recommendations) + 1)] *)
Definition add_rank (rows : list Scored) : list (nat * Scored) :=
  combine (seq 1 (length rows)) rows.

Definition finish (threshold : option Q) (x : nat * Scored) : Recommendation :=
  let (k, r) := x in
  let a := sc_agg r in
  mkRecommendation k
                   (agg_medicine_name a)
                   (agg_last_season_sales a)
                   (sc_suggested_stock_quantity r)
                   (sc_daily_avg_sales r)
                   (agg_total_revenue a)
                   (agg_avg_unit_price a)
                   (agg_unique_orders a)
                   (ge_nan (sc_daily_avg_sales r) threshold).

(** The tail of the function, shared with analyzer.py: rank, fast-mover
    threshold and flag. *)
Definition rank_and_flag (q : Q) (sorted : list Scored) : list Recommendation :=
  let ranked := add_rank sorted in
  let fast_mover_threshold :=
    quantile q (map (fun x => sc_daily_avg_sales (snd x)) ranked) in
  map (finish fast_mover_threshold) ranked.

Section WithSort.

(** [DataFrame.sort_values('last_season_sales', ascending=False)] is called
    with pandas' default [kind='quicksort'], which pandas documents as not
    stable and which is numpy's introsort, outside this repository.  The
    embedding takes it as a parameter; the theorems assume of it what pandas
    guarantees for every [kind]: the result holds the same rows, in
    descending order of the key. *)
Variable sort_values_desc : list Scored -> list Scored.

Definition get_heuristic_recommendations
    (df : list FeatRow) (target_season : string) (buffer : Q)
  : list Recommendation :=
  let season_data := filter (fun r => String.eqb (Season r) target_season) df in
  match season_data with
  | [] => []
  | r :: _ =>
    let recommendations := groupby_agg season_data in
    let days := days_in_season r season_data in
    let recommendations := map (score buffer days) recommendations in
    let recommendations := sort_values_desc recommendations in
    rank_and_flag (75 # 100) recommendations
  end.

End WithSort.

(** The default of the [buffer] argument. *)
Definition default_buffer : Q := (15 # 100)%Q.

(** At least one row is a fast mover: the threshold is the [q]-quantile of
    the daily averages, the flag is [daily_avg_sales >= threshold], and a
    row with the largest daily average is flagged. *)
Definition has_top_fast_mover (q : Q) (recs : list Recommendation) : Prop :=
  exists threshold top,
    quantile q (map daily_avg_sales recs) = Some threshold /\
    In top recs /\
    (forall r, In r recs -> (daily_avg_sales r <= daily_avg_sales top)%Q) /\
    (threshold <= daily_avg_sales top)%Q /\
    (forall r, In r recs ->
               is_fast_mover r = Qle_bool threshold (daily_avg_sales r)) /\
    is_fast_mover top = true.

(** What pandas guarantees of [sort_values(..., ascending=False)]. *)
Definition sort_contract (sort : list Scored -> list Scored) : Prop :=
  forall l, Permutation (sort l) l /\
            Sorted (fun a b => (sc_key b <= sc_key a)%Q) (sort l).

(** Two sorts that meet the contract: one keeps tied rows in their input
    order, the other reverses them. *)
Definition desc_leb (a b : Scored) : bool := Qle_bool (sc_key b) (sc_key a).
Definition stable_sort_desc (l : list Scored) : list Scored := isort desc_leb l.

(** The rows of [l] whose sales equal [v], by medicine name. *)
Definition tied_names_agg (v : Q) (l : list AggRow) : list string :=
  map agg_medicine_name
      (filter (fun a => Qeq_bool (agg_last_season_sales a) v) l).
Definition tied_names (v : Q) (l : list Recommendation) : list string :=
  map medicine_name (filter (fun r => Qeq_bool (last_season_sales r) v) l).

(** Ties retain the aggregator's emission order: among the medicines with
    the same sales, the order of the result is the order of the groupby
    frame. *)
Definition ties_retain_emission_order
    (df : list FeatRow) (target_season : string)
    (recs : list Recommendation) : Prop :=
  forall v,
    tied_names v recs =
    tied_names_agg v (groupby_agg
                        (filter (fun r => String.eqb (Season r) target_season) df)).

End Engine.

(** ** The database-backed recommendation engine (analyzer.py)

    [RecommendationEngine.generate_heuristic_recommendations] after its SQL
    query: the query's result frame is the input. *)

Module Analyzer.
Import Prim Engine.

(** config.SEASONS[season]['duration_days']; [None] is the KeyError of an
    unknown season. *)
Definition duration_days (season : string) : option Z :=
  if String.eqb season "Summer" then Some 120%Z
  else if String.eqb season "Monsoon" then Some 120%Z
  else if String.eqb season "Winter" then Some 120%Z
  else None.

(** config.ANALYSIS_CONFIG['fast_mover_threshold'] *)
Definition fast_mover_threshold_q : Q := (75 # 100)%Q.

(** [df] is the frame of the query (one row per medicine, as the database
    ordered it).  An exception inside the body is caught by the function's
    own handler, which returns an empty frame. *)
Definition generate_heuristic_recommendations
    (df : list AggRow) (target_season : string) (buffer : Q)
  : list Recommendation :=
  match df with
  | [] => []
  | _ =>
    match duration_days target_season with
    | None => []
    | Some days => rank_and_flag fast_mover_threshold_q (map (score buffer days) df)
    end
  end.

End Analyzer.

(** ** Python exceptions and external calls

    A computation runs over a trace of the events it emits (the calls it
    makes to the fitting libraries, the diagnostics it prints) and ends by
    returning a value or raising an exception; [try_except] is Python's
    [try: ... except Exception as e: ...]. *)

Module Py.

Inductive exn := Exception (message : string).

(** [str(e)] *)
Definition str (e : exn) : string :=
  match e with Exception message => message end.

Inductive outcome (A : Type) :=
| Return (a : A)
| Raise (e : exn).
Arguments Return {A} a.
Arguments Raise {A} e.

Definition M (E A : Type) : Type := list E -> outcome A * list E.

Definition ret {E A : Type} (a : A) : M E A := fun tr => (Return a, tr).

Definition raise {E A : Type} (e : exn) : M E A := fun tr => (Raise e, tr).

Definition bind {E A B : Type} (c : M E A) (k : A -> M E B) : M E B :=
  fun tr =>
    match c tr with
    | (Return a, tr') => k a tr'
    | (Raise e, tr') => (Raise e, tr')
    end.

(** Append an event to the trace. *)
Definition emit {E : Type} (ev : E) : M E unit :=
  fun tr => (Return tt, tr ++ [ev]).

(** Lift the outcome of an external call. *)
Definition lift {E A : Type} (o : outcome A) : M E A := fun tr => (o, tr).

Definition try_except {E A : Type} (body : M E A) (handler : exn -> M E A)
  : M E A :=
  fun tr =>
    match body tr with
    | (Return a, tr') => (Return a, tr')
    | (Raise e, tr') => handler e tr'
    end.

(** Run from the empty trace. *)
Definition run {E A : Type} (c : M E A) : outcome A * list E := c [].

(** [bind] on plain outcomes, for code without events. *)
Definition obind {A B : Type} (o : outcome A) (k : A -> outcome B) : outcome B :=
  match o with
  | Return a => k a
  | Raise e => Raise e
  end.

Fixpoint omap {A B : Type} (f : A -> outcome B) (l : list A) : outcome (list B) :=
  match l with
  | [] => Return []
  | x :: l' =>
    obind (f x) (fun y => obind (omap f l') (fun ys => Return (y :: ys)))
  end.

End Py.

Declare Scope py_scope.
Delimit Scope py_scope with py.
Notation "x <- c ;; k" := (Py.bind c (fun x => k))
  (at level 61, c at next level, right associativity) : py_scope.
Notation "c ;;; k" := (Py.bind c (fun _ => k))
  (at level 61, right associativity) : py_scope.

(** ** The row sanitizer: [Engine.clean_data]

    [DataLoader._clean_dataframe] (data_loader.py) and
    [SeasonalAnalysisEngine.clean_data] (analysis_engine.py) drop and keep
    rows by the same statements. *)

Module Sanitizer.
Import Prim Calendar.

(** A cell of a column that may hold numbers or text. *)
Inductive cell :=
| Null
| Str (s : string)
| Num (q : Q).

(** A row of the frame read from the CSV file, with the fourteen required
    columns.  Text columns hold a string or are missing ([None]); the
    columns later coerced to numbers hold what [read_csv] inferred. *)
Record RawRow := mkRawRow {
  date : option string;
  time : option string;
  invoice_id : option string;
  medicine_name : option string;
  generic_name : option string;
  brand : option string;
  manufacturer : option string;
  supplier : option string;
  dosage_form : option string;
  strength : option string;
  category : option string;
  prescription_required : cell;
  quantity : cell;
  unit_price : cell
}.

(** A row of the cleaned frame: the raw row for the untouched columns, and
    the columns the function rewrites or adds.  The [datetime] column, which
    no later step reads, is left out. *)
Record CleanRow := mkCleanRow {
  raw : RawRow;
  c_date : option Timestamp;
  c_quantity : Q;
  c_unit_price : Q;
  c_prescription_required : Z;
  medicine_name_clean : option string;
  generic_name_clean : string;
  total_sales : Q
}.

Definition is_null (c : cell) : bool :=
  match c with Null => true | _ => false end.

Definition is_none {A : Type} (o : option A) : bool :=
  match o with None => true | Some _ => false end.

(** Whitespace of [str.strip] and of the pattern [\s], within ASCII. *)
Definition is_space (c : ascii) : bool :=
  let n := nat_of_ascii c in
  ((9 <=? n) && (n <=? 13)) || ((28 <=? n) && (n <=? 32)).

(** [str.upper] within ASCII. *)
Definition upper_char (c : ascii) : ascii :=
  let n := nat_of_ascii c in
  if (97 <=? n) && (n <=? 122) then ascii_of_nat (n - 32) else c.

Fixpoint upper (s : string) : string :=
  match s with
  | EmptyString => EmptyString
  | String c s' => String (upper_char c) (upper s')
  end.

Fixpoint lstrip (s : string) : string :=
  match s with
  | EmptyString => EmptyString
  | String c s' => if is_space c then lstrip s' else s
  end.

Fixpoint rstrip (s : string) : string :=
  match s with
  | EmptyString => EmptyString
  | String c s' =>
    match rstrip s' with
    | EmptyString => if is_space c then EmptyString else String c EmptyString
    | t => String c t
    end
  end.

Definition strip (s : string) : string := lstrip (rstrip s).

(** [str.replace(r'\s+', ' ', regex=True)]: every run of whitespace becomes
    one space; [in_run] tells that the previous character was whitespace. *)
Fixpoint collapse_spaces (in_run : bool) (s : string) : string :=
  match s with
  | EmptyString => EmptyString
  | String c s' =>
    if is_space c
    then if in_run then collapse_spaces true s'
         else String " " (collapse_spaces true s')
    else String c (collapse_spaces false s')
  end.

(** [.str.strip().str.upper().str.replace(r'\s+', ' ', regex=True)] *)
Definition standardize (s : string) : string :=
  collapse_spaces false (upper (strip s)).

Section WithParsers.

(** The parsers of pandas on one string: [pd.to_datetime] and
    [pd.to_numeric] with [errors='coerce'] give [None] (NaT, NaN) for a
    string they cannot parse; [int(s)] of [astype(int)] raises instead. *)
Variable to_datetime : string -> option Timestamp.
Variable numeric_of_string : string -> option Q.
Variable int_of_string : string -> option Z.

(** [pd.to_numeric(column, errors='coerce')] on one cell. *)
Definition to_numeric (c : cell) : option Q :=
  match c with
  | Null => None
  | Num q => Some q
  | Str s => numeric_of_string s
  end.

(** [astype(int)] on one cell of [prescription_required]. *)
Definition astype_int (c : cell) : Py.outcome Z :=
  match c with
  | Null => Py.Raise (Py.Exception "cannot convert float NaN to integer")
  | Num q => Py.Return (py_int q)
  | Str s =>
    match int_of_string s with
    | Some z => Py.Return z
    | None => Py.Raise (Py.Exception "invalid literal for int()")
    end
  end.

(** [df_clean.dropna(subset=['date', 'medicine_name', 'quantity',
    'unit_price'])]: the mask of the rows that stay. *)
Definition has_critical (r : RawRow) : bool :=
  negb (is_none (date r)) && negb (is_none (medicine_name r)) &&
  negb (is_null (quantity r)) && negb (is_null (unit_price r)).

(** The frame after the type corrections: dates and the two numeric
    columns coerced, failures turned into NaT and NaN. *)
Record Coerced := mkCoerced {
  co_raw : RawRow;
  co_date : option Timestamp;
  co_quantity : option Q;
  co_unit_price : option Q
}.

Definition coerce (r : RawRow) : Coerced :=
  mkCoerced r
            (match date r with Some s => to_datetime s | None => None end)
            (to_numeric (quantity r))
            (to_numeric (unit_price r)).

(** [dropna(subset=['quantity', 'unit_price'])], then [quantity > 0], then
    [unit_price > 0]; a comparison with NaN is false. *)
Definition numeric_present (r : Coerced) : bool :=
  negb (is_none (co_quantity r)) && negb (is_none (co_unit_price r)).

Definition positive (x : option Q) : bool :=
  match x with
  | Some q => negb (Qle_bool q 0)
  | None => false
  end.

Definition finish_row (r : Coerced) : Py.outcome CleanRow :=
  Py.obind (astype_int (prescription_required (co_raw r))) (fun rx =>
    let q := match co_quantity r with Some q => q | None => 0%Q end in
    let p := match co_unit_price r with Some p => p | None => 0%Q end in
    Py.Return
      (mkCleanRow (co_raw r) (co_date r) q p rx
                  (option_map standardize (medicine_name (co_raw r)))
                  (standardize
                     (match generic_name (co_raw r) with
                      | Some g => g
                      | None => "UNKNOWN"
                      end))
                  (q * p)%Q)).

Definition clean_data (df : list RawRow) : Py.outcome (list CleanRow) :=
  let df_clean := filter has_critical df in
  let df_clean := map coerce df_clean in
  let df_clean := filter numeric_present df_clean in
  let df_clean := filter (fun r => positive (co_quantity r)) df_clean in
  let df_clean := filter (fun r => positive (co_unit_price r)) df_clean in
  Py.omap finish_row df_clean.

End WithParsers.

End Sanitizer.

(** ** Score-based priority: [SeasonalAnalysisEngine.get_enhanced_medicines]
    (analysis_engine.py) *)

Module Enhanced.
Import Prim.

(** A float result that may be infinite or NaN: the score divides by the
    maximum of a column, which may be zero. *)
Inductive xfloat :=
| Fin (q : Q)
| PInf
| NInf
| NaN.

(** [x / m] on floats. *)
Definition xdiv (x m : Q) : xfloat :=
  if Qeq_bool m 0 then
    match (x ?= 0)%Q with
    | Gt => PInf
    | Lt => NInf
    | Eq => NaN
    end
  else Fin (x / m)%Q.

(** [x * c] for a positive constant [c]. *)
Definition xscale (x : xfloat) (c : Q) : xfloat :=
  match x with
  | Fin q => Fin (q * c)%Q
  | other => other
  end.

Definition xadd (x y : xfloat) : xfloat :=
  match x, y with
  | NaN, _ | _, NaN => NaN
  | PInf, NInf | NInf, PInf => NaN
  | PInf, _ | _, PInf => PInf
  | NInf, _ | _, NInf => NInf
  | Fin a, Fin b => Fin (a + b)%Q
  end.

(** [x >= t] *)
Definition xge (x : xfloat) (t : Q) : bool :=
  match x with
  | Fin q => Qle_bool t q
  | PInf => true
  | NInf => false
  | NaN => false
  end.

(** A row of the frame the function receives. *)
Record SaleRow := mkSaleRow {
  medicine_name : string;
  quantity_sold : Q;
  total_revenue : Q;
  unit_price : Q
}.

(** A row of [top_medicines] after the groupby. *)
Record TopMedicine := mkTopMedicine {
  tm_medicine_name : string;
  tm_quantity_sold : Q;
  tm_total_revenue : Q;
  tm_unit_price : Q
}.

(** A dict of the returned list. *)
Record Entry := mkEntry {
  id : nat;
  name : string;
  category : string;
  priority : string;
  suggestedStock : Z;
  estimatedCost : Z;
  currentStock : Z;
  stockStatus : string
}.

(** [df.groupby('medicine_name').agg({'quantity_sold': 'sum',
    'total_revenue': 'sum', 'unit_price': 'mean'}).reset_index()] *)
Definition top_medicines_of (df : list SaleRow) : list TopMedicine :=
  map (fun k =>
         let g := group_of medicine_name k df in
         mkTopMedicine k
                       (qsum (map quantity_sold g))
                       (qsum (map total_revenue g))
                       (qmean (map unit_price g)))
      (group_keys medicine_name df).

(** [Series.max()] of a numeric column; 0 stands for the column of an
    empty frame, which the function never reaches. *)
Definition qmax (xs : list Q) : Q :=
  match xs with
  | [] => 0%Q
  | x :: xs' => fold_right (fun a b => if Qle_bool a b then b else a) x xs'
  end.

Definition priority_score (max_revenue max_quantity : Q) (m : TopMedicine)
  : xfloat :=
  xadd (xscale (xdiv (tm_total_revenue m) max_revenue) (6 # 10))
       (xscale (xdiv (tm_quantity_sold m) max_quantity) (4 # 10)).

Definition get_priority (score : xfloat) : string :=
  if xge score (8 # 10) then "critical"
  else if xge score (6 # 10) then "high"
  else if xge score (4 # 10) then "medium"
  else "low".

Definition get_stock_status (priority : string) (current suggested : Z) : string :=
  if (current =? 0)%Z then "out"
  else if negb (Qle_bool (inject_Z suggested * (2 # 10)) (inject_Z current))
       then "low"
       else "adequate".

Definition entry_of (max_revenue max_quantity : Q) (x : nat * TopMedicine)
  : Entry :=
  let (idx, m) := x in
  let priority := get_priority (priority_score max_revenue max_quantity m) in
  let suggested_stock := py_int (tm_quantity_sold m * (15 # 10)) in
  let estimated_cost := py_int (inject_Z suggested_stock * tm_unit_price m) in
  let current_stock := py_int (tm_quantity_sold m * (3 # 10)) in
  mkEntry (idx + 1) (tm_medicine_name m) "General Medicine" priority
          suggested_stock estimated_cost current_stock
          (get_stock_status priority current_stock suggested_stock).

(** The mock data returned for an empty frame. *)
Definition mock_data : list Entry :=
  [ mkEntry 1 "CROCIN COLD & FLU SYRUP" "Cold & Flu" "critical" 450 13500 45 "low";
    mkEntry 2 "VICKS ACTION 500 SYRUP" "Cold & Flu" "critical" 380 11400 32 "low";
    mkEntry 3 "TIXYLIX COUGH SYRUP" "Cough" "high" 320 9600 28 "low";
    mkEntry 4 "PARACETAMOL 500MG" "Pain Relief" "high" 500 2500 150 "adequate";
    mkEntry 5 "CETIRIZINE 10MG" "Antihistamine" "medium" 300 1500 75 "adequate" ].

Definition get_enhanced_medicines (df : list SaleRow) : list Entry :=
  match df with
  | [] => mock_data
  | _ =>
    let top_medicines := top_medicines_of df in
    let max_revenue := qmax (map tm_total_revenue top_medicines) in
    let max_quantity := qmax (map tm_quantity_sold top_medicines) in
    map (entry_of max_revenue max_quantity)
        (combine (seq 0 (length top_medicines)) (head 20 top_medicines))
  end.

End Enhanced.

(** ** The two priority classifications side by side *)

Module Compare.
Import Engine.

(** The tier a medicine falls in under the rank slicing of a
    recommendation frame. *)
Definition rank_tier_of (recs : list Recommendation) (medicine : string)
  : option Priority.level :=
  option_map fst
    (find (fun tier =>
             existsb (fun x => String.eqb (medicine_name (Priority.row x)) medicine)
                     (snd tier))
          (Priority.categorize_medicines_by_priority recs)).

(** The recommendation frame in the columns [get_enhanced_medicines]
    reads: quantity sold, revenue and unit price of each medicine. *)
Definition as_sales (recs : list Recommendation) : list Enhanced.SaleRow :=
  map (fun r => Enhanced.mkSaleRow (medicine_name r) (last_season_sales r)
                                   (total_revenue r) (avg_unit_price r))
      recs.

Definition level_of_label (label : string) : option Priority.level :=
  if String.eqb label "critical" then Some Priority.CRITICAL
  else if String.eqb label "high" then Some Priority.HIGH
  else if String.eqb label "medium" then Some Priority.MEDIUM
  else if String.eqb label "low" then Some Priority.LOW
  else None.

(** The tier a medicine gets from the revenue-and-quantity score. *)
Definition score_tier_of (recs : list Recommendation) (medicine : string)
  : option Priority.level :=
  match find (fun e => String.eqb (Enhanced.name e) medicine)
             (Enhanced.get_enhanced_medicines (as_sales recs)) with
  | Some e => level_of_label (Enhanced.priority e)
  | None => None
  end.

End Compare.

(** ** Forecasting

    [Engine.get_timeseries_forecast_sarima] and the [ForecastingEngine] of
    forecast.py.  The model fitting is done by statsmodels and prophet; the
    embedding takes their calls as parameters that return a value or raise,
    and records every call in the trace. *)

Module Forecast.
Import Prim Calendar.
Local Open Scope string_scope.
Local Open Scope py_scope.

(** A series indexed by date. *)
Definition series := list (Timestamp * Q).

(** [model.get_forecast(steps)]: the predicted mean and the confidence
    interval, row by row. *)
Record SarimaxForecast := mkSarimaxForecast {
  predicted_mean : series;
  conf_int : list (Q * Q)
}.

(** A row of the frame [Prophet.predict] returns. *)
Record ProphetRow := mkProphetRow {
  ds : Timestamp;
  yhat : Q;
  yhat_lower : Q;
  yhat_upper : Q;
  yearly : Q
}.

Inductive event :=
| Print (message : string)
| LogError (message : string)
| SarimaxFit (ts : series)
| SarimaxGetForecast (steps : Z)
| ProphetFit (frame : series)
| ProphetPredict (periods : Z)
| SaveFigure (path : string).

(** A fit of the seasonal-autoregressive model was attempted. *)
Definition is_sarimax_fit (ev : event) : bool :=
  match ev with SarimaxFit _ => true | _ => false end.

(** A fit of the additive-seasonal-decomposition model was attempted. *)
Definition is_prophet_fit (ev : event) : bool :=
  match ev with ProphetFit _ => true | _ => false end.

(** [series.resample('W-Mon').sum()]: one bin per week from the week of the
    first date to the week of the last, each the sum of its days (0 for a
    week without sales). *)
Definition resample_weekly_sum (rows : series) : series :=
  match rows with
  | [] => []
  | (d, _) :: _ =>
    let dates := map fst rows in
    let first := week_end (min_date d dates) in
    let last := week_end (max_date d dates) in
    let bins := S (Z.to_nat ((last - first) / 7)) in
    map (fun i =>
           let bin := (first + 7 * Z.of_nat i)%Z in
           (bin, qsum (map snd (filter (fun r => (week_end (fst r) =? bin)%Z) rows))))
        (seq 0 bins)
  end.

(** [Series.round(0).astype(int)] *)
Definition round_int (x : Q) : Z := round_half_even x.

(** *** Engine.py *)

(** A row of the returned [forecast_df]. *)
Record ForecastRow := mkForecastRow {
  Week_Ending : Timestamp;
  Predicted_Quantity : Z;
  Lower_Bound : Z;
  Upper_Bound : Z
}.

Definition forecast_df_of (f : SarimaxForecast) : list ForecastRow :=
  map (fun x : (Timestamp * Q) * (Q * Q) =>
         let (m, ci) := x in
         mkForecastRow (fst m) (round_int (snd m))
                       (round_int (fst ci)) (round_int (snd ci)))
      (combine (predicted_mean f) (conf_int f)).

Definition replace_char (from to : ascii) (s : string) : string :=
  string_of_list_ascii
    (map (fun c => if Ascii.eqb c from then to else c) (list_ascii_of_string s)).

(** [medicine_name[:30].replace('/', '_').replace('\\', '_').replace(' ', '_')] *)
Definition safe_name (medicine_name : string) : string :=
  replace_char " " "_"
    (replace_char "\" "_" (replace_char "/" "_" (substring 0 30 medicine_name))).

(** *** forecast.py *)

(** A row of the frame of [prepare_time_series_data]. *)
Record DailyRow := mkDailyRow {
  date : Timestamp;
  quantity : Q;
  month : Z;
  season : string
}.

(** [ForecastingEngine.get_season] *)
Definition get_season (month : Z) : string :=
  if existsb (Z.eqb month) [2; 3; 4; 5]%Z then "summer"
  else if existsb (Z.eqb month) [6; 7; 8; 9]%Z then "monsoon"
  else "winter".

(** [ForecastingEngine.prepare_time_series_data]: the quantities summed by
    date, the dates in ascending order. *)
Definition prepare_time_series_data (sales_data : series) (medicine_name : string)
  : list DailyRow :=
  match sales_data with
  | [] => []
  | _ =>
    map (fun d =>
           mkDailyRow d
                      (qsum (map snd (filter (fun r => (fst r =? d)%Z) sales_data)))
                      (month_of d)
                      (get_season (month_of d)))
        (isort Z.leb (nodup Z.eq_dec (map fst sales_data)))
  end.

Definition daily_series (df : list DailyRow) : series :=
  map (fun r => (date r, quantity r)) df.

(** The dict of [generate_sarima_forecast]; [error] is absent on success. *)
Record SarimaResult := mkSarimaResult {
  sa_success : bool;
  sa_error : option string;
  historical_dates : list Timestamp;
  historical_quantities : list Q;
  forecast_dates : list Timestamp;
  forecast_values : list Q;
  lower_bound : list Q;
  upper_bound : list Q
}.

Definition sarima_failure (message : string) : SarimaResult :=
  mkSarimaResult false (Some message) [] [] [] [] [] [].

(** The dict of [generate_prophet_forecast]. *)
Record ProphetResult := mkProphetResult {
  pr_success : bool;
  pr_error : option string;
  dates : list Timestamp;
  actual : list (option Q);
  forecast : list Q;
  lower : list (option Q);
  upper : list (option Q);
  yearly_seasonality : list Q
}.

Definition prophet_failure (message : string) : ProphetResult :=
  mkProphetResult false (Some message) [] [] [] [] [] [].

(** The dict of [process_medicine_forecasts]. *)
Record MedicineForecasts := mkMedicineForecasts {
  medicine_id : Z;
  medicine_name : string;
  total_quantity : Z;
  sales_trends : list (Timestamp * Q * string);
  sarima_forecast : SarimaResult;
  prophet_forecast : ProphetResult
}.

Section WithLibraries.

Variables SarimaxResults ProphetModel : Type.

(** [SARIMAX(ts, order=(1, 1, 1), seasonal_order=(1, 1, 0, 12),
    enforce_stationarity=False, enforce_invertibility=False).fit(disp=False)] *)
Variable SARIMAX_fit : series -> Py.outcome SarimaxResults.
(** [model.get_forecast(steps=...)] with its mean and interval *)
Variable get_forecast : SarimaxResults -> Z -> Py.outcome SarimaxForecast.
(** [Prophet(yearly_seasonality=True, weekly_seasonality=True,
    daily_seasonality=False, seasonality_mode='multiplicative',
    interval_width=0.95)] and [model.fit(frame)] *)
Variable Prophet_fit : series -> Py.outcome ProphetModel.
(** [model.predict(model.make_future_dataframe(periods=..., freq='D'))] *)
Variable Prophet_predict : ProphetModel -> Z -> Py.outcome (list ProphetRow).
(** The plotting calls that end in [plt.savefig(path)] *)
Variable savefig : string -> Py.outcome unit.

Definition call_SARIMAX_fit (ts : series) : Py.M event SarimaxResults :=
  Py.emit (SarimaxFit ts) ;;; Py.lift (SARIMAX_fit ts).

Definition call_get_forecast (model : SarimaxResults) (steps : Z)
  : Py.M event SarimaxForecast :=
  Py.emit (SarimaxGetForecast steps) ;;; Py.lift (get_forecast model steps).

Definition call_Prophet_fit (frame : series) : Py.M event ProphetModel :=
  Py.emit (ProphetFit frame) ;;; Py.lift (Prophet_fit frame).

Definition call_Prophet_predict (model : ProphetModel) (periods : Z)
  : Py.M event (list ProphetRow) :=
  Py.emit (ProphetPredict periods) ;;; Py.lift (Prophet_predict model periods).

Definition call_savefig (path : string) : Py.M event unit :=
  Py.emit (SaveFigure path) ;;; Py.lift (savefig path).

(** [Engine.get_timeseries_forecast_sarima]; the progress lines it prints
    are left out, the error and warning lines are events. *)
Definition get_timeseries_forecast_sarima
    (df : list Engine.FeatRow) (medicine_name : string) (forecast_weeks : Z)
  : Py.M event (option (list ForecastRow)) :=
  let med_data :=
    filter (fun r => String.eqb (Engine.medicine_name_clean r) medicine_name) df in
  match med_data with
  | [] =>
    Py.emit (Print ("Error: No data found for medicine '" ++ medicine_name ++ "'")) ;;;
    Py.ret None
  | _ =>
    let ts_data :=
      resample_weekly_sum
        (map (fun r => (Engine.date r, Engine.quantity r)) med_data) in
    if (length ts_data <? 24)%nat then
      Py.emit (Print ("Warning: Insufficient data ("
                      ++ str_of_nat (length ts_data)
                      ++ " weeks) for reliable SARIMA forecast.")) ;;;
      Py.emit (Print "  Minimum 24 weeks recommended. Skipping forecast.") ;;;
      Py.ret None
    else
      Py.try_except
        (model <- call_SARIMAX_fit ts_data ;;
         forecast <- call_get_forecast model forecast_weeks ;;
         call_savefig ("output/04_sarima_forecast_" ++ safe_name medicine_name
                       ++ ".png") ;;;
         Py.ret (Some (forecast_df_of forecast)))
        (fun e =>
           Py.emit (Print ("Error during SARIMA forecasting: " ++ Py.str e)) ;;;
           Py.ret None)
  end.

(** [self.available]: whether statsmodels and prophet could be imported. *)
Variable available : bool.

(** [ForecastingEngine.generate_sarima_forecast] *)
Definition generate_sarima_forecast (df : list DailyRow) (forecast_weeks : Z)
  : Py.M event SarimaResult :=
  if negb available || (length df =? 0)%nat || (length df <? 24)%nat then
    Py.ret (sarima_failure
              "Insufficient data for SARIMA forecast (minimum 24 weeks required)")
  else
    Py.try_except
      (let weekly_data := resample_weekly_sum (daily_series df) in
       if (length weekly_data <? 24)%nat then
         Py.ret (sarima_failure
                   ("Insufficient weekly data for SARIMA forecast ("
                    ++ str_of_nat (length weekly_data) ++ " weeks)"))
       else
         model <- call_SARIMAX_fit weekly_data ;;
         forecast <- call_get_forecast model forecast_weeks ;;
         let forecast_mean := predicted_mean forecast in
         let forecast_ci := conf_int forecast in
         Py.ret (mkSarimaResult true None
                   (map fst weekly_data) (map snd weekly_data)
                   (map fst forecast_mean) (map snd forecast_mean)
                   (map fst forecast_ci) (map snd forecast_ci)))
      (fun e =>
         Py.emit (LogError ("SARIMA forecast error: " ++ Py.str e)) ;;;
         Py.ret (sarima_failure ("SARIMA forecast failed: " ++ Py.str e))).

(** [df['date'].max()] of a non-empty frame. *)
Definition last_date (df : list DailyRow) : Timestamp :=
  match df with
  | [] => 0%Z
  | r :: _ => max_date (date r) (map date df)
  end.

(** [ForecastingEngine.generate_prophet_forecast] *)
Definition generate_prophet_forecast (df : list DailyRow) (forecast_months : Z)
  : Py.M event ProphetResult :=
  if negb available || (length df =? 0)%nat || (length df <? 30)%nat then
    Py.ret (prophet_failure
              "Insufficient data for Prophet forecast (minimum 30 days required)")
  else
    Py.try_except
      (let prophet_df := daily_series df in
       model <- call_Prophet_fit prophet_df ;;
       forecast <- call_Prophet_predict model (forecast_months * 30) ;;
       let historical :=
         filter (fun r => (ds r <=? last_date df)%Z) forecast in
       let future :=
         filter (fun r => negb (ds r <=? last_date df)%Z) forecast in
       Py.ret (mkProphetResult true None
                 (map ds historical ++ map ds future)%list
                 (map (fun r => Some (quantity r)) df
                  ++ map (fun _ => None) future)%list
                 (map yhat historical ++ map yhat future)%list
                 (map (fun _ => None) historical
                  ++ map (fun r => Some (yhat_lower r)) future)%list
                 (map (fun _ => None) historical
                  ++ map (fun r => Some (yhat_upper r)) future)%list
                 (map yearly forecast)))
      (fun e =>
         Py.emit (LogError ("Prophet forecast error: " ++ Py.str e)) ;;;
         Py.ret (prophet_failure ("Prophet forecast failed: " ++ Py.str e))).

(** [ForecastingEngine.process_medicine_forecasts]; both forecasts are
    called with their default horizons. *)
Definition process_medicine_forecasts
    (medicine_id : Z) (medicine_name : string) (sales_data : series)
  : Py.M event MedicineForecasts :=
  let df := prepare_time_series_data sales_data medicine_name in
  match df with
  | [] =>
    Py.ret (mkMedicineForecasts medicine_id medicine_name 0 []
              (sarima_failure "No sales data available")
              (prophet_failure "No sales data available"))
  | _ =>
    let total_quantity := qsum (map quantity df) in
    let weekly_trends := resample_weekly_sum (daily_series df) in
    let sales_trends :=
      map (fun w => (fst w, snd w, get_season (month_of (fst w)))) weekly_trends in
    sarima_forecast <- generate_sarima_forecast df 12 ;;
    prophet_forecast <- generate_prophet_forecast df 3 ;;
    Py.ret (mkMedicineForecasts medicine_id medicine_name
              (py_int total_quantity) sales_trends
              sarima_forecast prophet_forecast)
  end.

End WithLibraries.

(** The insufficient-data results of [generate_sarima_forecast], and the
    warning of [get_timeseries_forecast_sarima]. *)
Definition insufficient_data : SarimaResult :=
  sarima_failure
    "Insufficient data for SARIMA forecast (minimum 24 weeks required)".

Definition insufficient_weekly_data (weeks : nat) : SarimaResult :=
  sarima_failure
    ("Insufficient weekly data for SARIMA forecast ("
     ++ str_of_nat weeks ++ " weeks)").

Definition insufficient_warning (weeks : nat) : list event :=
  [ Print ("Warning: Insufficient data (" ++ str_of_nat weeks
           ++ " weeks) for reliable SARIMA forecast.");
    Print "  Minimum 24 weeks recommended. Skipping forecast." ].

(** The gate as a function of the number of weekly observations alone: at
    23 weeks an insufficient-data failure and no fit, from 24 weeks on a
    fit; [r] is the run of [generate_sarima_forecast] on a frame whose
    weekly series has [weeks] observations. *)
Definition gate_on_weeks_alone
    (r : Py.outcome SarimaResult * list event) (weeks : nat) : Prop :=
  (weeks = 23 ->
   exists res, fst r = Py.Return res /\ sa_success res = false /\
               existsb is_sarimax_fit (snd r) = false) /\
  (24 <= weeks -> existsb is_sarimax_fit (snd r) = true).

End Forecast.

(** ** Ordering plans

    Engine.py: [get_season_timing], [generate_ordering_calendar] and the
    budget allocation of [generate_actionable_insights], computed from the
    recommendation frame. *)

Module Planning.
Import Prim Engine.
Local Open Scope string_scope.

(** [Series.sum()] of a column of integers. *)
Definition zsum (xs : list Z) : Z := fold_right Z.add 0%Z xs.

(** [round(x, 1)] of a float: to one decimal, halves to the even
    neighbour. *)
Definition round1 (x : Q) : Q :=
  (inject_Z (round_half_even (x * 10)) / 10)%Q.

Record SeasonInfo := mkSeasonInfo {
  months : string;
  month_numbers : list Z;
  order_before : string;
  peak_months : string;
  duration_days : Z
}.

(** [get_season_timing]: [season_info.get(season, {})], [None] being the
    empty dict of a season that is not a key. *)
Definition get_season_timing (season : string) : option SeasonInfo :=
  if String.eqb season "Summer" then
    Some (mkSeasonInfo "February to May" [2; 3; 4; 5]%Z "Late January"
                       "March-April" 120)
  else if String.eqb season "Monsoon" then
    Some (mkSeasonInfo "June to September" [6; 7; 8; 9]%Z "Late May"
                       "July-August" 120)
  else if String.eqb season "Winter" then
    Some (mkSeasonInfo "October to January" [10; 11; 12; 1]%Z "Late September"
                       "November-December" 120)
  else None.

(** A row of the ordering calendar. *)
Record ScheduleRow := mkScheduleRow {
  week : string;
  action : string;
  medicines_count : nat;
  total_quantity : Z;
  estimated_cost_INR : Q;
  priority : string
}.

(** [generate_ordering_calendar] *)
Definition generate_ordering_calendar
    (target_season : string) (recommendations_df : list Recommendation)
  : list ScheduleRow :=
  let season_info := get_season_timing target_season in
  let critical_items := head 10 (filter is_fast_mover recommendations_df) in
  let high_priority := iloc 10 30 recommendations_df in
  let medium_priority := iloc 30 60 recommendations_df in
  [ mkScheduleRow "1-2 (Early Season)" "ORDER CRITICAL FAST-MOVERS"
      (length critical_items)
      (zsum (map suggested_stock_quantity critical_items))
      (qsum (map total_revenue critical_items))
      "URGENT";
    mkScheduleRow "3-4 (Pre-Peak)" "ORDER HIGH PRIORITY ITEMS"
      (length high_priority)
      (zsum (map suggested_stock_quantity high_priority))
      (qsum (map total_revenue high_priority))
      "HIGH";
    mkScheduleRow "5-8 (Mid-Season)" "ORDER MEDIUM PRIORITY ITEMS"
      (length medium_priority)
      (zsum (map suggested_stock_quantity medium_priority))
      (qsum (map total_revenue medium_priority))
      "MEDIUM";
    mkScheduleRow "9-12 (Peak Season)" "RESTOCK FAST-MOVING ITEMS"
      (length critical_items)
      (py_int (inject_Z (zsum (map suggested_stock_quantity critical_items))
               * (5 # 10))%Q)
      (qsum (map total_revenue critical_items) * (5 # 10))%Q
      "RESTOCK" ].

(** An entry of [insights['budget_allocation']]; the percentage is [None]
    when the division by a total revenue of 0 gives NaN or an infinity. *)
Record BudgetEntry := mkBudgetEntry {
  tier_medicines_count : nat;
  total_units : Z;
  estimated_budget_INR : Q;
  percentage_of_total : option Q
}.

(** The body of the loop of [generate_actionable_insights] that fills
    [insights['budget_allocation']]: a tier without rows gets no entry. *)
Definition budget_entry (total : Q)
    (item : Priority.level * list (Priority.tiered Recommendation))
  : list (Priority.level * BudgetEntry) :=
  let (priority_level, priority_df) := item in
  let rows := Priority.rows_of priority_df in
  match rows with
  | [] => []
  | _ =>
    [ (priority_level,
       mkBudgetEntry
         (length rows)
         (zsum (map suggested_stock_quantity rows))
         (qsum (map total_revenue rows))
         (if Qeq_bool total 0 then None
          else Some (round1 (qsum (map total_revenue rows) / total * 100)%Q))) ]
  end.

(** [insights['budget_allocation']], over the tiers of
    [categorize_medicines_by_priority] in the order of the dict. *)
Definition budget_allocation (recommendations_df : list Recommendation)
  : list (Priority.level * BudgetEntry) :=
  let prioritized := Priority.categorize_medicines_by_priority recommendations_df in
  flat_map (budget_entry (qsum (map total_revenue recommendations_df))) prioritized.

End Planning.

(** ** From the raw frame to the seasons

    Engine.py: the record summary that ends [clean_data], and
    [create_features] on the cleaned frame. *)

Module Pipeline.
Import Prim Calendar Sanitizer.
Local Open Scope string_scope.

Section WithParsers.

Variable to_datetime : string -> option Timestamp.
Variable numeric_of_string : string -> option Q.
Variable int_of_string : string -> option Z.

(** The rows that pass the two [dropna] and the two comparisons of
    [clean_data], as a mask on the raw frame. *)
Definition retained (r : RawRow) : bool :=
  has_critical r
  && positive (to_numeric numeric_of_string (quantity r))
  && positive (to_numeric numeric_of_string (unit_price r)).

(** [clean_data] with the summary it prints before it returns:
    [total_removed/initial_rows*100] and [final_rows/initial_rows*100]
    divide by the number of rows of the input. *)
Definition clean_data_with_summary (df : list RawRow)
  : Py.outcome (list CleanRow) :=
  let initial_rows := length df in
  Py.obind (clean_data to_datetime numeric_of_string int_of_string df)
    (fun df_clean =>
       if (initial_rows =? 0)%nat
       then Py.Raise (Py.Exception "division by zero")
       else Py.Return df_clean).

End WithParsers.

(** A row of the frame of [create_features], restricted to the columns the
    later steps read; [Month] is NaN ([None]) where the date is NaT. *)
Record Featured := mkFeatured {
  cleaned : CleanRow;
  Month : option Z;
  Season : string
}.

(** [month in months] for a month that may be NaN: NaN equals nothing. *)
Definition month_in (month : option Z) (months : list Z) : bool :=
  match month with
  | Some m => existsb (Z.eqb m) months
  | None => false
  end.

(** The inner [get_season] of [create_features], applied to the [Month]
    column. *)
Definition get_season (month : option Z) : string :=
  if month_in month [2; 3; 4; 5]%Z then "Summer"
  else if month_in month [6; 7; 8; 9]%Z then "Monsoon"
  else "Winter".

Definition create_features (df : list CleanRow) : list Featured :=
  map (fun r =>
         let month := option_map month_of (c_date r) in
         mkFeatured r month (get_season month))
      df.

End Pipeline.

(** ** The medicine key of the backend helpers (utils.py) *)

Module Keys.
Import Prim Calendar Sanitizer.
Local Open Scope string_scope.

(** [re.sub(r'\s+', ' ', text)] *)
Definition re_sub_spaces (text : string) : string := collapse_spaces false text.

(** [DataProcessor.clean_medicine_name]; [None] is a missing name. *)
Definition clean_medicine_name (name : option string) : string :=
  match name with
  | None => "UNKNOWN"
  | Some name => re_sub_spaces (upper (strip name))
  end.

End Keys.

(** ** The dashboard queries (analysis_engine.py) *)

Module Dashboard.
Import Prim Calendar Engine.
Local Open Scope string_scope.

(** [frame.loc[start:stop, 'priority'] = p] on a frame with the index
    0..N-1: a slice by label, both ends included. *)
Definition loc_set (start stop : Z) (p : Priority.level)
    (frame : list (Recommendation * Priority.level))
  : list (Recommendation * Priority.level) :=
  map (fun x : nat * (Recommendation * Priority.level) =>
         let (i, row) := x in
         if ((start <=? Z.of_nat i) && (Z.of_nat i <=? stop))%Z
         then (fst row, p) else row)
      (combine (seq 0 (length frame)) frame).

(** [max(int(total_medicines * fraction), 1)] *)
Definition count_of (total_medicines : nat) (fraction : Q) : Z :=
  Z.max (py_int (inject_Z (Z.of_nat total_medicines) * fraction)%Q) 1.

Record Summary := mkSummary {
  total_medicines : nat;
  critical_count : Z;
  high_count : Z;
  medium_count : Z;
  low_count : Z;
  fast_movers : nat;
  total_investment : Q;
  total_units : Z
}.

(** The dict of [get_seasonal_recommendations]; a row of [recommendations]
    is a recommendation with its [priority]. *)
Record SeasonalRecommendations := mkSeasonalRecommendations {
  recommendations : list (Recommendation * Priority.level);
  summary : Summary;
  top_10 : list (Recommendation * Priority.level);
  fast_movers_10 : list (Recommendation * Priority.level)
}.

(** The rows of a frame that carry the priority [p]. *)
Definition has_priority (p : Priority.level) (x : Recommendation * Priority.level)
  : bool :=
  match p, snd x with
  | Priority.CRITICAL, Priority.CRITICAL => true
  | Priority.HIGH, Priority.HIGH => true
  | Priority.MEDIUM, Priority.MEDIUM => true
  | Priority.LOW, Priority.LOW => true
  | _, _ => false
  end.

Definition count_priority (p : Priority.level)
    (frame : list (Recommendation * Priority.level)) : Z :=
  Z.of_nat (length (filter (has_priority p) frame)).

Section WithSort.

Variable sort_values_desc : list Scored -> list Scored.

(** [SeasonalAnalysisEngine.get_seasonal_recommendations]; [None] is the
    empty dict. *)
Definition get_seasonal_recommendations
    (df : list FeatRow) (target_season : string) (buffer : Q)
  : option SeasonalRecommendations :=
  match df with
  | [] => None
  | _ =>
    let season_data := filter (fun r => String.eqb (Season r) target_season) df in
    match season_data with
    | [] => None
    | r :: _ =>
      let recommendations := groupby_agg season_data in
      let days := days_in_season r season_data in
      let recommendations := map (score buffer days) recommendations in
      let recommendations := sort_values_desc recommendations in
      let recommendations := rank_and_flag (75 # 100) recommendations in
      let total_medicines := length recommendations in
      let critical_count := count_of total_medicines (20 # 100) in
      let high_count := count_of total_medicines (30 # 100) in
      let medium_count := count_of total_medicines (30 # 100) in
      let frame := map (fun rec => (rec, Priority.LOW)) recommendations in
      let frame := loc_set 0 (critical_count - 1) Priority.CRITICAL frame in
      let frame :=
        loc_set critical_count (critical_count + high_count - 1)
                Priority.HIGH frame in
      let frame :=
        loc_set (critical_count + high_count)
                (critical_count + high_count + medium_count - 1)
                Priority.MEDIUM frame in
      Some (mkSeasonalRecommendations
              frame
              (mkSummary
                 (length frame)
                 critical_count high_count medium_count
                 (Z.of_nat (length frame) - critical_count - high_count
                  - medium_count)
                 (length (filter (fun x => is_fast_mover (fst x)) frame))
                 (qsum (map (fun x => total_revenue (fst x)) frame))
                 (Planning.zsum
                    (map (fun x => suggested_stock_quantity (fst x)) frame)))
              (head 10 frame)
              (head 10 (filter (fun x => is_fast_mover (fst x)) frame)))
    end
  end.

End WithSort.

(** A row of [seasonal_breakdown]. *)
Record SeasonRow := mkSeasonRow {
  Total_Quantity : Q;
  Total_Revenue_INR : Q;
  Unique_Invoices : nat;
  Unique_Medicines : nat
}.

(** The dict of [get_seasonal_summary]; the two ends of [date_range] are
    kept as Timestamps rather than as their ISO text.  A season of
    [seasonal_breakdown] without sales holds NaN in every column
    ([None]). *)
Record SeasonalSummary := mkSeasonalSummary {
  seasonal_breakdown : list (string * option SeasonRow);
  total_records : Z;
  date_range : Timestamp * Timestamp;
  unique_medicines : nat;
  total_revenue : Q;
  total_quantity : Z
}.

(** The group of a season in [df.groupby('Season').agg(...)], looked up by
    [reindex]. *)
Definition season_row (df : list FeatRow) (season : string) : option SeasonRow :=
  match group_of Season season df with
  | [] => None
  | g =>
    Some (mkSeasonRow (qsum (map quantity g))
                      (qsum (map total_sales g))
                      (nunique (map invoice_id g))
                      (nunique (map medicine_name_clean g)))
  end.

(** The mock summary returned for an empty frame. *)
Definition mock_summary : SeasonalSummary :=
  mkSeasonalSummary
    [ ("Summer", Some (mkSeasonRow 1500 45000 120 45));
      ("Monsoon", Some (mkSeasonRow 1800 52000 140 50));
      ("Winter", Some (mkSeasonRow 2200 65000 160 55)) ]
    5500
    (days_from_civil 2023 1 1, days_from_civil 2023 12 31)
    60 162000 5500.

(** [SeasonalAnalysisEngine.get_seasonal_summary] *)
Definition get_seasonal_summary (df : list FeatRow) : SeasonalSummary :=
  match df with
  | [] => mock_summary
  | r :: _ =>
    let seasonal_sales :=
      map (fun season => (season, season_row df season))
          ["Summer"; "Monsoon"; "Winter"] in
    mkSeasonalSummary
      seasonal_sales
      (Z.of_nat (length df))
      (min_date (date r) (map date df), max_date (date r) (map date df))
      (nunique (map medicine_name_clean df))
      (qsum (map total_sales df))
      (py_int (qsum (map quantity df)))
  end.

(** A row of the chart of [get_priority_distribution]. *)
Record DistributionRow := mkDistributionRow {
  priority : string;
  count : Z;
  percentage : Q
}.

(** The inner [get_priority] of [get_priority_distribution]. *)
Definition get_priority (score : Enhanced.xfloat) : string :=
  if Enhanced.xge score (8 # 10) then "Critical"
  else if Enhanced.xge score (6 # 10) then "High"
  else if Enhanced.xge score (4 # 10) then "Medium"
  else "Low".

(** The mock distribution returned for an empty frame. *)
Definition mock_distribution : list DistributionRow :=
  [ mkDistributionRow "Critical" 5 20;
    mkDistributionRow "High" 8 32;
    mkDistributionRow "Medium" 7 28;
    mkDistributionRow "Low" 5 20 ].

(** [SeasonalAnalysisEngine.get_priority_distribution]; the groupby is
    that of [get_enhanced_medicines], of which the mean of [unit_price] is
    not read here. *)
Definition get_priority_distribution (df : list Enhanced.SaleRow)
  : list DistributionRow :=
  match df with
  | [] => mock_distribution
  | _ =>
    let top_medicines := Enhanced.top_medicines_of df in
    let max_revenue := Enhanced.qmax (map Enhanced.tm_total_revenue top_medicines) in
    let priorities :=
      map (fun m => get_priority
                      (Enhanced.xdiv (Enhanced.tm_total_revenue m) max_revenue))
          top_medicines in
    map (fun priority =>
           let count := count_occ string_dec priorities priority in
           mkDistributionRow
             priority
             (Z.of_nat count)
             (Planning.round1
                (inject_Z (Z.of_nat count)
                 / inject_Z (Z.of_nat (length top_medicines)) * 100)%Q))
        ["Critical"; "High"; "Medium"; "Low"]
  end.

End Dashboard.

(** ** The Prophet forecast of the script (Engine.py) *)

Module Script.
Import Prim Calendar Forecast.
Local Open Scope string_scope.
Local Open Scope py_scope.

(** [Timestamp.year] *)
Definition year_of (t : Timestamp) : Z :=
  let z := (t + 719468)%Z in
  let era := (z / 146097)%Z in
  let doe := (z - era * 146097)%Z in
  let yoe := ((doe - doe / 1460 + doe / 36524 - doe / 146096) / 365)%Z in
  let doy := (doe - (365 * yoe + yoe / 4 - yoe / 100))%Z in
  let mp := ((5 * doy + 2) / 153)%Z in
  (yoe + era * 400 + (if mp <? 10 then 0 else 1))%Z.

(** [ds.dt.to_period('M')]: the month of a year, as the number of months
    since year 0; periods are ordered as these numbers are. *)
Definition to_period_M (t : Timestamp) : Z := (year_of t * 12 + (month_of t - 1))%Z.

(** A row of the returned [monthly_forecast]. *)
Record MonthlyRow := mkMonthlyRow {
  Month : Z;
  Predicted_Quantity : Z;
  Lower_Bound : Z;
  Upper_Bound : Z
}.

(** [med_data.groupby('date')['quantity'].sum().reset_index()] *)
Definition daily_sales_of (med_data : list Engine.FeatRow) : series :=
  map (fun d =>
         (d, qsum (map Engine.quantity
                       (filter (fun r => (Engine.date r =? d)%Z) med_data))))
      (isort Z.leb (nodup Z.eq_dec (map Engine.date med_data))).

(** [future_forecast.groupby('month').agg({'yhat': 'sum', 'yhat_lower':
    'sum', 'yhat_upper': 'sum'}).reset_index()], then the three columns
    rounded and cast to int. *)
Definition monthly_forecast_of (future_forecast : list ProphetRow)
  : list MonthlyRow :=
  map (fun month =>
         let g := filter (fun r => (to_period_M (ds r) =? month)%Z) future_forecast in
         mkMonthlyRow month
                      (round_int (qsum (map yhat g)))
                      (round_int (qsum (map yhat_lower g)))
                      (round_int (qsum (map yhat_upper g))))
      (isort Z.leb (nodup Z.eq_dec (map (fun r => to_period_M (ds r)) future_forecast))).

(** [daily_sales['ds'].max()] of a non-empty frame. *)
Definition last_ds (daily_sales : series) : Timestamp :=
  match daily_sales with
  | [] => 0%Z
  | (d, _) :: _ => max_date d (map fst daily_sales)
  end.

Section WithLibraries.

Variable ProphetModel : Type.
Variable Prophet_fit : series -> Py.outcome ProphetModel.
Variable Prophet_predict : ProphetModel -> Z -> Py.outcome (list ProphetRow).
Variable savefig : string -> Py.outcome unit.

(** [Engine.get_timeseries_forecast_prophet]; the progress lines it prints
    are left out, the error and warning lines are events, written without
    the marker glyph and the line break that precede them. *)
Definition get_timeseries_forecast_prophet
    (df : list Engine.FeatRow) (medicine_name : string) (forecast_months : Z)
  : Py.M event (option (list MonthlyRow)) :=
  let med_data :=
    filter (fun r => String.eqb (Engine.medicine_name_clean r) medicine_name) df in
  match med_data with
  | [] =>
    Py.emit (Print ("Error: No data found for medicine '" ++ medicine_name ++ "'")) ;;;
    Py.ret None
  | _ =>
    let daily_sales := daily_sales_of med_data in
    if (length daily_sales <? 30)%nat then
      Py.emit (Print ("Warning: Insufficient data ("
                      ++ str_of_nat (length daily_sales)
                      ++ " days) for reliable Prophet forecast.")) ;;;
      Py.emit (Print "  Minimum 30 days recommended. Skipping forecast.") ;;;
      Py.ret None
    else
      Py.try_except
        (model <- call_Prophet_fit Prophet_fit daily_sales ;;
         forecast <- call_Prophet_predict Prophet_predict model
                                          (forecast_months * 30) ;;
         call_savefig savefig
                      ("output/05_prophet_forecast_" ++ safe_name medicine_name
                       ++ ".png") ;;;
         let future_forecast :=
           filter (fun r => (last_ds daily_sales <? ds r)%Z) forecast in
         Py.ret (Some (monthly_forecast_of future_forecast)))
      (fun e =>
         Py.emit (Print ("Error during Prophet forecasting: " ++ Py.str e)) ;;;
         Py.ret None)
  end.

End WithLibraries.

End Script.

(** ** The order of the ranking *)

Module Ranking.
Import Prim Engine.

(** A row of better rank has the lower rank number and at least the
    sales, the daily average and (with a buffer of -100 % or more) the
    suggested stock of a row of worse rank. *)
Definition outranks (buffer : Q) (a b : Recommendation) : Prop :=
  rank a < rank b /\
  (last_season_sales b <= last_season_sales a)%Q /\
  (daily_avg_sales b <= daily_avg_sales a)%Q /\
  ((0 <= 1 + buffer)%Q ->
   (suggested_stock_quantity b <= suggested_stock_quantity a)%Z).

End Ranking.

(** ** The week plans (analysis_engine.py) *)

Module WeekPlans.
Import Prim Enhanced.
Local Open Scope string_scope.

(** A dict of the list of weeks; [status] is absent ([None]) until the
    last loop sets it. *)
Record WeekPlan := mkWeekPlan {
  week : string;
  priority : string;
  items : list string;
  estimatedCost : Z;
  status : option string
}.

(** The mock plans returned for an empty frame. *)
Definition mock_plans : list WeekPlan :=
  [ mkWeekPlan "Week 1 (Dec 1-7)" "critical"
      ["CROCIN COLD & FLU SYRUP"; "VICKS ACTION 500 SYRUP"; "TIXYLIX COUGH SYRUP"]
      15000 (Some "pending");
    mkWeekPlan "Week 2 (Dec 8-14)" "high"
      ["PARACETAMOL 500MG"; "CETIRIZINE 10MG"; "AMOXICILLIN 250MG"]
      8000 (Some "pending");
    mkWeekPlan "Week 3 (Dec 15-21)" "medium"
      ["OMEPRAZOLE 20MG"; "METFORMIN 500MG"; "ATENOLOL 50MG"]
      5000 (Some "pending");
    mkWeekPlan "Week 4 (Dec 22-28)" "low"
      ["VITAMIN D3"; "CALCIUM TABLETS"; "MULTIVITAMIN"]
      3000 (Some "pending") ].

(** [weeks[week_idx]] updated in place, for an index of the list. *)
Fixpoint update (week_idx : nat) (f : WeekPlan -> WeekPlan) (weeks : list WeekPlan)
  : list WeekPlan :=
  match weeks, week_idx with
  | [], _ => []
  | w :: rest, O => f w :: rest
  | w :: rest, S i => w :: update i f rest
  end.

(** The body of the loop that distributes the medicines. *)
Definition place (weeks : list WeekPlan) (x : nat * TopMedicine) : list WeekPlan :=
  let (idx, medicine) := x in
  let week_idx := Nat.min (idx / 3) 3 in
  update week_idx
         (fun w =>
            mkWeekPlan (week w) (priority w)
                       (items w ++ [tm_medicine_name medicine])
                       (estimatedCost w
                        + py_int (tm_total_revenue medicine * (1 # 10))%Q)
                       (status w))
         weeks.

Section WithSort.

(** [sort_values('total_revenue', ascending=False)], with pandas' default
    unstable kind. *)
Variable sort_by_revenue : list TopMedicine -> list TopMedicine.

(** [SeasonalAnalysisEngine.get_week_plans]; the groupby is that of
    [get_enhanced_medicines], of which the mean of [unit_price] is not
    read here. *)
Definition get_week_plans (df : list SaleRow) : list WeekPlan :=
  match df with
  | [] => mock_plans
  | _ =>
    let top_medicines := sort_by_revenue (top_medicines_of df) in
    let weeks :=
      [ mkWeekPlan "Week 1 (Dec 1-7)" "critical" [] 0 None;
        mkWeekPlan "Week 2 (Dec 8-14)" "high" [] 0 None;
        mkWeekPlan "Week 3 (Dec 15-21)" "medium" [] 0 None;
        mkWeekPlan "Week 4 (Dec 22-28)" "low" [] 0 None ] in
    let weeks :=
      fold_left place
                (combine (seq 0 (length (head 12 top_medicines)))
                         (head 12 top_medicines))
                weeks in
    map (fun w => mkWeekPlan (week w) (priority w) (items w) (estimatedCost w)
                             (Some "pending"))
        weeks
  end.

End WithSort.

End WeekPlans.

(** ** Example frames *)

Module Examples.
Import Calendar Engine.
Local Open Scope string_scope.

(** Two sales of one medicine in March 2023. *)
Definition para_500 : list FeatRow :=
  [ feature_row (days_from_civil 2023 3 1) "INV-1" "PARA 500" 10 5;
    feature_row (days_from_civil 2023 3 15) "INV-2" "PARA 500" 20 5 ].


(** The frame of the database query for a season with three medicines. *)
Definition query_frame : list AggRow :=
  [ mkAggRow "CROCIN" 240 1200 31 5;
    mkAggRow "VICKS" 230 1150 12 5;
    mkAggRow "TIXYLIX" 60 900 7 15 ].

(** Parsers for the examples: dates written [YYYY-MM-DD], numbers written
    as a run of decimal digits.  pandas accepts more formats; it rejects, as
    these do, a text without any digit. *)
Definition digit (c : ascii) : option Z :=
  let n := nat_of_ascii c in
  if (48 <=? n)%nat && (n <=? 57)%nat then Some (Z.of_nat (n - 48)) else None.

Fixpoint digits (acc : Z) (s : string) : option Z :=
  match s with
  | EmptyString => Some acc
  | String c s' =>
    match digit c with
    | Some d => digits (10 * acc + d) s'
    | None => None
    end
  end.

Definition natural_of_string (s : string) : option Z :=
  match s with
  | EmptyString => None
  | _ => digits 0 s
  end.

Definition iso_date (s : string) : option Timestamp :=
  match natural_of_string (substring 0 4 s),
        natural_of_string (substring 5 2 s),
        natural_of_string (substring 8 2 s) with
  | Some y, Some m, Some d =>
    let t := days_from_civil y m d in
    if (String.length s =? 10)%nat
       && String.eqb (substring 4 1 s) "-" && String.eqb (substring 7 1 s) "-"
       && (1 <=? d)%Z && (d <=? 31)%Z && (month_of t =? m)%Z
    then Some t else None
  | _, _, _ => None
  end.

Definition numeric_of_digits (s : string) : option Q :=
  option_map inject_Z (natural_of_string s).

(** A raw row whose date is not a date. *)
Definition unparsed_date_row : Sanitizer.RawRow :=
  Sanitizer.mkRawRow (Some "not-a-date") (Some "10:30:00") (Some "INV-1")
    (Some "  Para   500 ") (Some "paracetamol") (Some "Crocin") (Some "GSK")
    (Some "MedSupply") (Some "Tablet") (Some "500mg") (Some "Analgesic")
    (Sanitizer.Num 0) (Sanitizer.Num 5) (Sanitizer.Num 2).

(** The same sale with a date, and with the quantity and the price of the
    two rows that must be dropped. *)
Definition dated_row (quantity unit_price : Sanitizer.cell) : Sanitizer.RawRow :=
  Sanitizer.mkRawRow (Some "2023-03-01") (Some "10:30:00") (Some "INV-1")
    (Some "  Para   500 ") None (Some "Crocin") (Some "GSK")
    (Some "MedSupply") (Some "Tablet") (Some "500mg") (Some "Analgesic")
    (Sanitizer.Num 0) quantity unit_price.

(** Stand-ins for the fitting libraries.  [naive_*] always succeed and
    forecast the mean of the series; [singular_fit] always raises. *)
Definition singular_fit (A : Type) (ts : Forecast.series) : Py.outcome A :=
  Py.Raise (Py.Exception "LU decomposition error.").

Definition naive_fit (ts : Forecast.series) : Py.outcome Forecast.series :=
  Py.Return ts.

Definition naive_get_forecast (model : Forecast.series) (steps : Z)
  : Py.outcome Forecast.SarimaxForecast :=
  let mean := Prim.qmean (map snd model) in
  let last := max_date 0%Z (map fst model) in
  Py.Return
    (Forecast.mkSarimaxForecast
       (map (fun i => ((last + 7 * Z.of_nat i)%Z, mean)) (seq 1 (Z.to_nat steps)))
       (map (fun _ => ((mean - 1)%Q, (mean + 1)%Q)) (seq 1 (Z.to_nat steps)))).

Definition naive_predict (model : Forecast.series) (periods : Z)
  : Py.outcome (list Forecast.ProphetRow) :=
  let mean := Prim.qmean (map snd model) in
  let last := max_date 0%Z (map fst model) in
  Py.Return
    (map (fun r => Forecast.mkProphetRow (fst r) mean (mean - 1)%Q (mean + 1)%Q 0%Q) model
     ++ map (fun i => Forecast.mkProphetRow (last + Z.of_nat i)%Z mean
                        (mean - 1)%Q (mean + 1)%Q 0%Q)
            (seq 1 (Z.to_nat periods)))%list.

Definition savefig_ok (path : string) : Py.outcome unit := Py.Return tt.

(** One sale of 3 units on each of [n] consecutive days (or Mondays) from
    Monday 2023-01-02. *)
Definition daily_sales (n : nat) : Forecast.series :=
  map (fun i => ((days_from_civil 2023 1 2 + Z.of_nat i)%Z, 3%Q)) (seq 0 n).

Definition weekly_sales (n : nat) : Forecast.series :=
  map (fun i => ((days_from_civil 2023 1 2 + 7 * Z.of_nat i)%Z, 3%Q)) (seq 0 n).

(** The same sales as rows of the feature-engineered frame. *)
Definition rows_of_series (medicine : string) (s : Forecast.series)
  : list FeatRow :=
  map (fun x => feature_row (fst x) "INV" medicine (snd x) 5) s.

(** Two sales of one medicine, 24 weeks apart: 25 weekly bins, 2 days. *)
Definition two_distant_sales : Forecast.series :=
  [ (days_from_civil 2023 1 2, 4%Q); (days_from_civil 2023 6 19, 6%Q) ].

End Examples.

(** ** Further example frames *)

Module SeasonExamples.
Import Calendar Engine.
Local Open Scope string_scope.

(** Five medicines sold in the monsoon of 2023. *)
Definition monsoon_2023 : list FeatRow :=
  [ feature_row (days_from_civil 2023 6 5) "INV-11" "CROCIN" 40 5;
    feature_row (days_from_civil 2023 6 19) "INV-12" "VICKS" 25 8;
    feature_row (days_from_civil 2023 7 2) "INV-13" "CROCIN" 35 5;
    feature_row (days_from_civil 2023 7 21) "INV-14" "TIXYLIX" 12 15;
    feature_row (days_from_civil 2023 8 8) "INV-15" "BRUFEN 400" 9 3;
    feature_row (days_from_civil 2023 8 30) "INV-16" "AMOXICILLIN 250" 4 12;
    feature_row (days_from_civil 2023 9 12) "INV-17" "VICKS" 6 8 ].

End SeasonExamples.

(** ** Further raw rows *)

Module RawExamples.
Import Sanitizer.
Local Open Scope string_scope.

(** A sale whose prescription flag is missing. *)
Definition unflagged_row (quantity : cell) : RawRow :=
  mkRawRow (Some "2023-07-14") (Some "18:05:00") (Some "INV-9")
    (Some "vicks  vaporub") (Some "menthol") (Some "Vicks") (Some "P&G")
    (Some "MedSupply") (Some "Balm") (Some "25g") (Some "Cold")
    Null quantity (Num 45).

(** Three rows: a monsoon sale, a sale with a negative quantity, and a
    sale whose date is not a date. *)
Definition three_rows : list RawRow :=
  [ mkRawRow (Some "2023-07-14") (Some "18:05:00") (Some "INV-9")
      (Some "vicks  vaporub") (Some "menthol") (Some "Vicks") (Some "P&G")
      (Some "MedSupply") (Some "Balm") (Some "25g") (Some "Cold")
      (Str "0") (Str "3") (Num 45);
    Examples.dated_row (Num (-5)) (Num 2);
    Examples.unparsed_date_row ].

End RawExamples.

(** ** A frame of the dashboard *)

Module DashboardExamples.
Import Enhanced.
Local Open Scope string_scope.

(** Sales of three medicines, in the columns the dashboard queries read. *)
Definition three_medicines : list SaleRow :=
  [ mkSaleRow "VICKS" 25 200 8;
    mkSaleRow "CROCIN" 40 200 5;
    mkSaleRow "TIXYLIX" 12 180 15;
    mkSaleRow "CROCIN" 35 175 5 ].

(** A sort of the medicines by revenue, largest first, that keeps tied
    rows in their order. *)
Definition sort_by_revenue (l : list TopMedicine) : list TopMedicine :=
  Prim.isort (fun a b => Qle_bool (tm_total_revenue b) (tm_total_revenue a)) l.

End DashboardExamples.

(** ** Lemmas on slices *)

Section Slices.
Import Prim.
Variable A : Type.
Implicit Types (l : list A) (a b : nat).

Lemma iloc_app_iloc_from l a b :
  a <= b -> iloc a b l ++ iloc_from b l = iloc_from a l.
Proof.
  unfold iloc, iloc_from. intros Hab.
  destruct (Nat.le_gt_cases a (length l)) as [Ha | Ha].
  - rewrite <- (firstn_skipn b l) at 3.
    rewrite skipn_app, length_firstn.
    replace (a - Nat.min b (length l)) with 0 by lia.
    reflexivity.
  - rewrite (skipn_all2 (firstn b l)) by (rewrite length_firstn; lia).
    rewrite !skipn_all2 by lia.
    reflexivity.
Qed.

Lemma head_app_iloc_from l a : head a l ++ iloc_from a l = l.
Proof. apply firstn_skipn. Qed.

Lemma length_head l a : length (head a l) = Nat.min a (length l).
Proof. apply length_firstn. Qed.

Lemma length_iloc l a b :
  length (iloc a b l) = Nat.min b (length l) - a.
Proof. unfold iloc. now rewrite length_skipn, length_firstn. Qed.

Lemma length_iloc_from l a : length (iloc_from a l) = length l - a.
Proof. apply length_skipn. Qed.

End Slices.

(** ** Priority tiers *)

Section PriorityFacts.
Import Prim Priority.
Variable A : Type.
Implicit Types (df : list A) (p : level).

Lemma labelled_tag p (rows : list A) : labelled p (tag p rows).
Proof.
  unfold labelled, tag. apply Forall_forall. intros x Hx.
  apply in_map_iff in Hx. destruct Hx as [r [<- _]]. now split.
Qed.

Lemma rows_of_tag p (rows : list A) : rows_of (tag p rows) = rows.
Proof.
  unfold rows_of, tag. rewrite map_map. simpl. apply map_id.
Qed.

Lemma length_tag p (rows : list A) : length (tag p rows) = length rows.
Proof. apply length_map. Qed.

Lemma categorize_by_priority_eq df :
  categorize_by_priority df = categorize_medicines_by_priority df.
Proof. destruct df; reflexivity. Qed.

(** The counts of the three leading bands, in closed form. *)
Lemma tier_count_CRITICAL n : tier_count n CRITICAL = Nat.max (n / 5) 1.
Proof.
  unfold tier_count, py_int.
  cbn [PRIORITY_LEVELS Qnum Qden Qmult inject_Z Pos.mul].
  rewrite Z.quot_div_nonneg by lia.
  change 100%Z with (5 * 20)%Z.
  rewrite Z.div_mul_cancel_r by lia.
  change 5%Z with (Z.of_nat 5). rewrite <- Nat2Z.inj_div, Nat2Z.id.
  reflexivity.
Qed.

Lemma tier_count_30 n p :
  p = HIGH \/ p = MEDIUM -> tier_count n p = Nat.max (3 * n / 10) 1.
Proof.
  intros [-> | ->]; unfold tier_count, py_int;
    cbn [PRIORITY_LEVELS Qnum Qden Qmult inject_Z Pos.mul];
    rewrite Z.quot_div_nonneg by lia;
    replace (Z.of_nat n * 30)%Z with (Z.of_nat (3 * n) * 10)%Z by lia;
    change 100%Z with (10 * 10)%Z;
    rewrite Z.div_mul_cancel_r by lia;
    change 10%Z with (Z.of_nat 10); rewrite <- Nat2Z.inj_div, Nat2Z.id;
    reflexivity.
Qed.

(** The four slices, whatever the three counts are. *)
Lemma slices_concat df a b c :
  head a df ++ iloc a (a + b) df ++ iloc (a + b) (a + b + c) df
    ++ iloc_from (a + b + c) df = df.
Proof.
  rewrite (@iloc_app_iloc_from A df (a + b) (a + b + c)) by lia.
  rewrite (@iloc_app_iloc_from A df a (a + b)) by lia.
  apply head_app_iloc_from.
Qed.

Lemma categorize_four_tiers df :
  df <> [] ->
  let n := length df in
  let a := tier_count n CRITICAL in
  let b := tier_count n HIGH in
  let c := tier_count n MEDIUM in
  four_tiers (categorize_medicines_by_priority df)
             (tag CRITICAL (head a df))
             (tag HIGH (iloc a (a + b) df))
             (tag MEDIUM (iloc (a + b) (a + b + c) df))
             (tag LOW (iloc_from (a + b + c) df)).
Proof.
  intros Hne. destruct df as [| x df']; [congruence |].
  unfold four_tiers. repeat split; try apply labelled_tag.
Qed.

(** The sizes of the four tiers of a frame of [n] rows. *)
Lemma tier_sizes df :
  let n := length df in
  let a := Nat.max (n / 5) 1 in
  let b := Nat.max (3 * n / 10) 1 in
  length (head (tier_count n CRITICAL) df) = Nat.min a n /\
  length (iloc (tier_count n CRITICAL)
               (tier_count n CRITICAL + tier_count n HIGH) df)
    = Nat.min (a + b) n - a /\
  length (iloc (tier_count n CRITICAL + tier_count n HIGH)
               (tier_count n CRITICAL + tier_count n HIGH + tier_count n MEDIUM) df)
    = Nat.min (a + b + b) n - (a + b) /\
  length (iloc_from (tier_count n CRITICAL + tier_count n HIGH
                     + tier_count n MEDIUM) df)
    = n - (a + b + b).
Proof.
  cbv zeta.
  rewrite length_head, !length_iloc, length_iloc_from.
  rewrite tier_count_CRITICAL.
  rewrite (@tier_count_30 _ HIGH) by now left.
  rewrite (@tier_count_30 _ MEDIUM) by now right.
  repeat split.
Qed.

End PriorityFacts.

(** C1. For every non-empty recommendation frame, both categorization
    functions return the four tiers CRITICAL, HIGH, MEDIUM, LOW, every row
    labelled with its tier; the tiers are consecutive slices of the frame
    (their concatenation, in that order, is the frame itself, so every row
    is in exactly one tier), and the four sizes add up to the total. *)
Theorem priority_tiers_partition (A : Type) (recommendations_df : list A) :
  recommendations_df <> [] ->
  exists critical high medium low,
    Priority.four_tiers
      (Priority.categorize_medicines_by_priority recommendations_df)
      critical high medium low /\
    Priority.four_tiers
      (Priority.categorize_by_priority recommendations_df)
      critical high medium low /\
    Priority.rows_of critical ++ Priority.rows_of high ++
      Priority.rows_of medium ++ Priority.rows_of low = recommendations_df /\
    length critical + length high + length medium + length low
      = length recommendations_df.
Proof.
  intros Hne.
  pose proof (categorize_four_tiers Hne) as H. cbv zeta in H.
  do 4 eexists. split; [exact H |]. split.
  - rewrite categorize_by_priority_eq. exact H.
  - rewrite !rows_of_tag. split.
    + apply slices_concat.
    + destruct (tier_sizes recommendations_df) as (Ha & Hb & Hc & Hd).
      rewrite !length_tag, Ha, Hb, Hc, Hd. lia.
Qed.

Lemma priority_tiers_partition_witness :
  exists critical high medium low,
    Priority.four_tiers
      (Priority.categorize_medicines_by_priority [1; 2; 3; 4; 5; 6; 7])
      critical high medium low /\
    Priority.four_tiers
      (Priority.categorize_by_priority [1; 2; 3; 4; 5; 6; 7])
      critical high medium low /\
    Priority.rows_of critical ++ Priority.rows_of high ++
      Priority.rows_of medium ++ Priority.rows_of low = [1; 2; 3; 4; 5; 6; 7] /\
    length critical + length high + length medium + length low = 7.
Proof.
  apply (@priority_tiers_partition nat [1; 2; 3; 4; 5; 6; 7]). discriminate.
Defined.

(** C2, counterexample.  With a single medicine the categorization returns
    the four tiers, but HIGH, MEDIUM and LOW are empty: the three counts are
    raised to 1, the slices beyond the end of the frame are empty. *)
Lemma single_medicine_tiers_not_populated :
  Priority.categorize_medicines_by_priority ["PARA 500"%string] =
    [ (Priority.CRITICAL,
       [Priority.Tiered "PARA 500"%string Priority.CRITICAL
                        "MUST ORDER IMMEDIATELY"%string]);
      (Priority.HIGH, []); (Priority.MEDIUM, []); (Priority.LOW, []) ] /\
  ~ Priority.all_tiers_populated
      (Priority.categorize_medicines_by_priority ["PARA 500"%string]).
Proof.
  split; [reflexivity |].
  intros (c & h & m & l & (Heq & _) & _ & Hh & _).
  vm_compute in Heq. injection Heq as _ <- _ _. simpl in Hh. lia.
Qed.

(** C2, amended.  For every non-empty frame the categorization returns the
    four tiers and CRITICAL has at least one member; all four tiers have at
    least one member exactly when the frame has at least four rows. *)
Theorem tiers_populated_iff_four_rows (A : Type) (recommendations_df : list A) :
  recommendations_df <> [] ->
  (exists critical high medium low,
     Priority.four_tiers
       (Priority.categorize_medicines_by_priority recommendations_df)
       critical high medium low /\
     1 <= length critical) /\
  (Priority.all_tiers_populated
     (Priority.categorize_medicines_by_priority recommendations_df)
   <-> 4 <= length recommendations_df).
Proof.
  intros Hne.
  pose proof (categorize_four_tiers Hne) as H. cbv zeta in H.
  destruct (tier_sizes recommendations_df) as (Ha & Hb & Hc & Hd).
  cbv zeta in Ha, Hb, Hc, Hd.
  assert (Hn : 1 <= length recommendations_df)
    by (destruct recommendations_df; [congruence | simpl; lia]).
  split.
  - do 4 eexists. split; [exact H |].
    rewrite length_tag, Ha. lia.
  - split.
    + intros (c & h & m & l & (Heq & _) & Hc1 & Hh1 & Hm1 & Hl1).
      destruct H as (Heq' & _). rewrite Heq' in Heq.
      injection Heq as <- <- <- <-.
      rewrite length_tag in Hc1, Hh1, Hm1, Hl1. lia.
    + intros H4. do 4 eexists. split; [exact H |].
      rewrite !length_tag, Ha, Hb, Hc, Hd.
      pose proof (Nat.Div0.div_mod (length recommendations_df) 5).
      pose proof (Nat.mod_upper_bound (length recommendations_df) 5).
      pose proof (Nat.Div0.div_mod (3 * length recommendations_df) 10).
      pose proof (Nat.mod_upper_bound (3 * length recommendations_df) 10).
      lia.
Qed.

Lemma tiers_populated_iff_four_rows_witness :
  (exists critical high medium low,
     Priority.four_tiers
       (Priority.categorize_medicines_by_priority [1; 2; 3; 4])
       critical high medium low /\
     1 <= length critical) /\
  (Priority.all_tiers_populated
     (Priority.categorize_medicines_by_priority [1; 2; 3; 4])
   <-> 4 <= 4).
Proof.
  apply (@tiers_populated_iff_four_rows nat [1; 2; 3; 4]). discriminate.
Defined.

(** ** Insertion sort *)

Section SortFacts.
Import Prim.
Variable A : Type.
Variable leb : A -> A -> bool.
Hypothesis leb_total : forall x y, leb x y = true \/ leb y x = true.

Lemma insert_sorted_perm (x : A) (l : list A) :
  Permutation (insert_sorted leb x l) (x :: l).
Proof.
  induction l as [| y l IH]; simpl.
  - apply Permutation_refl.
  - destruct (leb x y).
    + apply Permutation_refl.
    + apply perm_trans with (y :: x :: l).
      * now apply perm_skip.
      * apply perm_swap.
Qed.

Lemma isort_perm (l : list A) : Permutation (isort leb l) l.
Proof.
  induction l as [| x l IH]; simpl.
  - apply perm_nil.
  - apply perm_trans with (x :: isort leb l).
    + apply insert_sorted_perm.
    + now apply perm_skip.
Qed.

Lemma insert_sorted_hdrel (a x : A) (l : list A) :
  leb a x = true -> HdRel (fun u v => leb u v = true) a l ->
  HdRel (fun u v => leb u v = true) a (insert_sorted leb x l).
Proof.
  intros Hax Hl. destruct l as [| y l]; simpl.
  - now constructor.
  - destruct (leb x y); constructor; auto.
    now inversion Hl.
Qed.

Lemma insert_sorted_sorted (x : A) (l : list A) :
  Sorted (fun u v => leb u v = true) l ->
  Sorted (fun u v => leb u v = true) (insert_sorted leb x l).
Proof.
  induction l as [| y l IH]; simpl; intros Hs.
  - repeat constructor.
  - destruct (leb x y) eqn:Hxy.
    + constructor; [exact Hs | now constructor].
    + inversion Hs as [| ? ? Hs' Hhd]; subst.
      constructor; [now apply IH |].
      apply insert_sorted_hdrel; [| exact Hhd].
      destruct (leb_total x y) as [H | H]; [congruence | exact H].
Qed.

Lemma isort_sorted (l : list A) : Sorted (fun u v => leb u v = true) (isort leb l).
Proof.
  induction l as [| x l IH]; simpl.
  - constructor.
  - now apply insert_sorted_sorted.
Qed.

End SortFacts.

(** ** Sums of rational columns *)

Section SumFacts.
Import Prim.
Local Open Scope Q_scope.

Lemma qsum_app (xs ys : list Q) : qsum (xs ++ ys) == qsum xs + qsum ys.
Proof.
  induction xs as [| x xs IH]; simpl.
  - lra.
  - rewrite IH. lra.
Qed.

Lemma qsum_perm (xs ys : list Q) : Permutation xs ys -> qsum xs == qsum ys.
Proof.
  induction 1 as [| x l l' _ IH | x y l | l l' l'' _ IH1 _ IH2]; simpl.
  - lra.
  - rewrite IH. lra.
  - lra.
  - now rewrite IH1.
Qed.

(** A mask and its complement split the sum of a column. *)
Lemma qsum_filter_split (A : Type) (f : A -> Q) (p : A -> bool) (l : list A) :
  qsum (map f l)
  == qsum (map f (filter p l)) + qsum (map f (filter (fun x => negb (p x)) l)).
Proof.
  induction l as [| x l IH]; simpl.
  - lra.
  - destruct (p x); simpl; rewrite IH; lra.
Qed.

Lemma qsum_nonneg (xs : list Q) : Forall (fun x => 0 <= x) xs -> 0 <= qsum xs.
Proof.
  induction 1; simpl; lra.
Qed.


End SumFacts.

(** ** Seasonal aggregation *)

Section GroupbyFacts.
Import Prim.
Local Open Scope Q_scope.
Variable A : Type.
Variable key : A -> string.

Lemma group_keys_NoDup (rows : list A) : NoDup (group_keys key rows).
Proof.
  unfold group_keys.
  apply Permutation_NoDup with (nodup string_dec (map key rows)).
  - apply Permutation_sym, isort_perm.
  - apply NoDup_nodup.
Qed.

Lemma group_keys_In (rows : list A) k :
  In k (group_keys key rows) <-> exists r, In r rows /\ key r = k.
Proof.
  unfold group_keys. split.
  - intros H. apply (Permutation_in _ (isort_perm String.leb _)) in H.
    apply nodup_In, in_map_iff in H. destruct H as (r & <- & Hr). now exists r.
  - intros (r & Hr & <-).
    apply (Permutation_in _ (Permutation_sym (isort_perm String.leb _))).
    apply nodup_In, in_map. exact Hr.
Qed.

(** Rows of another key do not change a group. *)
Lemma group_of_drop_other k k' (rows : list A) :
  k' <> k ->
  group_of key k' (filter (fun r => negb (String.eqb (key r) k)) rows)
  = group_of key k' rows.
Proof.
  intros Hne. unfold group_of. induction rows as [| r rows IH]; simpl.
  - reflexivity.
  - destruct (String.eqb_spec (key r) k) as [E | E]; simpl.
    + rewrite IH.
      destruct (String.eqb_spec (key r) k'); [congruence | reflexivity].
    + rewrite IH. reflexivity.
Qed.

(** Summing a column group by group over distinct keys that cover the
    frame gives the sum of the column. *)
Lemma group_sums (f : A -> Q) (keys : list string) :
  NoDup keys ->
  forall rows,
    (forall r, In r rows -> In (key r) keys) ->
    qsum (map (fun k => qsum (map f (group_of key k rows))) keys)
    == qsum (map f rows).
Proof.
  induction 1 as [| k keys Hnotin Hnd IH]; intros rows Hcover.
  - destruct rows as [| r rows]; simpl.
    + reflexivity.
    + destruct (Hcover r (or_introl eq_refl)).
  - simpl.
    set (rest := filter (fun r => negb (String.eqb (key r) k)) rows).
    assert (Hrest : map (fun k' => qsum (map f (group_of key k' rows))) keys
                    = map (fun k' => qsum (map f (group_of key k' rest))) keys).
    { apply map_ext_in. intros k' Hk'. unfold rest.
      rewrite group_of_drop_other; [reflexivity |].
      intros ->. contradiction. }
    rewrite Hrest, (IH rest).
    + rewrite (qsum_filter_split f (fun r => String.eqb (key r) k) rows).
      reflexivity.
    + intros r Hr. unfold rest in Hr. apply filter_In in Hr.
      destruct Hr as [Hr Hk].
      destruct (Hcover r Hr) as [E | E]; [| exact E].
      subst k. rewrite String.eqb_refl in Hk. discriminate.
Qed.

End GroupbyFacts.

Section AggregateFacts.
Import Prim Engine.

Lemma groupby_agg_names rows :
  map agg_medicine_name (groupby_agg rows) = group_keys medicine_name_clean rows.
Proof.
  unfold groupby_agg. rewrite map_map. simpl. apply map_id.
Qed.

Lemma groupby_agg_sales rows :
  map agg_last_season_sales (groupby_agg rows)
  = map (fun k => qsum (map quantity (group_of medicine_name_clean k rows)))
        (group_keys medicine_name_clean rows).
Proof.
  unfold groupby_agg. rewrite map_map. reflexivity.
Qed.


End AggregateFacts.

(** C6. For every frame of transactions and every season, the aggregate has
    one row per distinct medicine of the season, and the sum of its
    quantity totals equals the sum of [quantity] over the transactions of
    that season. *)
Theorem seasonal_totals_preserve_quantity
    (df : list Engine.FeatRow) (target_season : string) :
  let season_data :=
    filter (fun r => String.eqb (Engine.Season r) target_season) df in
  let aggregates := Engine.groupby_agg season_data in
  NoDup (map Engine.agg_medicine_name aggregates) /\
  (forall key,
     In key (map Engine.agg_medicine_name aggregates) <->
     exists r, In r season_data /\ Engine.medicine_name_clean r = key) /\
  (Prim.qsum (map Engine.agg_last_season_sales aggregates)
   == Prim.qsum (map Engine.quantity season_data))%Q.
Proof.
  cbv zeta.
  set (season_data := filter _ df).
  rewrite groupby_agg_names, groupby_agg_sales.
  split; [apply group_keys_NoDup |].
  split; [intros key; apply group_keys_In |].
  apply group_sums.
  - apply group_keys_NoDup.
  - intros r Hr. apply group_keys_In. now exists r.
Qed.

(** ** Numeric primitives *)

Section NumericFacts.
Import Prim.
Local Open Scope Q_scope.

(** On a non-negative number [int()] is the floor. *)
Lemma py_int_floor (x : Q) : 0 <= x -> py_int x = Qfloor x.
Proof.
  destruct x as [n d]. unfold py_int, Qfloor, Qle. simpl.
  intros H. apply Z.quot_div_nonneg; lia.
Qed.

Lemma exists_max (xs : list Q) :
  xs <> [] -> exists m, In m xs /\ forall x, In x xs -> x <= m.
Proof.
  induction xs as [| x xs IH]; [congruence | intros _].
  destruct xs as [| y ys].
  - exists x. split; [now left |]. intros z [<- | []]. lra.
  - destruct IH as (m & Hm & Hmax); [discriminate |].
    destruct (Qlt_le_dec m x) as [Hlt | Hle].
    + exists x. split; [now left |].
      intros z [<- | Hz]; [lra |]. specialize (Hmax z Hz). lra.
    + exists m. split; [now right |].
      intros z [<- | Hz]; [exact Hle | now apply Hmax].
Qed.

(** The interpolated quantile of a non-empty column is at most its maximum. *)
Lemma quantile_le_max (q : Q) (xs : list Q) (m : Q) :
  0 <= q -> q <= 1 ->
  In m xs -> (forall x, In x xs -> x <= m) ->
  exists t, quantile q xs = Some t /\ t <= m.
Proof.
  intros Hq0 Hq1 Hin Hmax.
  unfold quantile. destruct xs as [| x0 xs0] eqn:Exs; [destruct Hin |].
  rewrite <- Exs in *. clear Exs x0 xs0.
  set (n := length xs).
  set (pos := q * inject_Z (Z.of_nat (n - 1))).
  set (v := isort Qle_bool xs).
  assert (Hn : (1 <= n)%nat).
  { unfold n. destruct xs; [destruct Hin | simpl; lia]. }
  assert (Hlen : length v = n)
    by (apply Permutation_length, isort_perm).
  assert (Hn1 : 0 <= inject_Z (Z.of_nat (n - 1))).
  { change 0 with (inject_Z 0). rewrite <- Zle_Qle. lia. }
  assert (Hpos0 : 0 <= pos) by (unfold pos; nra).
  assert (Hpos1 : pos <= inject_Z (Z.of_nat (n - 1))) by (unfold pos; nra).
  assert (Hf0 : (0 <= Qfloor pos)%Z).
  { change 0%Z with (Qfloor 0). now apply Qfloor_resp_le. }
  assert (Hf1 : (Qfloor pos <= Z.of_nat (n - 1))%Z).
  { rewrite <- (Qfloor_Z (Z.of_nat (n - 1))). now apply Qfloor_resp_le. }
  assert (Hv : forall i, (i < n)%nat -> nth i v 0 <= m).
  { intros i Hi. apply Hmax.
    apply (Permutation_in _ (isort_perm Qle_bool xs)).
    apply nth_In. fold v. lia. }
  pose proof (Qfloor_le pos) as Hfl.
  pose proof (Qlt_floor pos) as Hfu.
  rewrite inject_Z_plus in Hfu. change (inject_Z 1) with 1 in Hfu.
  eexists. split; [reflexivity |].
  set (a := nth (Z.to_nat (Qfloor pos)) v 0).
  set (b := nth (Nat.min (Z.to_nat (Qfloor pos) + 1) (n - 1)) v 0).
  assert (Ha : a <= m) by (apply Hv; lia).
  assert (Hb : b <= m) by (apply Hv; lia).
  set (frac := pos - inject_Z (Qfloor pos)).
  assert (Hfr0 : 0 <= frac) by (unfold frac; lra).
  assert (Hfr1 : frac <= 1) by (unfold frac; lra).
  nra.
Qed.

End NumericFacts.

(** ** Ranking and fast movers *)

Section RankFacts.
Import Prim Engine.
Local Open Scope Q_scope.

Lemma map_fst_combine (A B : Type) (l1 : list A) (l2 : list B) :
  length l1 = length l2 -> map fst (combine l1 l2) = l1.
Proof.
  revert l2. induction l1 as [| a l1 IH]; intros [| b l2] H; simpl in *;
    try reflexivity; try discriminate.
  f_equal. apply IH. lia.
Qed.

Lemma map_snd_combine (A B : Type) (l1 : list A) (l2 : list B) :
  length l1 = length l2 -> map snd (combine l1 l2) = l2.
Proof.
  revert l2. induction l1 as [| a l1 IH]; intros [| b l2] H; simpl in *;
    try reflexivity; try discriminate.
  f_equal. apply IH. lia.
Qed.

Lemma add_rank_fst rows : map fst (add_rank rows) = seq 1 (length rows).
Proof. apply map_fst_combine, length_seq. Qed.

Lemma add_rank_snd rows : map snd (add_rank rows) = rows.
Proof. apply map_snd_combine, length_seq. Qed.

Lemma rank_and_flag_rank q sorted :
  map rank (rank_and_flag q sorted) = seq 1 (length sorted).
Proof.
  unfold rank_and_flag. rewrite map_map, <- add_rank_fst.
  apply map_ext. now intros [k r].
Qed.

Lemma rank_and_flag_length q sorted :
  length (rank_and_flag q sorted) = length sorted.
Proof.
  rewrite <- (length_map rank), rank_and_flag_rank. apply length_seq.
Qed.

(** A column of the result that does not depend on rank and threshold is
    the column of the sorted frame. *)
Lemma rank_and_flag_column (B : Type) (f : Recommendation -> B) (g : Scored -> B)
    q sorted :
  (forall t k r, f (finish t (k, r)) = g r) ->
  map f (rank_and_flag q sorted) = map g sorted.
Proof.
  intros Hfg. unfold rank_and_flag. rewrite map_map.
  transitivity (map g (map snd (add_rank sorted))).
  - rewrite map_map. apply map_ext. intros [k r]. apply Hfg.
  - now rewrite add_rank_snd.
Qed.

Lemma rank_and_flag_sales q sorted :
  map last_season_sales (rank_and_flag q sorted) = map sc_key sorted.
Proof. now apply rank_and_flag_column. Qed.

Lemma rank_and_flag_daily q sorted :
  map daily_avg_sales (rank_and_flag q sorted) = map sc_daily_avg_sales sorted.
Proof. now apply rank_and_flag_column. Qed.

Lemma rank_and_flag_names q sorted :
  map medicine_name (rank_and_flag q sorted)
  = map (fun r => agg_medicine_name (sc_agg r)) sorted.
Proof. now apply rank_and_flag_column. Qed.

(** Every row of the result comes from a row of the sorted frame. *)
Lemma In_rank_and_flag q sorted rec :
  In rec (rank_and_flag q sorted) ->
  exists r,
    In r sorted /\
    last_season_sales rec = sc_key r /\
    suggested_stock_quantity rec = sc_suggested_stock_quantity r /\
    daily_avg_sales rec = sc_daily_avg_sales r /\
    is_fast_mover rec
      = ge_nan (sc_daily_avg_sales r)
               (quantile q (map sc_daily_avg_sales sorted)).
Proof.
  unfold rank_and_flag. intros H. apply in_map_iff in H.
  destruct H as ([k r] & <- & Hin).
  exists r. split.
  - rewrite <- (add_rank_snd sorted). apply in_map_iff. now exists (k, r).
  - rewrite <- (map_map snd sc_daily_avg_sales), add_rank_snd.
    repeat split.
Qed.

(** The threshold is at most the largest daily average, and the rows that
    attain the largest daily average are fast movers. *)
Lemma rank_and_flag_fast_mover q sorted :
  0 <= q -> q <= 1 -> sorted <> [] ->
  has_top_fast_mover q (rank_and_flag q sorted).
Proof.
  unfold has_top_fast_mover.
  intros Hq0 Hq1 Hne.
  set (recs := rank_and_flag q sorted).
  assert (Hcol : map daily_avg_sales recs = map sc_daily_avg_sales sorted)
    by apply rank_and_flag_daily.
  destruct (exists_max (xs := map daily_avg_sales recs)) as (m & Hm & Hmax).
  { rewrite Hcol. destruct sorted; [congruence | discriminate]. }
  destruct (@quantile_le_max q _ m Hq0 Hq1 Hm Hmax) as (t & Ht & Htm).
  apply in_map_iff in Hm. destruct Hm as (top & <- & Htop).
  assert (Hflag : forall r, In r recs ->
                            is_fast_mover r = Qle_bool t (daily_avg_sales r)).
  { intros r Hr. destruct (In_rank_and_flag _ _ _ Hr) as (s & _ & _ & _ & Hd & Hf).
    rewrite Hf, <- Hcol, Ht, Hd. reflexivity. }
  exists t, top. repeat split; auto.
  - intros r Hr. apply Hmax. now apply in_map.
  - rewrite (Hflag top Htop). now apply Qle_bool_iff.
Qed.

End RankFacts.

(** ** Sorting the recommendations *)

Section SortContract.
Import Prim Engine.
Local Open Scope Q_scope.

Lemma Sorted_weaken (A : Type) (R R' : A -> A -> Prop) (l : list A) :
  (forall x y, R x y -> R' x y) -> Sorted R l -> Sorted R' l.
Proof.
  intros Himp. induction 1 as [| x l _ IH Hhd]; constructor; auto.
  destruct Hhd; constructor; auto.
Qed.

Lemma StronglySorted_map (A B : Type) (f : A -> B) (R : B -> B -> Prop)
    (l : list A) :
  StronglySorted (fun a b => R (f a) (f b)) l ->
  StronglySorted R (map f l).
Proof.
  induction 1 as [| x l _ IH Hall]; simpl; constructor; auto.
  apply (proj2 (Forall_map f (R (f x)) l)). exact Hall.
Qed.

Lemma StronglySorted_unmap (A B : Type) (f : A -> B) (R : B -> B -> Prop)
    (l : list A) :
  StronglySorted R (map f l) ->
  StronglySorted (fun a b => R (f a) (f b)) l.
Proof.
  induction l as [| x l IH]; simpl; intros H; constructor;
    inversion H as [| ? ? Hs Hall]; subst; auto.
  apply (proj1 (Forall_map f (R (f x)) l)). exact Hall.
Qed.

Lemma desc_leb_total (a b : Scored) : desc_leb a b = true \/ desc_leb b a = true.
Proof.
  unfold desc_leb. rewrite !Qle_bool_iff.
  destruct (Qlt_le_dec (sc_key a) (sc_key b)) as [H | H]; [right; lra | left; lra].
Qed.

Lemma isort_desc_sorted (l : list Scored) :
  Sorted (fun a b => sc_key b <= sc_key a) (isort desc_leb l).
Proof.
  apply Sorted_weaken with (R := fun u v => desc_leb u v = true).
  - intros x y H. now apply Qle_bool_iff.
  - apply isort_sorted, desc_leb_total.
Qed.

Lemma stable_sort_contract : sort_contract stable_sort_desc.
Proof.
  intros l. split; [apply isort_perm | apply isort_desc_sorted].
Qed.


Variable sort_values_desc : list Scored -> list Scored.

Lemma recommendations_of_season df target_season buffer r rest :
  filter (fun t => String.eqb (Season t) target_season) df = r :: rest ->
  get_heuristic_recommendations sort_values_desc df target_season buffer
  = rank_and_flag (75 # 100)
      (sort_values_desc
         (map (score buffer (days_in_season r (r :: rest)))
              (groupby_agg (r :: rest)))).
Proof.
  intros H. unfold get_heuristic_recommendations. rewrite H. reflexivity.
Qed.

Lemma recommendations_of_empty_season df target_season buffer :
  filter (fun t => String.eqb (Season t) target_season) df = [] ->
  get_heuristic_recommendations sort_values_desc df target_season buffer = [].
Proof.
  intros H. unfold get_heuristic_recommendations. now rewrite H.
Qed.

Hypothesis sort_ok : sort_contract sort_values_desc.

Lemma sort_values_desc_strongly_sorted l :
  StronglySorted (fun a b => sc_key b <= sc_key a) (sort_values_desc l).
Proof.
  apply Sorted_StronglySorted.
  - intros x y z Hxy Hyz. lra.
  - apply sort_ok.
Qed.

Lemma rank_and_flag_sorted q l :
  StronglySorted (fun a b => last_season_sales b <= last_season_sales a)
                 (rank_and_flag q (sort_values_desc l)).
Proof.
  apply StronglySorted_unmap with (R := fun x y => y <= x).
  rewrite rank_and_flag_sales.
  apply StronglySorted_map, sort_values_desc_strongly_sorted.
Qed.



End SortContract.



(** ** Ties under a stable sort *)

Section Stability.
Import Prim Engine.
Local Open Scope Q_scope.

Lemma insert_sorted_filter (A : Type) (leb p : A -> A -> bool) (v x : A)
    (s : list A) :
  (forall y, p v x = true -> p v y = true -> leb x y = true) ->
  filter (p v) (insert_sorted leb x s)
  = if p v x then x :: filter (p v) s else filter (p v) s.
Proof.
  intros Htied. induction s as [| y s IH]; simpl.
  - reflexivity.
  - destruct (leb x y) eqn:Exy; simpl.
    + reflexivity.
    + rewrite IH. destruct (p v x) eqn:Ex, (p v y) eqn:Ey; try reflexivity.
      rewrite (Htied y eq_refl Ey) in Exy. discriminate.
Qed.

Lemma isort_filter (A : Type) (leb p : A -> A -> bool) (v : A) (l : list A) :
  (forall x y, p v x = true -> p v y = true -> leb x y = true) ->
  filter (p v) (isort leb l) = filter (p v) l.
Proof.
  intros Htied. induction l as [| x l IH]; simpl.
  - reflexivity.
  - rewrite insert_sorted_filter by (intros y; apply Htied).
    rewrite IH. reflexivity.
Qed.

Lemma filter_map_commute (A B : Type) (f : A -> B) (p : B -> bool) (l : list A) :
  filter p (map f l) = map f (filter (fun x => p (f x)) l).
Proof.
  induction l as [| x l IH]; simpl; [reflexivity |].
  destruct (p (f x)); simpl; now rewrite IH.
Qed.

(** The tied names of a result are the tied names of the sorted frame. *)
Lemma tied_names_rank_and_flag q v (sorted : list Scored) :
  tied_names v (rank_and_flag q sorted)
  = map (fun r => agg_medicine_name (sc_agg r))
        (filter (fun r => Qeq_bool (sc_key r) v) sorted).
Proof.
  unfold tied_names, rank_and_flag.
  set (g := finish _).
  rewrite filter_map_commute, map_map.
  transitivity
    (map (fun x : nat * Scored => agg_medicine_name (sc_agg (snd x)))
         (filter (fun x : nat * Scored => Qeq_bool (sc_key (snd x)) v)
                 (add_rank sorted))).
  - rewrite (filter_ext (fun x => Qeq_bool (last_season_sales (g x)) v)
                        (fun x : nat * Scored => Qeq_bool (sc_key (snd x)) v))
      by now intros [k r].
    apply map_ext. now intros [k r].
  - rewrite <- (map_map snd (fun r => agg_medicine_name (sc_agg r))).
    rewrite <- (filter_map_commute snd (fun r => Qeq_bool (sc_key r) v)).
    now rewrite add_rank_snd.
Qed.

(** With a sort that keeps tied rows in their input order, tied medicines
    stand in the order of the aggregate. *)
Lemma stable_sort_retains_ties df target_season buffer :
  ties_retain_emission_order df target_season
    (get_heuristic_recommendations stable_sort_desc df target_season buffer).
Proof.
  intros v. unfold get_heuristic_recommendations.
  destruct (filter (fun r => String.eqb (Season r) target_season) df)
    as [| r0 rest] eqn:Eseason; [reflexivity |].
  rewrite tied_names_rank_and_flag. unfold stable_sort_desc.
  rewrite (@isort_filter Scored desc_leb (fun v r => Qeq_bool (sc_key r) (sc_key v))
             (mkScored (mkAggRow EmptyString v 0 0 0) 0 0)).
  - simpl. rewrite filter_map_commute, map_map. reflexivity.
  - simpl. intros x y Hx Hy. unfold desc_leb.
    apply Qeq_bool_iff in Hx. apply Qeq_bool_iff in Hy.
    apply Qle_bool_iff. rewrite Hx, Hy. apply Qle_refl.
Qed.

End Stability.




(** C10. Every non-empty recommendation frame, of the script's engine and
    of the database-backed one, has a fast mover: the threshold is the
    interpolated 75th percentile of the daily averages, it is at most the
    largest daily average, the flag is [daily_avg_sales >= threshold], and
    a medicine with the largest daily average is flagged. *)
Theorem nonempty_recommendations_have_fast_mover
    (sort_values_desc : list Engine.Scored -> list Engine.Scored)
    (df : list Engine.FeatRow) (query_df : list Engine.AggRow)
    (target_season : string) (buffer : Q) (recs : list Engine.Recommendation) :
  recs = Engine.get_heuristic_recommendations sort_values_desc
           df target_season buffer \/
  recs = Analyzer.generate_heuristic_recommendations
           query_df target_season buffer ->
  recs <> [] ->
  Engine.has_top_fast_mover (75 # 100) recs /\
  exists r, In r recs /\ Engine.is_fast_mover r = true.
Proof.
  intros Hrecs Hne.
  assert (H : Engine.has_top_fast_mover (75 # 100) recs).
  { destruct Hrecs as [-> | ->].
    - destruct (filter (fun r => String.eqb (Engine.Season r) target_season) df)
        as [| r0 rest] eqn:Eseason.
      + rewrite (recommendations_of_empty_season sort_values_desc _ _ buffer Eseason)
          in Hne. congruence.
      + rewrite (recommendations_of_season sort_values_desc _ _ buffer Eseason)
          in Hne |- *.
        apply rank_and_flag_fast_mover; try discriminate.
        intros E. rewrite E in Hne. apply Hne. reflexivity.
    - unfold Analyzer.generate_heuristic_recommendations in Hne |- *.
      destruct query_df as [| a query_df]; [congruence |].
      destruct (Analyzer.duration_days target_season); [| congruence].
      apply rank_and_flag_fast_mover; discriminate. }
  split; [exact H |].
  destruct H as (t & top & _ & Htop & _ & _ & _ & Hflag).
  now exists top.
Qed.

Lemma nonempty_recommendations_have_fast_mover_witness :
  Engine.has_top_fast_mover (75 # 100)
    (Analyzer.generate_heuristic_recommendations
       Examples.query_frame "Winter" (15 # 100)%Q) /\
  exists r,
    In r (Analyzer.generate_heuristic_recommendations
            Examples.query_frame "Winter" (15 # 100)%Q) /\
    Engine.is_fast_mover r = true.
Proof.
  apply (@nonempty_recommendations_have_fast_mover
           Engine.stable_sort_desc Examples.para_500 Examples.query_frame
           "Winter" (15 # 100)%Q).
  - right. reflexivity.
  - discriminate.
Defined.

(** ** The row sanitizer *)

Section SanitizerFacts.
Import Prim Sanitizer.
Local Open Scope Q_scope.

Variable to_datetime : string -> option Calendar.Timestamp.
Variable numeric_of_string : string -> option Q.
Variable int_of_string : string -> option Z.

Lemma omap_In (A B : Type) (f : A -> Py.outcome B) (l : list A) (out : list B) :
  Py.omap f l = Py.Return out ->
  forall y, In y out -> exists x, In x l /\ f x = Py.Return y.
Proof.
  revert out. induction l as [| x l IH]; simpl; intros out H y Hy.
  - injection H as <-. destruct Hy.
  - destruct (f x) as [b | e] eqn:Efx; simpl in H; [| discriminate].
    destruct (Py.omap f l) as [bs | e]; simpl in H; [| discriminate].
    injection H as <-. destruct Hy as [<- | Hy].
    + exists x. split; [now left | exact Efx].
    + destruct (IH bs eq_refl y Hy) as (x' & Hx' & Hfx').
      exists x'. split; [now right | exact Hfx'].
Qed.

Lemma positive_spec (x : option Q) :
  positive x = true -> exists q, x = Some q /\ 0 < q.
Proof.
  destruct x as [q |]; simpl; [| discriminate].
  intros H. exists q. split; [reflexivity |].
  apply negb_true_iff in H.
  destruct (Qlt_le_dec 0 q) as [Hlt | Hle]; [exact Hlt |].
  apply Qle_bool_iff in Hle. congruence.
Qed.

(** What the sanitizer does guarantee of a retained row: it comes from a
    raw row of the input whose four critical cells are present, and its
    quantity and unit price are the coerced numbers, both positive. *)
Lemma clean_data_retained (df : list RawRow) (out : list CleanRow) :
  clean_data to_datetime numeric_of_string int_of_string df = Py.Return out ->
  Forall (fun r =>
            In (raw r) df /\
            has_critical (raw r) = true /\
            to_numeric numeric_of_string (quantity (raw r)) = Some (c_quantity r) /\
            to_numeric numeric_of_string (unit_price (raw r)) = Some (c_unit_price r) /\
            0 < c_quantity r /\ 0 < c_unit_price r /\
            total_sales r = c_quantity r * c_unit_price r)
         out.
Proof.
  unfold clean_data. intros H. apply Forall_forall. intros r Hr.
  destruct (omap_In _ _ H r Hr) as (c & Hc & Hfin).
  apply filter_In in Hc. destruct Hc as (Hc & Hprice).
  apply filter_In in Hc. destruct Hc as (Hc & Hqty).
  apply filter_In in Hc. destruct Hc as (Hc & _).
  apply in_map_iff in Hc. destruct Hc as (x & <- & Hx).
  apply filter_In in Hx. destruct Hx as (Hx & Hcrit).
  apply positive_spec in Hprice. destruct Hprice as (p & Hp & Hp0).
  apply positive_spec in Hqty. destruct Hqty as (q & Hq & Hq0).
  unfold finish_row in Hfin. simpl in Hfin, Hp, Hq.
  destruct (astype_int int_of_string (prescription_required x)); simpl in Hfin;
    [| discriminate].
  injection Hfin as <-. simpl. rewrite Hp, Hq. repeat split; auto.
Qed.

End SanitizerFacts.

(** The two rows of the specification's examples are dropped: a quantity of
    -5, and a unit price of 0. *)
Example non_positive_rows_are_dropped :
  Sanitizer.clean_data Examples.iso_date Examples.numeric_of_digits
    Examples.natural_of_string
    [ Examples.dated_row (Sanitizer.Num (-5)) (Sanitizer.Num 2);
      Examples.dated_row (Sanitizer.Num 5) (Sanitizer.Num 0) ]
  = Py.Return [].
Proof. reflexivity. Qed.

(** C3, the code at the failing input.  A row whose date is a text that
    [pd.to_datetime(..., errors='coerce')] cannot parse passes the first
    [dropna] (the cell is not missing yet), is coerced to NaT, and is then
    kept: the second [dropna] looks at [quantity] and [unit_price] only.
    The retained row has a null date. *)
Theorem unparsed_date_row_is_retained
    (to_datetime : string -> option Calendar.Timestamp)
    (numeric_of_string : string -> option Q)
    (int_of_string : string -> option Z) :
  to_datetime "not-a-date"%string = None ->
  exists r,
    Sanitizer.clean_data to_datetime numeric_of_string int_of_string
      [Examples.unparsed_date_row] = Py.Return [r] /\
    Sanitizer.raw r = Examples.unparsed_date_row /\
    Sanitizer.c_date r = None /\
    (0 < Sanitizer.c_quantity r)%Q /\ (0 < Sanitizer.c_unit_price r)%Q.
Proof.
  intros Hnat. eexists. split.
  - unfold Sanitizer.clean_data. simpl. unfold Sanitizer.coerce. simpl.
    rewrite Hnat. reflexivity.
  - simpl. repeat split.
Qed.

Lemma unparsed_date_row_is_retained_witness :
  exists r,
    Sanitizer.clean_data Examples.iso_date Examples.numeric_of_digits
      Examples.natural_of_string
      [Examples.unparsed_date_row] = Py.Return [r] /\
    Sanitizer.raw r = Examples.unparsed_date_row /\
    Sanitizer.c_date r = None /\
    (0 < Sanitizer.c_quantity r)%Q /\ (0 < Sanitizer.c_unit_price r)%Q.
Proof.
  apply (@unparsed_date_row_is_retained
           Examples.iso_date Examples.numeric_of_digits Examples.natural_of_string).
  reflexivity.
Defined.

(** ** Forecasting *)

Ltac run_py :=
  unfold Py.run, Py.try_except, Py.bind, Py.emit, Py.lift, Py.ret; simpl.

Section ForecastFacts.
Import Prim Forecast.

Variables SarimaxResults ProphetModel : Type.
Variable SARIMAX_fit : series -> Py.outcome SarimaxResults.
Variable get_forecast : SarimaxResults -> Z -> Py.outcome SarimaxForecast.
Variable Prophet_fit : series -> Py.outcome ProphetModel.
Variable Prophet_predict : ProphetModel -> Z -> Py.outcome (list ProphetRow).
Variable savefig : string -> Py.outcome unit.
Variable available : bool.

Local Abbreviation sarima :=
  (generate_sarima_forecast SARIMAX_fit get_forecast available).
Local Abbreviation prophet :=
  (generate_prophet_forecast Prophet_fit Prophet_predict available).

(** The gates of the two functions as propositions. *)
Lemma sarima_pre_gate (df : list DailyRow) :
  negb available || (length df =? 0)%nat || (length df <? 24)%nat = false
  <-> available = true /\ 24 <= length df.
Proof.
  rewrite !orb_false_iff, negb_false_iff, Nat.eqb_neq, Nat.ltb_ge.
  intuition lia.
Qed.

Lemma prophet_pre_gate (df : list DailyRow) :
  negb available || (length df =? 0)%nat || (length df <? 30)%nat = false
  <-> available = true /\ 30 <= length df.
Proof.
  rewrite !orb_false_iff, negb_false_iff, Nat.eqb_neq, Nat.ltb_ge.
  intuition lia.
Qed.

(** Engine.py: below 24 weekly observations nothing is fitted. *)
Lemma engine_sarima_gated df medicine forecast_weeks :
  let med_data :=
    filter (fun r => String.eqb (Engine.medicine_name_clean r) medicine) df in
  let ts :=
    resample_weekly_sum
      (map (fun r => (Engine.date r, Engine.quantity r)) med_data) in
  let r := Py.run (get_timeseries_forecast_sarima SARIMAX_fit get_forecast savefig
                     df medicine forecast_weeks) in
  length ts < 24 ->
  fst r = Py.Return None /\
  existsb is_sarimax_fit (snd r) = false /\
  (med_data <> [] -> snd r = insufficient_warning (length ts)).
Proof.
  cbv zeta. unfold get_timeseries_forecast_sarima.
  destruct (filter _ df) as [| r0 rest] eqn:Emed; intros Hlt.
  - run_py. repeat split. congruence.
  - apply Nat.ltb_lt in Hlt. rewrite Hlt. run_py. repeat split.
Qed.

(** Engine.py: from 24 weekly observations on the fit is the first call. *)
Lemma engine_sarima_attempted df medicine forecast_weeks :
  let ts :=
    resample_weekly_sum
      (map (fun r => (Engine.date r, Engine.quantity r))
           (filter (fun r => String.eqb (Engine.medicine_name_clean r) medicine) df)) in
  24 <= length ts ->
  exists rest,
    snd (Py.run (get_timeseries_forecast_sarima SARIMAX_fit get_forecast savefig
                   df medicine forecast_weeks))
    = SarimaxFit ts :: rest.
Proof.
  cbv zeta. unfold get_timeseries_forecast_sarima.
  destruct (filter _ df) as [| r0 rest] eqn:Emed; intros Hge.
  - simpl in Hge. lia.
  - apply Nat.ltb_ge in Hge. rewrite Hge. run_py.
    destruct (SARIMAX_fit _) as [model | e]; simpl; [| eauto].
    destruct (get_forecast model forecast_weeks) as [f | e]; simpl; [| eauto].
    destruct (savefig _) as [[] | e]; simpl; eauto.
Qed.

(** forecast.py: the results of a run that does not reach the fit. *)
Lemma sarima_pre_gated (df : list DailyRow) forecast_weeks :
  available = false \/ length df < 24 ->
  Py.run (sarima df forecast_weeks) = (Py.Return insufficient_data, []).
Proof.
  intros H. unfold generate_sarima_forecast.
  destruct (negb available || (length df =? 0)%nat || (length df <? 24)%nat) eqn:E.
  - reflexivity.
  - apply sarima_pre_gate in E. destruct H as [H | H]; [| lia].
    destruct E as [E _]. congruence.
Qed.

Lemma sarima_gated (df : list DailyRow) forecast_weeks :
  let weekly := resample_weekly_sum (daily_series df) in
  length weekly < 24 ->
  snd (Py.run (sarima df forecast_weeks)) = [] /\
  (fst (Py.run (sarima df forecast_weeks)) = Py.Return insufficient_data \/
   fst (Py.run (sarima df forecast_weeks))
     = Py.Return (insufficient_weekly_data (length weekly))).
Proof.
  cbv zeta. intros Hlt. unfold generate_sarima_forecast.
  destruct (negb available || (length df =? 0)%nat || (length df <? 24)%nat) eqn:E.
  - split; [reflexivity | left; reflexivity].
  - apply Nat.ltb_lt in Hlt. run_py. rewrite Hlt.
    split; [reflexivity | right; reflexivity].
Qed.

Lemma sarima_attempted (df : list DailyRow) forecast_weeks :
  let weekly := resample_weekly_sum (daily_series df) in
  available = true -> 24 <= length df -> 24 <= length weekly ->
  exists rest, snd (Py.run (sarima df forecast_weeks)) = SarimaxFit weekly :: rest.
Proof.
  cbv zeta. intros Hav Hdf Hw. unfold generate_sarima_forecast.
  rewrite (proj2 (sarima_pre_gate df) (conj Hav Hdf)).
  apply Nat.ltb_ge in Hw. run_py. rewrite Hw. run_py.
  destruct (SARIMAX_fit _) as [model | e]; simpl; [| eauto].
  destruct (get_forecast model forecast_weeks) as [f | e]; simpl; eauto.
Qed.

(** forecast.py: neither forecast raises, and what it returns and emits
    does not depend on the trace it is called on. *)
Lemma sarima_total (df : list DailyRow) forecast_weeks :
  exists s es, forall tr, sarima df forecast_weeks tr = (Py.Return s, tr ++ es).
Proof.
  unfold generate_sarima_forecast.
  destruct (negb available || (length df =? 0)%nat || (length df <? 24)%nat).
  - do 2 eexists. intros tr. run_py. now rewrite app_nil_r.
  - run_py. destruct (length (resample_weekly_sum (daily_series df)) <? 24)%nat.
    + do 2 eexists. intros tr. simpl. now rewrite app_nil_r.
    + destruct (SARIMAX_fit (resample_weekly_sum (daily_series df)))
        as [model | e]; simpl.
      * destruct (get_forecast model forecast_weeks) as [f | e]; simpl;
          do 2 eexists; intros tr; rewrite <- ?app_assoc; simpl; reflexivity.
      * do 2 eexists. intros tr. rewrite <- ?app_assoc. simpl. reflexivity.
Qed.

Lemma prophet_total (df : list DailyRow) forecast_months :
  exists p ep, forall tr, prophet df forecast_months tr = (Py.Return p, tr ++ ep).
Proof.
  unfold generate_prophet_forecast.
  destruct (negb available || (length df =? 0)%nat || (length df <? 30)%nat).
  - do 2 eexists. intros tr. run_py. now rewrite app_nil_r.
  - run_py. destruct (Prophet_fit (daily_series df)) as [model | e]; simpl.
    + destruct (Prophet_predict model (forecast_months * 30)) as [f | e]; simpl;
        do 2 eexists; intros tr; rewrite <- ?app_assoc; simpl; reflexivity.
    + do 2 eexists. intros tr. rewrite <- ?app_assoc. simpl. reflexivity.
Qed.

(** An exception of the SARIMAX fit, or of its forecast, becomes the
    failure result with the message. *)
Lemma sarima_fit_failure (df : list DailyRow) forecast_weeks e :
  let weekly := resample_weekly_sum (daily_series df) in
  available = true -> 24 <= length df -> 24 <= length weekly ->
  SARIMAX_fit weekly = Py.Raise e \/
  (exists model, SARIMAX_fit weekly = Py.Return model /\
                 get_forecast model forecast_weeks = Py.Raise e) ->
  fst (Py.run (sarima df forecast_weeks))
  = Py.Return (sarima_failure ("SARIMA forecast failed: " ++ Py.str e)).
Proof.
  cbv zeta. intros Hav Hdf Hw Hraise. unfold generate_sarima_forecast.
  rewrite (proj2 (sarima_pre_gate df) (conj Hav Hdf)).
  apply Nat.ltb_ge in Hw. run_py. rewrite Hw. run_py.
  destruct Hraise as [-> | (model & -> & Hf)]; simpl; [reflexivity |].
  rewrite Hf. reflexivity.
Qed.

Lemma prophet_fit_failure (df : list DailyRow) forecast_months e :
  available = true -> 30 <= length df ->
  Prophet_fit (daily_series df) = Py.Raise e \/
  (exists model, Prophet_fit (daily_series df) = Py.Return model /\
                 Prophet_predict model (forecast_months * 30) = Py.Raise e) ->
  fst (Py.run (prophet df forecast_months))
  = Py.Return (prophet_failure ("Prophet forecast failed: " ++ Py.str e)).
Proof.
  intros Hav Hdf Hraise. unfold generate_prophet_forecast.
  rewrite (proj2 (prophet_pre_gate df) (conj Hav Hdf)). run_py.
  destruct Hraise as [-> | (model & -> & Hf)]; simpl; [reflexivity |].
  rewrite Hf. reflexivity.
Qed.

Lemma prophet_attempted (df : list DailyRow) forecast_months :
  available = true -> 30 <= length df ->
  exists rest,
    snd (Py.run (prophet df forecast_months)) = ProphetFit (daily_series df) :: rest.
Proof.
  intros Hav Hdf. unfold generate_prophet_forecast.
  rewrite (proj2 (prophet_pre_gate df) (conj Hav Hdf)). run_py.
  destruct (Prophet_fit (daily_series df)) as [model | e]; simpl; [| eauto].
  destruct (Prophet_predict model (forecast_months * 30)) as [f | e]; simpl; eauto.
Qed.

(** The request runs both forecasts, one after the other. *)
Lemma process_runs_both medicine_id medicine_name sales_data s es p ep :
  let df := prepare_time_series_data sales_data medicine_name in
  df <> [] ->
  (forall tr, sarima df 12 tr = (Py.Return s, tr ++ es)) ->
  (forall tr, prophet df 3 tr = (Py.Return p, tr ++ ep)) ->
  Py.run (process_medicine_forecasts SARIMAX_fit get_forecast
            Prophet_fit Prophet_predict available
            medicine_id medicine_name sales_data)
  = (Py.Return
       (mkMedicineForecasts medicine_id medicine_name
          (py_int (qsum (map quantity df)))
          (map (fun w => (fst w, snd w, get_season (Calendar.month_of (fst w))))
               (resample_weekly_sum (daily_series df)))
          s p),
     es ++ ep).
Proof.
  cbv zeta. intros Hne Hs Hp. unfold process_medicine_forecasts.
  destruct (prepare_time_series_data sales_data medicine_name) as [| r df'] eqn:E;
    [congruence |].
  unfold Py.run, Py.bind. rewrite Hs. rewrite Hp. reflexivity.
Qed.

End ForecastFacts.

(** C7, counterexample.  In forecast.py the weekly series is not the only
    gate: two sales 24 weeks apart resample to 25 weekly observations, yet
    the frame has 2 rows, fewer than 24, and the function returns its
    insufficient-data result without fitting. *)
Lemma many_weeks_few_days_not_fitted :
  let df := Forecast.prepare_time_series_data Examples.two_distant_sales "PARA 500" in
  length (Forecast.resample_weekly_sum (Forecast.daily_series df)) = 25 /\
  Py.run (Forecast.generate_sarima_forecast
            Examples.naive_fit Examples.naive_get_forecast true df 12)
  = (Py.Return Forecast.insufficient_data, []) /\
  ~ Forecast.gate_on_weeks_alone
      (Py.run (Forecast.generate_sarima_forecast
                 Examples.naive_fit Examples.naive_get_forecast true df 12))
      (length (Forecast.resample_weekly_sum (Forecast.daily_series df))).
Proof.
  cbv zeta. split; [reflexivity |]. split; [reflexivity |].
  intros [_ H]. vm_compute in H.
  assert (H24 : 24 <= 25) by lia.
  specialize (H H24). discriminate H.
Qed.

(** C7, amended.  A weekly series of fewer than 24 observations (23 in
    particular) gives an insufficient-data result and no fit, in both
    implementations.  In Engine.py a fit is attempted for every series of 24
    or more weekly observations.  In forecast.py a fit is attempted for such
    a series when, in addition, the forecasting libraries are available and
    the daily frame has at least 24 rows; otherwise the function returns its
    insufficient-data result without fitting. *)
Theorem sarima_gate_is_24_weeks
    (SarimaxResults : Type)
    (SARIMAX_fit : Forecast.series -> Py.outcome SarimaxResults)
    (get_forecast : SarimaxResults -> Z -> Py.outcome Forecast.SarimaxForecast)
    (savefig : string -> Py.outcome unit)
    (df : list Engine.FeatRow) (medicine : string)
    (available : bool) (daily : list Forecast.DailyRow) (forecast_weeks : Z) :
  (let med_data :=
     filter (fun r => String.eqb (Engine.medicine_name_clean r) medicine) df in
   let ts :=
     Forecast.resample_weekly_sum
       (map (fun r => (Engine.date r, Engine.quantity r)) med_data) in
   let r := Py.run (Forecast.get_timeseries_forecast_sarima
                      SARIMAX_fit get_forecast savefig df medicine forecast_weeks) in
   (length ts < 24 ->
    fst r = Py.Return None /\
    existsb Forecast.is_sarimax_fit (snd r) = false /\
    (med_data <> [] -> snd r = Forecast.insufficient_warning (length ts))) /\
   (24 <= length ts -> exists rest, snd r = Forecast.SarimaxFit ts :: rest)) /\
  (let weekly := Forecast.resample_weekly_sum (Forecast.daily_series daily) in
   let r := Py.run (Forecast.generate_sarima_forecast
                      SARIMAX_fit get_forecast available daily forecast_weeks) in
   (length weekly < 24 ->
    snd r = [] /\
    (fst r = Py.Return Forecast.insufficient_data \/
     fst r = Py.Return (Forecast.insufficient_weekly_data (length weekly)))) /\
   (available = true -> 24 <= length daily -> 24 <= length weekly ->
    exists rest, snd r = Forecast.SarimaxFit weekly :: rest) /\
   (available = false \/ length daily < 24 ->
    r = (Py.Return Forecast.insufficient_data, []))).
Proof.
  cbv zeta. split; [split | split; [| split]].
  - apply engine_sarima_gated.
  - apply engine_sarima_attempted.
  - apply sarima_gated.
  - apply sarima_attempted.
  - apply sarima_pre_gated.
Qed.

Lemma sarima_gate_is_24_weeks_witness :
  (fst (Py.run (Forecast.get_timeseries_forecast_sarima
                  Examples.naive_fit Examples.naive_get_forecast Examples.savefig_ok
                  (Examples.rows_of_series "PARA 500" (Examples.weekly_sales 23))
                  "PARA 500" 12))
   = Py.Return None /\
   snd (Py.run (Forecast.get_timeseries_forecast_sarima
                  Examples.naive_fit Examples.naive_get_forecast Examples.savefig_ok
                  (Examples.rows_of_series "PARA 500" (Examples.weekly_sales 23))
                  "PARA 500" 12))
   = Forecast.insufficient_warning 23) /\
  exists rest,
    snd (Py.run (Forecast.generate_sarima_forecast
                   Examples.naive_fit Examples.naive_get_forecast true
                   (Forecast.prepare_time_series_data (Examples.daily_sales 180)
                                                      "PARA 500")
                   12))
    = Forecast.SarimaxFit
        (Forecast.resample_weekly_sum (Examples.daily_sales 180)) :: rest.
Proof.
  destruct (@sarima_gate_is_24_weeks
              Forecast.series Examples.naive_fit Examples.naive_get_forecast
              Examples.savefig_ok
              (Examples.rows_of_series "PARA 500" (Examples.weekly_sales 23))
              "PARA 500" true
              (Forecast.prepare_time_series_data (Examples.daily_sales 180)
                                                 "PARA 500")
              12)
    as [[Hgated _] [_ [Hfit _]]].
  split.
  - destruct Hgated as (Hnone & _ & Hwarn); [vm_compute; lia |].
    split; [exact Hnone |]. apply Hwarn. discriminate.
  - apply Hfit; [reflexivity | vm_compute; lia | vm_compute; lia].
Defined.

(** C8. In forecast.py neither forecasting function raises: each returns a
    result from whatever state it is called in.  When the SARIMAX fit (or its
    forecast) raises, the result is the failure carrying the message, and
    likewise for Prophet.  The request runs both: its two results are the
    results of the two functions, so a failure of one fit leaves the other
    model's attempt and result as they are. *)
Theorem fit_exceptions_become_failures
    (SarimaxResults ProphetModel : Type)
    (SARIMAX_fit : Forecast.series -> Py.outcome SarimaxResults)
    (get_forecast : SarimaxResults -> Z -> Py.outcome Forecast.SarimaxForecast)
    (Prophet_fit : Forecast.series -> Py.outcome ProphetModel)
    (Prophet_predict : ProphetModel -> Z -> Py.outcome (list Forecast.ProphetRow))
    (available : bool)
    (medicine_id : Z) (medicine_name : string) (sales_data : Forecast.series) :
  let df := Forecast.prepare_time_series_data sales_data medicine_name in
  let weekly := Forecast.resample_weekly_sum (Forecast.daily_series df) in
  exists s es p ep,
    (forall tr,
        Forecast.generate_sarima_forecast SARIMAX_fit get_forecast available
          df 12 tr = (Py.Return s, tr ++ es)) /\
    (forall tr,
        Forecast.generate_prophet_forecast Prophet_fit Prophet_predict available
          df 3 tr = (Py.Return p, tr ++ ep)) /\
    (forall e,
        available = true -> 24 <= length df -> 24 <= length weekly ->
        SARIMAX_fit weekly = Py.Raise e \/
        (exists model, SARIMAX_fit weekly = Py.Return model /\
                       get_forecast model 12%Z = Py.Raise e) ->
        s = Forecast.sarima_failure ("SARIMA forecast failed: " ++ Py.str e)) /\
    (forall e,
        available = true -> 30 <= length df ->
        Prophet_fit (Forecast.daily_series df) = Py.Raise e \/
        (exists model, Prophet_fit (Forecast.daily_series df) = Py.Return model /\
                       Prophet_predict model (3 * 30)%Z = Py.Raise e) ->
        p = Forecast.prophet_failure ("Prophet forecast failed: " ++ Py.str e)) /\
    (available = true -> 24 <= length df -> 24 <= length weekly ->
     existsb Forecast.is_sarimax_fit es = true) /\
    (available = true -> 30 <= length df ->
     existsb Forecast.is_prophet_fit ep = true) /\
    (df <> [] ->
     exists forecasts,
       Py.run (Forecast.process_medicine_forecasts SARIMAX_fit get_forecast
                 Prophet_fit Prophet_predict available
                 medicine_id medicine_name sales_data)
       = (Py.Return forecasts, es ++ ep) /\
       Forecast.sarima_forecast forecasts = s /\
       Forecast.prophet_forecast forecasts = p).
Proof.
  cbv zeta.
  set (df := Forecast.prepare_time_series_data sales_data medicine_name).
  destruct (sarima_total SARIMAX_fit get_forecast available df 12) as (s & es & Hs).
  destruct (prophet_total Prophet_fit Prophet_predict available df 3) as (p & ep & Hp).
  exists s, es, p, ep.
  split; [exact Hs |]. split; [exact Hp |].
  assert (Hrun_s : Py.run (Forecast.generate_sarima_forecast
                             SARIMAX_fit get_forecast available df 12)
                   = (Py.Return s, es)) by apply (Hs []).
  assert (Hrun_p : Py.run (Forecast.generate_prophet_forecast
                             Prophet_fit Prophet_predict available df 3)
                   = (Py.Return p, ep)) by apply (Hp []).
  repeat split.
  - intros e Hav Hdf Hw Hraise.
    pose proof (sarima_fit_failure SARIMAX_fit get_forecast df 12 Hav Hdf Hw Hraise)
      as H.
    rewrite Hrun_s in H. simpl in H. now injection H.
  - intros e Hav Hdf Hraise.
    pose proof (prophet_fit_failure Prophet_fit Prophet_predict df 3 Hav Hdf Hraise)
      as H.
    rewrite Hrun_p in H. simpl in H. now injection H.
  - intros Hav Hdf Hw.
    destruct (sarima_attempted SARIMAX_fit get_forecast df 12 Hav Hdf Hw)
      as (rest & H).
    rewrite Hrun_s in H. simpl in H. rewrite H. reflexivity.
  - intros Hav Hdf.
    destruct (prophet_attempted Prophet_fit Prophet_predict df 3 Hav Hdf)
      as (rest & H).
    rewrite Hrun_p in H. simpl in H. rewrite H. reflexivity.
  - intros Hne. eexists. split.
    + apply process_runs_both; [exact Hne | exact Hs | exact Hp].
    + split; reflexivity.
Qed.

(** An instance of C8: the SARIMAX fit raises on 180 days of sales, the
    request returns the SARIMA failure with the message and the Prophet
    forecast all the same. *)
Lemma fit_exceptions_become_failures_witness :
  exists forecasts es ep,
    Py.run (Forecast.process_medicine_forecasts
              (@Examples.singular_fit Forecast.series) Examples.naive_get_forecast
              Examples.naive_fit Examples.naive_predict true
              7 "PARA 500" (Examples.daily_sales 180))
    = (Py.Return forecasts, es ++ ep) /\
    Forecast.sarima_forecast forecasts
    = Forecast.sarima_failure "SARIMA forecast failed: LU decomposition error." /\
    existsb Forecast.is_prophet_fit ep = true /\
    Forecast.pr_success (Forecast.prophet_forecast forecasts) = true.
Proof.
  destruct (@fit_exceptions_become_failures
              Forecast.series Forecast.series
              (@Examples.singular_fit Forecast.series) Examples.naive_get_forecast
              Examples.naive_fit Examples.naive_predict true
              7%Z "PARA 500"%string (Examples.daily_sales 180))
    as (s & es & p & ep & _ & Hp & Hs_fail & _ & _ & Hp_fit & Hprocess).
  destruct Hprocess as (forecasts & Hrun & Hsf & Hpf); [discriminate |].
  exists forecasts, es, ep.
  split; [exact Hrun |]. split; [| split].
  - rewrite Hsf.
    apply (Hs_fail (Py.Exception "LU decomposition error."));
      [reflexivity | vm_compute; lia | vm_compute; lia | left; reflexivity].
  - apply Hp_fit; [reflexivity | vm_compute; lia].
  - rewrite Hpf. specialize (Hp []). vm_compute in Hp.
    injection Hp as <- _. reflexivity.
Defined.

(** C9. The rank slicing and the revenue-and-quantity score are not
    equivalent: on a recommendation frame of three medicines the second by
    sales is HIGH by rank and critical by score. *)
Theorem priority_algorithms_disagree :
  exists (recs : list Engine.Recommendation) (medicine : string)
         (by_rank by_score : Priority.level),
    recs <> [] /\
    Compare.rank_tier_of recs medicine = Some by_rank /\
    Compare.score_tier_of recs medicine = Some by_score /\
    by_rank <> by_score.
Proof.
  exists (Analyzer.generate_heuristic_recommendations
            Examples.query_frame "Winter" (15 # 100)%Q),
         "VICKS"%string, Priority.HIGH, Priority.CRITICAL.
  repeat split; try discriminate; vm_compute; reflexivity.
Qed.

(** * Further properties of the engine *)

(** ** Forecast gates and failures *)

Section MoreForecastFacts.
Import Prim Forecast.

Variables SarimaxResults ProphetModel : Type.
Variable SARIMAX_fit : series -> Py.outcome SarimaxResults.
Variable get_forecast : SarimaxResults -> Z -> Py.outcome SarimaxForecast.
Variable Prophet_fit : series -> Py.outcome ProphetModel.
Variable Prophet_predict : ProphetModel -> Z -> Py.outcome (list ProphetRow).
Variable savefig : string -> Py.outcome unit.
Variable available : bool.

Lemma prophet_pre_gated (df : list DailyRow) forecast_months :
  available = false \/ length df < 30 ->
  Py.run (generate_prophet_forecast Prophet_fit Prophet_predict available
            df forecast_months)
  = (Py.Return
       (prophet_failure
          "Insufficient data for Prophet forecast (minimum 30 days required)"),
     []).
Proof.
  intros H. unfold generate_prophet_forecast.
  destruct (negb available || (length df =? 0)%nat || (length df <? 30)%nat) eqn:E.
  - reflexivity.
  - apply prophet_pre_gate in E. destruct H as [H | H]; [| lia].
    destruct E as [E _]. congruence.
Qed.

(** Engine.py: the SARIMA forecast of the script returns, whatever the
    libraries do. *)
Lemma engine_sarima_returns df medicine forecast_weeks :
  exists result tr,
    Py.run (get_timeseries_forecast_sarima SARIMAX_fit get_forecast savefig
              df medicine forecast_weeks)
    = (Py.Return result, tr).
Proof.
  unfold get_timeseries_forecast_sarima.
  destruct (filter _ df) as [| r0 rest].
  - run_py. eauto.
  - destruct (length _ <? 24)%nat.
    + run_py. eauto.
    + run_py. destruct (SARIMAX_fit _) as [model | e]; simpl; [| eauto].
      destruct (get_forecast model forecast_weeks) as [f | e]; simpl; [| eauto].
      destruct (savefig _) as [[] | e]; simpl; eauto.
Qed.

(** Engine.py: an exception of the fit, of the forecast or of the plot is
    printed and the function returns [None]. *)
Lemma engine_sarima_failure df medicine forecast_weeks e :
  let ts :=
    resample_weekly_sum
      (map (fun r => (Engine.date r, Engine.quantity r))
           (filter (fun r => String.eqb (Engine.medicine_name_clean r) medicine) df)) in
  24 <= length ts ->
  SARIMAX_fit ts = Py.Raise e \/
  (exists model, SARIMAX_fit ts = Py.Return model /\
                 get_forecast model forecast_weeks = Py.Raise e) \/
  (exists model f, SARIMAX_fit ts = Py.Return model /\
                   get_forecast model forecast_weeks = Py.Return f /\
                   savefig ("output/04_sarima_forecast_" ++ safe_name medicine
                            ++ ".png")%string = Py.Raise e) ->
  exists tr,
    Py.run (get_timeseries_forecast_sarima SARIMAX_fit get_forecast savefig
              df medicine forecast_weeks)
    = (Py.Return None,
       tr ++ [Print ("Error during SARIMA forecasting: " ++ Py.str e)%string]).
Proof.
  cbv zeta. unfold get_timeseries_forecast_sarima.
  destruct (filter _ df) as [| r0 rest]; intros Hge Hraise.
  - simpl in Hge. lia.
  - apply Nat.ltb_ge in Hge. rewrite Hge.
    set (ts := resample_weekly_sum _) in *.
    unfold Py.run, Py.try_except, Py.bind, Py.emit, Py.lift, Py.ret,
      call_SARIMAX_fit, call_get_forecast, call_savefig,
      Py.bind, Py.emit, Py.lift.
    destruct Hraise as [Hm | [(model & Hm & Hf) | (model & f & Hm & Hf & Hs)]];
      rewrite Hm; cbn [app].
    + eexists [_]. reflexivity.
    + rewrite Hf. cbn [app]. eexists [_; _]. reflexivity.
    + rewrite Hf. cbn [app]. rewrite Hs. cbn [app]. eexists [_; _; _]. reflexivity.
Qed.

End MoreForecastFacts.

(** X1. forecast.py, the Prophet gate: without the libraries, or with fewer
    than 30 daily rows, the function returns its insufficient-data failure
    and calls nothing; with the libraries and 30 rows or more, the fit on
    the daily series is its first call. *)
Theorem prophet_gate_is_30_days
    (ProphetModel : Type)
    (Prophet_fit : Forecast.series -> Py.outcome ProphetModel)
    (Prophet_predict : ProphetModel -> Z -> Py.outcome (list Forecast.ProphetRow))
    (available : bool) (df : list Forecast.DailyRow) (forecast_months : Z) :
  let r := Py.run (Forecast.generate_prophet_forecast
                     Prophet_fit Prophet_predict available df forecast_months) in
  (available = false \/ length df < 30 ->
   r = (Py.Return
          (Forecast.prophet_failure
             "Insufficient data for Prophet forecast (minimum 30 days required)"),
        [])) /\
  (available = true -> 30 <= length df ->
   exists rest, snd r = Forecast.ProphetFit (Forecast.daily_series df) :: rest).
Proof.
  cbv zeta. split.
  - apply prophet_pre_gated.
  - apply prophet_attempted.
Qed.

Lemma prophet_gate_is_30_days_witness :
  Py.run (Forecast.generate_prophet_forecast
            Examples.naive_fit Examples.naive_predict true
            (Forecast.prepare_time_series_data (Examples.daily_sales 29) "PARA 500")
            3)
  = (Py.Return
       (Forecast.prophet_failure
          "Insufficient data for Prophet forecast (minimum 30 days required)"),
     []) /\
  exists rest,
    snd (Py.run (Forecast.generate_prophet_forecast
                   Examples.naive_fit Examples.naive_predict true
                   (Forecast.prepare_time_series_data (Examples.daily_sales 30)
                                                      "PARA 500")
                   3))
    = Forecast.ProphetFit
        (Forecast.daily_series
           (Forecast.prepare_time_series_data (Examples.daily_sales 30) "PARA 500"))
      :: rest.
Proof.
  split.
  - apply (@prophet_gate_is_30_days Forecast.series
             Examples.naive_fit Examples.naive_predict true
             (Forecast.prepare_time_series_data (Examples.daily_sales 29) "PARA 500")
             3%Z).
    right. vm_compute. lia.
  - apply (@prophet_gate_is_30_days Forecast.series
             Examples.naive_fit Examples.naive_predict true
             (Forecast.prepare_time_series_data (Examples.daily_sales 30) "PARA 500")
             3%Z); [reflexivity | vm_compute; lia].
Defined.

(** X2. Engine.py, [get_timeseries_forecast_sarima] never raises: it
    returns a frame or [None].  When the fit, the forecast or the plot
    raises, it returns [None] and its last printed line carries the
    message of the exception. *)
Theorem engine_sarima_never_raises
    (SarimaxResults : Type)
    (SARIMAX_fit : Forecast.series -> Py.outcome SarimaxResults)
    (get_forecast : SarimaxResults -> Z -> Py.outcome Forecast.SarimaxForecast)
    (savefig : string -> Py.outcome unit)
    (df : list Engine.FeatRow) (medicine : string) (forecast_weeks : Z) :
  let ts :=
    Forecast.resample_weekly_sum
      (map (fun r => (Engine.date r, Engine.quantity r))
           (filter (fun r => String.eqb (Engine.medicine_name_clean r) medicine) df)) in
  let r := Py.run (Forecast.get_timeseries_forecast_sarima
                     SARIMAX_fit get_forecast savefig df medicine forecast_weeks) in
  (exists result tr, r = (Py.Return result, tr)) /\
  (forall e,
      24 <= length ts ->
      SARIMAX_fit ts = Py.Raise e \/
      (exists model, SARIMAX_fit ts = Py.Return model /\
                     get_forecast model forecast_weeks = Py.Raise e) \/
      (exists model f, SARIMAX_fit ts = Py.Return model /\
                       get_forecast model forecast_weeks = Py.Return f /\
                       savefig ("output/04_sarima_forecast_"
                                ++ Forecast.safe_name medicine ++ ".png")%string
                       = Py.Raise e) ->
      exists tr,
        r = (Py.Return None,
             tr ++ [Forecast.Print
                      ("Error during SARIMA forecasting: " ++ Py.str e)%string])).
Proof.
  cbv zeta. split.
  - apply engine_sarima_returns.
  - intros e. apply engine_sarima_failure.
Qed.

Lemma engine_sarima_never_raises_witness :
  exists tr,
    Py.run (Forecast.get_timeseries_forecast_sarima
              (@Examples.singular_fit Forecast.series) Examples.naive_get_forecast
              Examples.savefig_ok
              (Examples.rows_of_series "PARA 500" (Examples.weekly_sales 24))
              "PARA 500" 12)
    = (Py.Return None,
       tr ++ [Forecast.Print
                "Error during SARIMA forecasting: LU decomposition error."]).
Proof.
  destruct (@engine_sarima_never_raises Forecast.series
              (@Examples.singular_fit Forecast.series) Examples.naive_get_forecast
              Examples.savefig_ok
              (Examples.rows_of_series "PARA 500" (Examples.weekly_sales 24))
              "PARA 500"%string 12%Z) as [_ H].
  apply (H (Py.Exception "LU decomposition error.")).
  - vm_compute. lia.
  - left. reflexivity.
Defined.

(** X3. forecast.py, [process_medicine_forecasts] on little data: when the
    libraries are missing, or the medicine was sold on fewer than 24
    distinct dates (none included), the request returns two failures and
    makes no call to the fitting libraries. *)
Theorem few_sale_dates_no_fitting
    (SarimaxResults ProphetModel : Type)
    (SARIMAX_fit : Forecast.series -> Py.outcome SarimaxResults)
    (get_forecast : SarimaxResults -> Z -> Py.outcome Forecast.SarimaxForecast)
    (Prophet_fit : Forecast.series -> Py.outcome ProphetModel)
    (Prophet_predict : ProphetModel -> Z -> Py.outcome (list Forecast.ProphetRow))
    (available : bool)
    (medicine_id : Z) (medicine_name : string) (sales_data : Forecast.series) :
  let df := Forecast.prepare_time_series_data sales_data medicine_name in
  available = false \/ length df < 24 ->
  exists forecasts,
    Py.run (Forecast.process_medicine_forecasts SARIMAX_fit get_forecast
              Prophet_fit Prophet_predict available
              medicine_id medicine_name sales_data)
    = (Py.Return forecasts, []) /\
    Forecast.sa_success (Forecast.sarima_forecast forecasts) = false /\
    Forecast.pr_success (Forecast.prophet_forecast forecasts) = false /\
    (sales_data = [] ->
     Forecast.sa_error (Forecast.sarima_forecast forecasts)
       = Some "No sales data available"%string /\
     Forecast.pr_error (Forecast.prophet_forecast forecasts)
       = Some "No sales data available"%string /\
     Forecast.total_quantity forecasts = 0%Z).
Proof.
  cbv zeta. intros Hfew. unfold Forecast.process_medicine_forecasts.
  destruct (Forecast.prepare_time_series_data sales_data medicine_name)
    as [| r df'] eqn:E.
  - eexists. split; [reflexivity |]. repeat split.
  - pose proof (@sarima_pre_gated SarimaxResults SARIMAX_fit get_forecast available
                  (r :: df') 12%Z Hfew) as Hs.
    assert (Hfew' : available = false \/ length (r :: df') < 30)
      by (destruct Hfew; [now left | right; lia]).
    pose proof (@prophet_pre_gated ProphetModel Prophet_fit Prophet_predict available
                  (r :: df') 3%Z Hfew') as Hp.
    unfold Py.run in *. unfold Py.bind. rewrite Hs, Hp.
    eexists. split; [reflexivity |].
    split; [reflexivity |]. split; [reflexivity |].
    intros ->. discriminate E.
Qed.

Lemma few_sale_dates_no_fitting_witness :
  exists forecasts,
    Py.run (Forecast.process_medicine_forecasts
              Examples.naive_fit Examples.naive_get_forecast
              Examples.naive_fit Examples.naive_predict true
              7 "PARA 500" (Examples.daily_sales 23))
    = (Py.Return forecasts, []) /\
    Forecast.sa_success (Forecast.sarima_forecast forecasts) = false /\
    Forecast.pr_success (Forecast.prophet_forecast forecasts) = false /\
    (Examples.daily_sales 23 = [] ->
     Forecast.sa_error (Forecast.sarima_forecast forecasts)
       = Some "No sales data available"%string /\
     Forecast.pr_error (Forecast.prophet_forecast forecasts)
       = Some "No sales data available"%string /\
     Forecast.total_quantity forecasts = 0%Z).
Proof.
  apply (@few_sale_dates_no_fitting Forecast.series Forecast.series
           Examples.naive_fit Examples.naive_get_forecast
           Examples.naive_fit Examples.naive_predict true
           7%Z "PARA 500"%string (Examples.daily_sales 23)).
  right. vm_compute. lia.
Defined.

(** ** Grouping by date *)

Section DateGroups.
Import Prim.
Local Open Scope Q_scope.
Variable A : Type.
Variable key : A -> Z.

(** Summing a column bin by bin over distinct bins that cover the frame
    gives the sum of the column. *)
Lemma bin_sums (f : A -> Q) (bins : list Z) :
  NoDup bins ->
  forall rows,
    (forall r, In r rows -> In (key r) bins) ->
    qsum (map (fun b => qsum (map f (filter (fun r => (key r =? b)%Z) rows))) bins)
    == qsum (map f rows).
Proof.
  induction 1 as [| b bins Hnotin Hnd IH]; intros rows Hcover.
  - destruct rows as [| r rows]; simpl.
    + reflexivity.
    + destruct (Hcover r (or_introl eq_refl)).
  - simpl.
    set (rest := filter (fun r => negb (key r =? b)%Z) rows).
    assert (Hrest :
              map (fun b' => qsum (map f (filter (fun r => (key r =? b')%Z) rows))) bins
              = map (fun b' => qsum (map f (filter (fun r => (key r =? b')%Z) rest))) bins).
    { apply map_ext_in. intros b' Hb'. unfold rest. f_equal. f_equal.
      clear - Hb' Hnotin. induction rows as [| r rows IHr]; simpl; [reflexivity |].
      destruct (Z.eqb_spec (key r) b) as [E | E]; simpl.
      - destruct (Z.eqb_spec (key r) b') as [E' | E']; [| exact IHr].
        exfalso. apply Hnotin. congruence.
      - now rewrite IHr. }
    rewrite Hrest, (IH rest).
    + rewrite (qsum_filter_split f (fun r => (key r =? b)%Z) rows). reflexivity.
    + intros r Hr. unfold rest in Hr. apply filter_In in Hr.
      destruct Hr as [Hr Hk].
      destruct (Hcover r Hr) as [E | E]; [| exact E].
      subst b. rewrite Z.eqb_refl in Hk. discriminate.
Qed.

End DateGroups.

Section SortedDates.
Import Prim.

Lemma Zleb_total (x y : Z) : (x <=? y)%Z = true \/ (y <=? x)%Z = true.
Proof. rewrite !Z.leb_le. lia. Qed.

(** Sorting distinct dates puts them in strictly ascending order. *)
Lemma isort_distinct_ascending (l : list Z) :
  NoDup l -> StronglySorted Z.lt (isort Z.leb l).
Proof.
  intros Hnd.
  assert (Hs : StronglySorted Z.le (isort Z.leb l)).
  { apply Sorted_StronglySorted; [intros x y z; apply Z.le_trans |].
    apply Sorted_weaken with (R := fun u v => (u <=? v)%Z = true).
    - intros x y. apply Z.leb_le.
    - apply isort_sorted, Zleb_total. }
  assert (Hnd' : NoDup (isort Z.leb l))
    by (apply Permutation_NoDup with l; [apply Permutation_sym, isort_perm | exact Hnd]).
  induction Hs as [| x s Hs IH Hall]; constructor.
  - apply IH. now inversion Hnd'.
  - inversion Hnd' as [| ? ? Hnotin _]; subst.
    rewrite Forall_forall in Hall |- *. intros y Hy.
    specialize (Hall y Hy).
    assert (x <> y) by (intros ->; contradiction).
    lia.
Qed.

End SortedDates.

(** X4. forecast.py, [prepare_time_series_data]: the frame has one row per
    distinct date of the sales data, in strictly ascending order of date,
    each row holding the quantity sold on its date, and the quantities of
    the frame add up to the quantities of the sales data. *)
Theorem daily_frame_sorted_and_complete
    (sales_data : Forecast.series) (medicine_name : string) :
  let df := Forecast.prepare_time_series_data sales_data medicine_name in
  StronglySorted Z.lt (map Forecast.date df) /\
  (forall d, In d (map Forecast.date df) <-> In d (map fst sales_data)) /\
  Forall (fun r =>
            Forecast.quantity r
            = Prim.qsum (map snd (filter (fun x => (fst x =? Forecast.date r)%Z)
                                         sales_data)))
         df /\
  (Prim.qsum (map Forecast.quantity df) == Prim.qsum (map snd sales_data))%Q.
Proof.
  cbv zeta. unfold Forecast.prepare_time_series_data.
  destruct sales_data as [| s0 rest] eqn:E.
  - simpl. repeat split; try constructor; auto.
  - rewrite <- E. clear E s0 rest.
    set (dates := Prim.isort Z.leb (nodup Z.eq_dec (map fst sales_data))).
    rewrite !map_map. simpl.
    rewrite map_id.
    split; [apply isort_distinct_ascending, NoDup_nodup |].
    split.
    { intros d. unfold dates. split; intros H.
      - apply (Permutation_in _ (isort_perm Z.leb _)) in H.
        now apply nodup_In in H.
      - apply (Permutation_in _ (Permutation_sym (isort_perm Z.leb _))).
        now apply nodup_In. }
    split.
    { apply Forall_forall. intros r Hr. apply in_map_iff in Hr.
      destruct Hr as (d & <- & _). reflexivity. }
    apply (@bin_sums (Calendar.Timestamp * Q) fst snd dates).
    + unfold dates.
      apply Permutation_NoDup with (nodup Z.eq_dec (map fst sales_data));
        [apply Permutation_sym, isort_perm | apply NoDup_nodup].
    + intros r Hr. unfold dates.
      apply (Permutation_in _ (Permutation_sym (isort_perm Z.leb _))).
      apply nodup_In, in_map. exact Hr.
Qed.

(** ** Weekly bins *)

Section WeekFacts.
Import Prim Calendar Forecast.
Local Open Scope Z_scope.

(** A day falls in the week that ends on the first Monday on or after it. *)
Lemma week_end_spec (t : Timestamp) :
  weekday (week_end t) = 0 /\ t <= week_end t < t + 7.
Proof.
  unfold week_end, weekday. Z.div_mod_to_equations. lia.
Qed.

Lemma week_end_mono (a b : Timestamp) : a <= b -> week_end a <= week_end b.
Proof.
  intros Hab.
  destruct (week_end_spec a) as [Ha Ha'], (week_end_spec b) as [Hb Hb'].
  unfold weekday in Ha, Hb. Z.div_mod_to_equations. lia.
Qed.

(** Two week ends differ by a whole number of weeks. *)
Lemma week_end_step (a b : Timestamp) :
  a <= b -> exists i : nat, week_end b = week_end a + 7 * Z.of_nat i.
Proof.
  intros Hab. pose proof (week_end_mono Hab) as Hle.
  destruct (week_end_spec a) as [Ha _], (week_end_spec b) as [Hb _].
  unfold weekday in Ha, Hb.
  exists (Z.to_nat ((week_end b - week_end a) / 7)).
  rewrite Z2Nat.id by (apply Z.div_pos; lia).
  Z.div_mod_to_equations. lia.
Qed.

Lemma min_date_le (d : Timestamp) (ds : list Timestamp) :
  min_date d ds <= d /\ forall x, In x ds -> min_date d ds <= x.
Proof.
  unfold min_date. induction ds as [| y ds [IH1 IH2]]; simpl.
  - split; [lia | intros x []].
  - split; [lia |]. intros x [<- | Hx]; [lia |]. specialize (IH2 x Hx). lia.
Qed.

Lemma max_date_ge (d : Timestamp) (ds : list Timestamp) :
  d <= max_date d ds /\ forall x, In x ds -> x <= max_date d ds.
Proof.
  unfold max_date. induction ds as [| y ds [IH1 IH2]]; simpl.
  - split; [lia | intros x []].
  - split; [lia |]. intros x [<- | Hx]; [lia |]. specialize (IH2 x Hx). lia.
Qed.

Lemma bins_NoDup (first : Z) (start n : nat) :
  NoDup (map (fun i => first + 7 * Z.of_nat i) (seq start n)).
Proof.
  revert start. induction n as [| n IH]; intros start; cbn [seq map]; constructor.
  - intros H. apply in_map_iff in H. destruct H as (i & Hi & Hin).
    apply in_seq in Hin. lia.
  - apply IH.
Qed.

(** The bins of the weekly series: consecutive Mondays from the week of
    the first date to the week of the last. *)
Lemma resample_bins (d0 : Timestamp) (q0 : Q) (rows : series) :
  let all := (d0, q0) :: rows in
  let first := week_end (min_date d0 (map fst all)) in
  let last := week_end (max_date d0 (map fst all)) in
  map fst (resample_weekly_sum all)
  = map (fun i => first + 7 * Z.of_nat i)
        (seq 0 (S (Z.to_nat ((last - first) / 7)))).
Proof.
  cbv zeta. unfold resample_weekly_sum. rewrite map_map. reflexivity.
Qed.

(** Every day of the series falls in one of the bins. *)
Lemma resample_covers (d0 : Timestamp) (q0 : Q) (rows : series) (r : Timestamp * Q) :
  In r ((d0, q0) :: rows) ->
  In (week_end (fst r)) (map fst (resample_weekly_sum ((d0, q0) :: rows))).
Proof.
  intros Hr. rewrite resample_bins.
  set (all := (d0, q0) :: rows) in *.
  set (lo := min_date d0 (map fst all)).
  set (hi := max_date d0 (map fst all)).
  assert (Hlo : lo <= fst r) by (apply min_date_le, in_map, Hr).
  assert (Hhi : fst r <= hi) by (apply max_date_ge, in_map, Hr).
  destruct (week_end_step Hlo) as (i & Hi).
  destruct (week_end_step Hhi) as (j & Hj).
  apply in_map_iff. exists i. split; [symmetry; exact Hi |].
  apply in_seq. split; [lia |].
  replace (week_end hi - week_end lo) with ((Z.of_nat i + Z.of_nat j) * 7) by lia.
  rewrite Z.div_mul by lia. lia.
Qed.

End WeekFacts.

Section WeekSums.
Import Prim Calendar Forecast.
Local Open Scope Q_scope.

(** The weekly series holds every unit of the daily series. *)
Lemma resample_preserves_total (rows : series) :
  qsum (map snd (resample_weekly_sum rows)) == qsum (map snd rows).
Proof.
  destruct rows as [| [d0 q0] rows]; [reflexivity |].
  pose proof (resample_bins d0 q0 rows) as Hbins. cbv zeta in Hbins.
  set (all := (d0, q0) :: rows) in *.
  assert (Hsums :
            map snd (resample_weekly_sum all)
            = map (fun b => qsum (map snd
                                      (filter (fun r => (week_end (fst r) =? b)%Z) all)))
                  (map fst (resample_weekly_sum all))).
  { unfold resample_weekly_sum, all. rewrite !map_map. reflexivity. }
  rewrite Hsums.
  apply (@bin_sums (Timestamp * Q) (fun r => week_end (fst r)) snd).
  - rewrite Hbins. apply bins_NoDup.
  - intros r Hr. now apply resample_covers.
Qed.

(** The weeks of the series are Mondays, seven days apart, in ascending
    order. *)
Lemma resample_weeks (rows : series) :
  Forall (fun w => weekday (fst w) = 0%Z) (resample_weekly_sum rows) /\
  exists first,
    map fst (resample_weekly_sum rows)
    = map (fun i => (first + 7 * Z.of_nat i)%Z)
          (seq 0 (length (resample_weekly_sum rows))).
Proof.
  destruct rows as [| [d0 q0] rows].
  - split; [constructor | exists 0%Z; reflexivity].
  - pose proof (resample_bins d0 q0 rows) as Hbins. cbv zeta in Hbins.
    set (all := (d0, q0) :: rows) in *.
    set (first := week_end (min_date d0 (map fst all))) in *.
    split.
    + apply Forall_forall. intros w Hw.
      apply (in_map fst) in Hw. rewrite Hbins in Hw.
      apply in_map_iff in Hw. destruct Hw as (i & <- & _).
      destruct (week_end_spec (min_date d0 (map fst all))) as [H0 _].
      fold first in H0. unfold weekday in *.
      Z.div_mod_to_equations. lia.
    + exists first. rewrite Hbins. f_equal. f_equal.
      rewrite <- (length_map fst), Hbins, length_map, length_seq. reflexivity.
Qed.

End WeekSums.

(** The weekly series of [resample('W-Mon').sum()], as the forecasts and
    the sales trends use it: its weeks are Mondays, seven days apart
    without a gap, every date falls in the week that ends on the first
    Monday on or after it, and the weekly quantities add up to the
    quantities of the series. *)
Lemma weekly_series_keeps_every_sale (rows : Forecast.series) :
  let weekly := Forecast.resample_weekly_sum rows in
  Forall (fun w => Calendar.weekday (fst w) = 0%Z) weekly /\
  (exists first,
      map fst weekly
      = map (fun i => (first + 7 * Z.of_nat i)%Z) (seq 0 (length weekly))) /\
  (forall r, In r rows ->
             exists w, In w weekly /\ (fst r <= fst w < fst r + 7)%Z) /\
  (Prim.qsum (map snd weekly) == Prim.qsum (map snd rows))%Q.
Proof.
  cbv zeta.
  destruct (resample_weeks rows) as [Hmon Hstep].
  split; [exact Hmon |]. split; [exact Hstep |].
  split; [| apply resample_preserves_total].
  intros r Hr. destruct rows as [| [d0 q0] rows]; [destruct Hr |].
  pose proof (resample_covers Hr) as Hin.
  apply in_map_iff in Hin. destruct Hin as (w & Hw & Hin).
  exists w. split; [exact Hin |]. rewrite Hw.
  apply week_end_spec.
Qed.

Section TrendFacts.
Import Prim Calendar Forecast.

(** [int(x)] depends on the value of [x] alone. *)
Lemma py_int_comp (x y : Q) : (x == y)%Q -> py_int x = py_int y.
Proof.
  intros E. destruct (Qlt_le_dec x 0) as [Hneg | Hpos].
  - assert (Hx : py_int x = (- py_int (- x))%Z).
    { unfold py_int. destruct x as [n d]. simpl.
      rewrite Z.quot_opp_l by lia. lia. }
    assert (Hy : py_int y = (- py_int (- y))%Z).
    { unfold py_int. destruct y as [n d]. simpl.
      rewrite Z.quot_opp_l by lia. lia. }
    rewrite Hx, Hy, !py_int_floor by lra.
    f_equal. apply Qfloor_comp. now rewrite E.
  - rewrite !py_int_floor by lra. now apply Qfloor_comp.
Qed.

Lemma daily_frame_dates (sales_data : series) (medicine_name : string) (d : Timestamp) :
  In d (map date (prepare_time_series_data sales_data medicine_name))
  <-> In d (map fst sales_data).
Proof.
  unfold prepare_time_series_data.
  destruct sales_data as [| s0 rest] eqn:E; [reflexivity |].
  rewrite <- E. clear E s0 rest.
  rewrite map_map. simpl. rewrite map_id. split; intros H.
  - apply (Permutation_in _ (isort_perm Z.leb _)) in H.
    now apply nodup_In in H.
  - apply (Permutation_in _ (Permutation_sym (isort_perm Z.leb _))).
    now apply nodup_In.
Qed.

Lemma daily_frame_total (sales_data : series) (medicine_name : string) :
  (qsum (map quantity (prepare_time_series_data sales_data medicine_name))
   == qsum (map snd sales_data))%Q.
Proof.
  unfold prepare_time_series_data.
  destruct sales_data as [| s0 rest] eqn:E; [reflexivity |].
  rewrite <- E. clear E s0 rest.
  rewrite map_map. simpl.
  apply (@bin_sums (Timestamp * Q) fst snd).
  - apply Permutation_NoDup with (nodup Z.eq_dec (map fst sales_data));
      [apply Permutation_sym, isort_perm | apply NoDup_nodup].
  - intros r Hr.
    apply (Permutation_in _ (Permutation_sym (isort_perm Z.leb _))).
    apply nodup_In, in_map. exact Hr.
Qed.

Lemma daily_frame_empty (sales_data : series) (medicine_name : string) :
  prepare_time_series_data sales_data medicine_name = [] -> sales_data = [].
Proof.
  intros E. destruct sales_data as [| [d q] rest]; [reflexivity |].
  assert (H : In d (map date (prepare_time_series_data ((d, q) :: rest) medicine_name)))
    by (apply daily_frame_dates; now left).
  rewrite E in H. destruct H.
Qed.

End TrendFacts.

(** X5. forecast.py, [process_medicine_forecasts]: the request always
    returns its dict, whatever the fitting libraries do.  Its
    [total_quantity] is the whole part of the quantities sold; its
    [sales_trends] are weeks that end on a Monday, seven days apart without
    a gap, each labelled with the season of the month of its Monday; every
    sale date falls in the week that ends on the first Monday on or after
    it, and the weekly quantities add up to the quantities sold. *)
Theorem sales_trends_account_for_every_sale
    (SarimaxResults ProphetModel : Type)
    (SARIMAX_fit : Forecast.series -> Py.outcome SarimaxResults)
    (get_forecast : SarimaxResults -> Z -> Py.outcome Forecast.SarimaxForecast)
    (Prophet_fit : Forecast.series -> Py.outcome ProphetModel)
    (Prophet_predict : ProphetModel -> Z -> Py.outcome (list Forecast.ProphetRow))
    (available : bool)
    (medicine_id : Z) (medicine_name : string) (sales_data : Forecast.series) :
  exists forecasts events,
    Py.run (Forecast.process_medicine_forecasts SARIMAX_fit get_forecast
              Prophet_fit Prophet_predict available
              medicine_id medicine_name sales_data)
    = (Py.Return forecasts, events) /\
    Forecast.total_quantity forecasts
    = Prim.py_int (Prim.qsum (map snd sales_data)) /\
    let trends := Forecast.sales_trends forecasts in
    Forall (fun x => Calendar.weekday (fst (fst x)) = 0%Z /\
                     snd x = Forecast.get_season (Calendar.month_of (fst (fst x))))
           trends /\
    (exists first,
        map (fun x => fst (fst x)) trends
        = map (fun i => (first + 7 * Z.of_nat i)%Z) (seq 0 (length trends))) /\
    (forall d q, In (d, q) sales_data ->
                 exists x, In x trends /\ (d <= fst (fst x) < d + 7)%Z) /\
    (Prim.qsum (map (fun x => snd (fst x)) trends)
     == Prim.qsum (map snd sales_data))%Q.
Proof.
  destruct (Forecast.prepare_time_series_data sales_data medicine_name)
    as [| r0 df'] eqn:E.
  - pose proof (daily_frame_empty _ _ E) as ->.
    do 2 eexists. split; [reflexivity |]. split; [reflexivity |].
    cbv zeta. simpl. split; [constructor |].
    split; [exists 0%Z; reflexivity |].
    split; [intros d q [] | reflexivity].
  - assert (Hne : Forecast.prepare_time_series_data sales_data medicine_name <> [])
      by (rewrite E; discriminate).
    destruct (@sarima_total _ SARIMAX_fit get_forecast available
                (Forecast.prepare_time_series_data sales_data medicine_name) 12%Z)
      as (s & es & Hs).
    destruct (@prophet_total _ Prophet_fit Prophet_predict available
                (Forecast.prepare_time_series_data sales_data medicine_name) 3%Z)
      as (p & ep & Hp).
    pose proof (@process_runs_both _ _ SARIMAX_fit get_forecast Prophet_fit
                  Prophet_predict available medicine_id medicine_name sales_data
                  s es p ep Hne Hs Hp) as Hrun.
    clear E r0 df'.
    set (df := Forecast.prepare_time_series_data sales_data medicine_name) in *.
    do 2 eexists. split; [exact Hrun |].
    split; [cbn [Forecast.total_quantity]; apply py_int_comp, daily_frame_total |].
    cbv zeta. cbn [Forecast.sales_trends].
    set (weekly := Forecast.resample_weekly_sum (Forecast.daily_series df)).
    destruct (weekly_series_keeps_every_sale (Forecast.daily_series df))
      as (Hmon & Hstep & Hcover & Htotal).
    fold weekly in Hmon, Hstep, Hcover, Htotal.
    split.
    { apply Forall_forall. intros x Hx. apply in_map_iff in Hx.
      destruct Hx as (w & <- & Hw). simpl. split; [| reflexivity].
      rewrite Forall_forall in Hmon. exact (Hmon w Hw). }
    split.
    { destruct Hstep as (first & Hfirst). exists first.
      rewrite map_map, length_map. simpl. exact Hfirst. }
    split.
    { intros d q Hin.
      assert (Hd : In d (map Forecast.date df))
        by (apply daily_frame_dates; apply (in_map fst) in Hin; exact Hin).
      apply in_map_iff in Hd. destruct Hd as (r & Hr & Hrin).
      destruct (Hcover (Forecast.date r, Forecast.quantity r)) as (w & Hw & Hbound).
      { unfold Forecast.daily_series.
        apply (in_map (fun r => (Forecast.date r, Forecast.quantity r))). exact Hrin. }
      exists (fst w, snd w, Forecast.get_season (Calendar.month_of (fst w))).
      split.
      - apply (in_map (fun w => (fst w, snd w,
                                 Forecast.get_season (Calendar.month_of (fst w))))).
        exact Hw.
      - simpl in Hbound |- *. rewrite Hr in Hbound. exact Hbound. }
    rewrite map_map. simpl.
    rewrite Htotal. unfold Forecast.daily_series. rewrite map_map. simpl.
    apply daily_frame_total.
Qed.

(** ** Fast movers *)

Section RoundFacts.
Import Prim.
Local Open Scope Q_scope.

Lemma round_half_even_bounds (x : Q) :
  (Qfloor x <= round_half_even x <= Qfloor x + 1)%Z.
Proof.
  unfold round_half_even.
  destruct (x - inject_Z (Qfloor x) ?= 1 # 2); [destruct (Z.even _) | |]; lia.
Qed.

(** Rounding to the nearest integer keeps the order. *)
Lemma round_half_even_mono (x y : Q) :
  x <= y -> (round_half_even x <= round_half_even y)%Z.
Proof.
  intros Hxy. pose proof (Qfloor_resp_le _ _ Hxy) as Hf.
  destruct (Z.eq_dec (Qfloor x) (Qfloor y)) as [E | E].
  - unfold round_half_even. rewrite <- E.
    destruct (Qcompare_spec (x - inject_Z (Qfloor x)) (1 # 2)) as [Hx | Hx | Hx];
      destruct (Qcompare_spec (y - inject_Z (Qfloor x)) (1 # 2)) as [Hy | Hy | Hy];
      try destruct (Z.even (Qfloor x)); try lia; exfalso; lra.
  - pose proof (round_half_even_bounds x). pose proof (round_half_even_bounds y).
    lia.
Qed.

Lemma round2_mono (x y : Q) : x <= y -> round2 x <= round2 y.
Proof.
  intros Hxy. unfold round2, Qdiv.
  apply Qmult_le_compat_r; [| discriminate].
  rewrite <- Zle_Qle. apply round_half_even_mono. lra.
Qed.

End RoundFacts.

Section PrefixFacts.
Variable A : Type.

(** In a list sorted by [R], two members are equal or related one way or
    the other. *)
Lemma StronglySorted_pair (R : A -> A -> Prop) (l : list A) (a b : A) :
  StronglySorted R l -> In a l -> In b l -> a = b \/ R a b \/ R b a.
Proof.
  induction 1 as [| x l Hs IH Hall]; intros Ha Hb; [destruct Ha |].
  rewrite Forall_forall in Hall.
  destruct Ha as [<- | Ha], Hb as [<- | Hb]; auto.
Qed.

(** When the flagged rows all come before the others, they are the first
    rows of the list. *)
Lemma filter_prefix (f : A -> bool) (l : list A) :
  StronglySorted (fun a b => f b = true -> f a = true) l ->
  filter f l = firstn (length (filter f l)) l.
Proof.
  induction 1 as [| x l Hs IH Hall]; [reflexivity |].
  simpl. destruct (f x) eqn:Ex; simpl.
  - f_equal. exact IH.
  - assert (Hnone : filter f l = []).
    { rewrite Forall_forall in Hall.
      clear IH Hs. induction l as [| y l IHl]; [reflexivity |].
      simpl. destruct (f y) eqn:Ey.
      - specialize (Hall y (or_introl eq_refl) Ey). congruence.
      - apply IHl. intros z Hz. apply Hall. now right. }
    rewrite Hnone. reflexivity.
Qed.

(** With consecutive ranks down the list, the first [k] rows are the rows
    of the [k] lowest ranks. *)
Lemma In_firstn_rank (rank : A -> nat) (l : list A) (start k : nat) (r : A) :
  map rank l = seq start (length l) ->
  In r l -> (In r (firstn k l) <-> rank r < start + k).
Proof.
  revert start k.
  induction l as [| x l IH]; intros start k Hrank Hin; [destruct Hin |].
  simpl in Hrank. injection Hrank as Hx Hl.
  assert (Hge : forall y, In y l -> S start <= rank y).
  { intros y Hy. apply (in_map rank) in Hy. rewrite Hl in Hy.
    apply in_seq in Hy. lia. }
  destruct k as [| k]; simpl.
  - split; [intros [] |]. intros Hlt.
    destruct Hin as [<- | Hin]; [lia | specialize (Hge r Hin); lia].
  - split.
    + intros [<- | Hr]; [lia |].
      assert (Hr' : In r l).
      { rewrite <- (firstn_skipn k l). apply in_or_app. now left. }
      apply (IH (S start) k Hl Hr') in Hr. lia.
    + intros Hlt. destruct Hin as [<- | Hin]; [now left | right].
      apply (IH (S start) k Hl Hin). lia.
Qed.

End PrefixFacts.

Section FastMoverFacts.
Import Prim Calendar Engine.
Local Open Scope Q_scope.

Lemma days_in_season_pos (r : FeatRow) (season_data : list FeatRow) :
  (0 < days_in_season r season_data)%Z.
Proof.
  unfold days_in_season, days_between.
  pose proof (proj1 (min_date_le (date r) (map date season_data))).
  pose proof (proj1 (max_date_ge (date r) (map date season_data))).
  destruct (Z.eqb_spec (max_date (date r) (map date season_data)
                        - min_date (date r) (map date season_data)) 0); lia.
Qed.

(** The daily average grows with the sales of the season. *)
Lemma score_daily_mono (buffer : Q) (days : Z) (a b : AggRow) :
  (0 < days)%Z ->
  agg_last_season_sales b <= agg_last_season_sales a ->
  sc_daily_avg_sales (score buffer days b) <= sc_daily_avg_sales (score buffer days a).
Proof.
  intros Hdays Hle. simpl. apply round2_mono. unfold Qdiv.
  apply Qmult_le_compat_r; [exact Hle |].
  apply Qinv_le_0_compat. change 0 with (inject_Z 0).
  rewrite <- Zle_Qle. lia.
Qed.

Variable sort_values_desc : list Scored -> list Scored.
Hypothesis sort_ok : sort_contract sort_values_desc.

(** Down the ranking the fast movers come first. *)
Lemma fast_movers_first (buffer : Q) (days : Z) (aggs : list AggRow) :
  (0 < days)%Z ->
  StronglySorted (fun a b => is_fast_mover b = true -> is_fast_mover a = true)
    (rank_and_flag (75 # 100) (sort_values_desc (map (score buffer days) aggs))).
Proof.
  intros Hdays.
  set (sorted := sort_values_desc (map (score buffer days) aggs)).
  assert (Hsorted : StronglySorted (fun a b => sc_key b <= sc_key a) sorted)
    by (apply sort_values_desc_strongly_sorted, sort_ok).
  assert (Hscore : forall x, In x sorted -> exists a, x = score buffer days a).
  { intros x Hx. apply (Permutation_in _ (proj1 (sort_ok _))) in Hx.
    apply in_map_iff in Hx. destruct Hx as (a & <- & _). now exists a. }
  unfold rank_and_flag.
  set (t := quantile (75 # 100) _). clearbody t.
  unfold add_rank. generalize 1%nat as start.
  induction Hsorted as [| x l Hs IH Hall]; intros start; [constructor |].
  cbn [length seq combine map]. constructor.
  - apply IH. intros y Hy. apply Hscore. now right.
  - rewrite Forall_forall in Hall |- *. intros rec Hrec.
    apply in_map_iff in Hrec. destruct Hrec as ([k y] & <- & Hky).
    apply in_combine_r in Hky. specialize (Hall y Hky).
    destruct (Hscore x (or_introl eq_refl)) as (a & ->).
    destruct (Hscore y (or_intror Hky)) as (b & ->).
    pose proof (score_daily_mono buffer a b Hdays Hall) as Hd.
    cbn [finish is_fast_mover] in *.
    destruct t as [t |]; cbn [ge_nan]; [| discriminate].
    rewrite !Qle_bool_iff. intros Ht. now apply Qle_trans with (2 := Hd).
Qed.

End FastMoverFacts.

Section RankingFacts.
Import Prim Calendar Engine.
Local Open Scope Q_scope.

Variable sort_values_desc : list Scored -> list Scored.
Hypothesis sort_ok : sort_contract sort_values_desc.
Variable df : list FeatRow.
Variable target_season : string.
Variable buffer : Q.

Local Abbreviation recs :=
  (get_heuristic_recommendations sort_values_desc df target_season buffer).

Lemma engine_ranks : map rank recs = seq 1 (length recs).
Proof.
  destruct (filter (fun t => String.eqb (Season t) target_season) df)
    as [| r0 rest] eqn:E.
  - now rewrite (recommendations_of_empty_season sort_values_desc _ _ buffer E).
  - rewrite (recommendations_of_season sort_values_desc _ _ buffer E).
    now rewrite rank_and_flag_rank, rank_and_flag_length.
Qed.

(** The fast movers are the first rows of the ranking. *)
Lemma engine_fast_movers_prefix :
  filter is_fast_mover recs = firstn (length (filter is_fast_mover recs)) recs.
Proof.
  destruct (filter (fun t => String.eqb (Season t) target_season) df)
    as [| r0 rest] eqn:E.
  - now rewrite (recommendations_of_empty_season sort_values_desc _ _ buffer E).
  - rewrite (recommendations_of_season sort_values_desc _ _ buffer E).
    apply filter_prefix, fast_movers_first; [exact sort_ok |].
    apply days_in_season_pos.
Qed.

Lemma engine_has_fast_mover :
  recs <> [] -> (1 <= length (filter is_fast_mover recs))%nat.
Proof.
  intros Hne.
  destruct (filter (fun t => String.eqb (Season t) target_season) df)
    as [| r0 rest] eqn:E.
  - rewrite (recommendations_of_empty_season sort_values_desc _ _ buffer E) in Hne.
    congruence.
  - rewrite (recommendations_of_season sort_values_desc _ _ buffer E) in Hne |- *.
    destruct (@rank_and_flag_fast_mover (75 # 100)
                (sort_values_desc
                   (map (score buffer (days_in_season r0 (r0 :: rest)))
                        (groupby_agg (r0 :: rest)))))
      as (t & top & _ & Htop & _ & _ & _ & Hflag); try discriminate.
    { intros E'. rewrite E' in Hne. now apply Hne. }
    assert (Hin : In top (filter is_fast_mover
                            (rank_and_flag (75 # 100)
                               (sort_values_desc
                                  (map (score buffer (days_in_season r0 (r0 :: rest)))
                                       (groupby_agg (r0 :: rest)))))))
      by (apply filter_In; now split).
    destruct (filter is_fast_mover _); [destruct Hin | simpl; lia].
Qed.

End RankingFacts.

(** X6. Engine.py, [get_heuristic_recommendations]: the fast movers are
    the medicines of the best ranks.  For some [k] with [1 <= k <= N], a
    recommendation is flagged as fast mover exactly when its rank is at
    most [k]: no medicine is flagged while a better-selling one is not. *)
Theorem fast_movers_are_the_top_ranks
    (sort_values_desc : list Engine.Scored -> list Engine.Scored)
    (df : list Engine.FeatRow) (target_season : string) (buffer : Q) :
  Engine.sort_contract sort_values_desc ->
  let recs :=
    Engine.get_heuristic_recommendations sort_values_desc df target_season buffer in
  recs <> [] ->
  exists k,
    1 <= k <= length recs /\
    forall r, In r recs -> (Engine.is_fast_mover r = true <-> Engine.rank r <= k).
Proof.
  intros Hsort recs Hne.
  exists (length (filter Engine.is_fast_mover recs)).
  split.
  - split; [now apply engine_has_fast_mover | apply filter_length_le].
  - intros r Hr.
    pose proof (engine_fast_movers_prefix Hsort df target_season buffer) as Hpre.
    pose proof (engine_ranks sort_values_desc df target_season buffer) as Hrank.
    fold recs in Hpre, Hrank.
    pose proof (In_firstn_rank Engine.rank recs 1
                  (length (filter Engine.is_fast_mover recs)) r Hrank Hr) as Hk.
    rewrite <- Hpre, filter_In in Hk.
    split.
    + intros Hf. assert (Hlt := proj1 Hk (conj Hr Hf)). lia.
    + intros Hle. apply Hk. lia.
Qed.

Lemma fast_movers_are_the_top_ranks_witness :
  exists k,
    1 <= k <= length (Engine.get_heuristic_recommendations
                        Engine.stable_sort_desc SeasonExamples.monsoon_2023
                        "Monsoon" Engine.default_buffer) /\
    forall r,
      In r (Engine.get_heuristic_recommendations
              Engine.stable_sort_desc SeasonExamples.monsoon_2023
              "Monsoon" Engine.default_buffer) ->
      (Engine.is_fast_mover r = true <-> Engine.rank r <= k).
Proof.
  apply (@fast_movers_are_the_top_ranks
           Engine.stable_sort_desc SeasonExamples.monsoon_2023
           "Monsoon"%string Engine.default_buffer).
  - apply stable_sort_contract.
  - vm_compute. discriminate.
Defined.

(** ** The ordering calendar and the budget *)

Section PlanningFacts.
Import Prim Engine Planning.

Lemma zsum_app (xs ys : list Z) : zsum (xs ++ ys) = (zsum xs + zsum ys)%Z.
Proof. induction xs as [| x xs IH]; simpl; [reflexivity | rewrite IH; lia]. Qed.

(** [int(total * 0.5)] is the half of the total, truncated towards zero. *)
Lemma py_int_half (z : Z) : py_int (inject_Z z * (5 # 10))%Q = Z.quot z 2.
Proof.
  unfold py_int. simpl. change 10%Z with (2 * 5)%Z.
  apply Z.quot_mul_cancel_r; lia.
Qed.

Lemma nsum_app (xs ys : list nat) :
  fold_right Nat.add 0 (xs ++ ys)
  = fold_right Nat.add 0 xs + fold_right Nat.add 0 ys.
Proof. induction xs as [| x xs IH]; simpl; [reflexivity | rewrite IH; lia]. Qed.

(** The entry of a tier holds the rows of the tier. *)
Lemma budget_entry_rows (total : Q)
    (item : Priority.level * list (Priority.tiered Recommendation)) :
  let entry := budget_entry total item in
  let rows := Priority.rows_of (snd item) in
  fold_right Nat.add 0 (map (fun e => tier_medicines_count (snd e)) entry)
  = length rows /\
  zsum (map (fun e => total_units (snd e)) entry)
  = zsum (map suggested_stock_quantity rows) /\
  (qsum (map (fun e => estimated_budget_INR (snd e)) entry)
   == qsum (map total_revenue rows))%Q /\
  Forall (fun e => 1 <= tier_medicines_count (snd e)) entry.
Proof.
  destruct item as [p t]. cbv zeta. cbn [snd budget_entry].
  destruct (Priority.rows_of t) as [| r rows].
  - simpl. repeat split; try reflexivity. constructor.
  - cbn [map fold_right snd tier_medicines_count total_units
             estimated_budget_INR zsum qsum].
    split; [lia |]. split; [lia |].
    split; [unfold qsum; cbn [fold_right]; ring |].
    constructor; [simpl; lia | constructor].
Qed.

(** The entries of the budget hold the rows of their tiers. *)
Lemma budget_of_tiers (total : Q)
    (tiers : list (Priority.level * list (Priority.tiered Recommendation))) :
  let budget := flat_map (budget_entry total) tiers in
  let rows := concat (map (fun item => Priority.rows_of (snd item)) tiers) in
  fold_right Nat.add 0 (map (fun e => tier_medicines_count (snd e)) budget)
  = length rows /\
  zsum (map (fun e => total_units (snd e)) budget)
  = zsum (map suggested_stock_quantity rows) /\
  (qsum (map (fun e => estimated_budget_INR (snd e)) budget)
   == qsum (map total_revenue rows))%Q /\
  Forall (fun e => 1 <= tier_medicines_count (snd e)) budget.
Proof.
  cbv zeta. induction tiers as [| item tiers (IHn & IHu & IHb & IHf)].
  - simpl. repeat split; try reflexivity. constructor.
  - destruct (budget_entry_rows total item) as (Hn & Hu & Hb & Hf).
    cbn [flat_map map concat].
    rewrite !map_app, nsum_app, !zsum_app, !qsum_app, length_app.
    rewrite Hn, Hu, Hb, IHn, IHu, IHb.
    repeat split; try reflexivity.
    apply Forall_app. now split.
Qed.

End PlanningFacts.

(** X7. Engine.py, [generate_ordering_calendar] on the recommendations of
    the engine.  The calendar has the four rows URGENT, HIGH, MEDIUM and
    RESTOCK, whatever season is passed.  The first window holds the fast
    movers among the ten best ranks, at least one; the second and third
    hold the ranks 11 to 30 and 31 to 60; the restock row repeats the first
    window with half its quantity, truncated, and half its cost.  Medicines
    are left out of the three ordering windows exactly when there are more
    than 60, or when one of the ten best is not a fast mover. *)
Theorem ordering_calendar_windows
    (sort_values_desc : list Engine.Scored -> list Engine.Scored)
    (df : list Engine.FeatRow) (target_season calendar_season : string)
    (buffer : Q) :
  Engine.sort_contract sort_values_desc ->
  let recs :=
    Engine.get_heuristic_recommendations sort_values_desc df target_season buffer in
  recs <> [] ->
  let n := length recs in
  let k := length (filter Engine.is_fast_mover recs) in
  exists early pre mid peak,
    Planning.generate_ordering_calendar calendar_season recs
    = [early; pre; mid; peak] /\
    map Planning.priority [early; pre; mid; peak]
    = ["URGENT"; "HIGH"; "MEDIUM"; "RESTOCK"]%string /\
    1 <= Planning.medicines_count early <= 10 /\
    Planning.medicines_count early = Nat.min k 10 /\
    Planning.total_quantity early
    = Planning.zsum (map Engine.suggested_stock_quantity
                         (Prim.head (Nat.min k 10) recs)) /\
    Planning.medicines_count pre = Nat.min n 30 - Nat.min n 10 /\
    Planning.medicines_count mid = Nat.min n 60 - Nat.min n 30 /\
    Planning.medicines_count peak = Planning.medicines_count early /\
    Planning.total_quantity peak = Z.quot (Planning.total_quantity early) 2 /\
    (Planning.estimated_cost_INR peak
     == Planning.estimated_cost_INR early / 2)%Q /\
    (Planning.medicines_count early + Planning.medicines_count pre
     + Planning.medicines_count mid < n
     <-> 60 < n \/ k < Nat.min n 10).
Proof.
  intros Hsort recs Hne n k.
  pose proof (engine_fast_movers_prefix Hsort df target_season buffer) as Hpre.
  pose proof (@engine_has_fast_mover sort_values_desc df target_season buffer Hne)
    as Hk1.
  fold recs in Hpre, Hk1. fold k in Hpre, Hk1.
  assert (Hkn : k <= n) by apply filter_length_le.
  assert (Hcrit : Prim.head 10 (filter Engine.is_fast_mover recs)
                  = Prim.head (Nat.min k 10) recs).
  { rewrite Hpre. unfold Prim.head. rewrite firstn_firstn.
    now rewrite Nat.min_comm. }
  unfold Planning.generate_ordering_calendar.
  rewrite Hcrit.
  do 4 eexists. split; [reflexivity |].
  cbn [map Planning.priority Planning.medicines_count Planning.total_quantity
           Planning.estimated_cost_INR].
  rewrite length_head, !length_iloc. fold n.
  split; [reflexivity |].
  split; [lia |]. split; [lia |]. split; [reflexivity |].
  split; [lia |]. split; [lia |]. split; [reflexivity |].
  split; [apply py_int_half |].
  split; [field |]. lia.
Qed.

Lemma ordering_calendar_windows_witness :
  let recs :=
    Engine.get_heuristic_recommendations
      Engine.stable_sort_desc SeasonExamples.monsoon_2023
      "Monsoon" Engine.default_buffer in
  let n := length recs in
  let k := length (filter Engine.is_fast_mover recs) in
  exists early pre mid peak,
    Planning.generate_ordering_calendar "Winter" recs
    = [early; pre; mid; peak] /\
    map Planning.priority [early; pre; mid; peak]
    = ["URGENT"; "HIGH"; "MEDIUM"; "RESTOCK"]%string /\
    1 <= Planning.medicines_count early <= 10 /\
    Planning.medicines_count early = Nat.min k 10 /\
    Planning.total_quantity early
    = Planning.zsum (map Engine.suggested_stock_quantity
                         (Prim.head (Nat.min k 10) recs)) /\
    Planning.medicines_count pre = Nat.min n 30 - Nat.min n 10 /\
    Planning.medicines_count mid = Nat.min n 60 - Nat.min n 30 /\
    Planning.medicines_count peak = Planning.medicines_count early /\
    Planning.total_quantity peak = Z.quot (Planning.total_quantity early) 2 /\
    (Planning.estimated_cost_INR peak
     == Planning.estimated_cost_INR early / 2)%Q /\
    (Planning.medicines_count early + Planning.medicines_count pre
     + Planning.medicines_count mid < n
     <-> 60 < n \/ k < Nat.min n 10).
Proof.
  apply (@ordering_calendar_windows
           Engine.stable_sort_desc SeasonExamples.monsoon_2023
           "Monsoon"%string "Winter"%string Engine.default_buffer).
  - apply stable_sort_contract.
  - vm_compute. discriminate.
Defined.

(** X8. Engine.py, [generate_actionable_insights]: the budget allocation
    accounts for every recommendation once.  Its entries are the tiers that
    have rows, CRITICAL first; their medicine counts add up to the number
    of recommendations, their units to the suggested stock of the frame and
    their budgets to its revenue. *)
Theorem budget_allocation_covers_the_frame
    (recommendations_df : list Engine.Recommendation) :
  let budget := Planning.budget_allocation recommendations_df in
  fold_right Nat.add 0
             (map (fun e => Planning.tier_medicines_count (snd e)) budget)
  = length recommendations_df /\
  Planning.zsum (map (fun e => Planning.total_units (snd e)) budget)
  = Planning.zsum (map Engine.suggested_stock_quantity recommendations_df) /\
  (Prim.qsum (map (fun e => Planning.estimated_budget_INR (snd e)) budget)
   == Prim.qsum (map Engine.total_revenue recommendations_df))%Q /\
  Forall (fun e => 1 <= Planning.tier_medicines_count (snd e)) budget /\
  (recommendations_df = [] /\ budget = [] \/
   exists e rest, budget = (Priority.CRITICAL, e) :: rest).
Proof.
  cbv zeta. unfold Planning.budget_allocation.
  set (total := Prim.qsum (map Engine.total_revenue recommendations_df)).
  destruct (budget_of_tiers total
              (Priority.categorize_medicines_by_priority recommendations_df))
    as (Hn & Hu & Hb & Hf).
  assert (Hrows :
            concat (map (fun item => Priority.rows_of (snd item))
                        (Priority.categorize_medicines_by_priority
                           recommendations_df))
            = recommendations_df).
  { destruct recommendations_df as [| r0 rest]; [reflexivity |].
    unfold Priority.categorize_medicines_by_priority.
    cbn [map concat snd]. rewrite !rows_of_tag, app_nil_r.
    apply slices_concat. }
  rewrite Hrows in Hn, Hu, Hb.
  split; [exact Hn |]. split; [exact Hu |]. split; [exact Hb |].
  split; [exact Hf |].
  destruct recommendations_df as [| r0 rest]; [left; split; reflexivity | right].
  unfold Priority.categorize_medicines_by_priority.
  cbn [flat_map Planning.budget_entry]. rewrite rows_of_tag.
  destruct (Prim.head _ (r0 :: rest)) as [| h hs] eqn:Eh.
  - exfalso. apply (f_equal (@length _)) in Eh. rewrite length_head in Eh.
    unfold Priority.tier_count in Eh. simpl length in Eh. lia.
  - cbn [app]. do 2 eexists. reflexivity.
Qed.

(** ** The sanitizer, row by row *)

Section CleaningFacts.
Import Prim Sanitizer Pipeline.

Variable to_datetime : string -> option Calendar.Timestamp.
Variable numeric_of_string : string -> option Q.
Variable int_of_string : string -> option Z.

Local Abbreviation clean := (clean_data to_datetime numeric_of_string int_of_string).
Local Abbreviation kept := (retained numeric_of_string).
Local Abbreviation converts :=
  (fun r : RawRow =>
     exists z, astype_int int_of_string (prescription_required r) = Py.Return z).

Lemma filter_filter (A : Type) (f g : A -> bool) (l : list A) :
  filter g (filter f l) = filter (fun x => f x && g x) l.
Proof.
  induction l as [| x l IH]; simpl; [reflexivity |].
  destruct (f x); simpl; [destruct (g x) |]; now rewrite IH.
Qed.

Lemma filter_map_swap (A B : Type) (f : A -> B) (p : B -> bool) (l : list A) :
  filter p (map f l) = map f (filter (fun x => p (f x)) l).
Proof.
  induction l as [| x l IH]; simpl; [reflexivity |].
  destruct (p (f x)); simpl; now rewrite IH.
Qed.

Lemma positive_present (x : option Q) : positive x = true -> is_none x = false.
Proof. destruct x; [reflexivity | discriminate]. Qed.

(** The four filters are one mask on the raw rows. *)
Lemma clean_data_mask (df : list RawRow) :
  clean df
  = Py.omap (finish_row int_of_string)
            (map (coerce to_datetime numeric_of_string) (filter kept df)).
Proof.
  unfold clean_data. f_equal.
  rewrite !filter_filter, filter_map_swap, filter_filter. f_equal.
  apply filter_ext. intros r. unfold retained, numeric_present. cbn [coerce co_quantity co_unit_price].
  destruct (has_critical r); cbn [andb]; [| reflexivity].
  destruct (positive (to_numeric numeric_of_string (quantity r))) eqn:Eq;
    [| now rewrite !andb_false_r].
  destruct (positive (to_numeric numeric_of_string (unit_price r))) eqn:Ep;
    [| now rewrite !andb_false_r].
  now rewrite (positive_present _ Eq), (positive_present _ Ep).
Qed.


Lemma omap_map_fst (A B C : Type) (f : A -> Py.outcome B) (g : B -> C) (h : A -> C)
    (l : list A) (out : list B) :
  (forall x y, f x = Py.Return y -> g y = h x) ->
  Py.omap f l = Py.Return out -> map g out = map h l.
Proof.
  intros Hgh. revert out. induction l as [| x l IH]; simpl; intros out H.
  - now injection H as <-.
  - destruct (f x) as [y | e] eqn:E; simpl in H; [| discriminate].
    destruct (Py.omap f l) as [ys | e]; simpl in H; [| discriminate].
    injection H as <-. simpl. now rewrite (Hgh x y E), (IH ys eq_refl).
Qed.

Lemma omap_In_total (A B : Type) (f : A -> Py.outcome B) (l : list A) (out : list B) :
  Py.omap f l = Py.Return out ->
  forall x, In x l -> exists y, In y out /\ f x = Py.Return y.
Proof.
  revert out. induction l as [| a l IH]; simpl; intros out H x Hx; [destruct Hx |].
  destruct (f a) as [b | e] eqn:E; simpl in H; [| discriminate].
  destruct (Py.omap f l) as [bs | e]; simpl in H; [| discriminate].
  injection H as <-. destruct Hx as [<- | Hx].
  - exists b. split; [now left | exact E].
  - destruct (IH bs eq_refl x Hx) as (y & Hy & Hfy).
    exists y. split; [now right | exact Hfy].
Qed.


Lemma finish_row_fields (c : Coerced) (y : CleanRow) :
  finish_row int_of_string c = Py.Return y ->
  raw y = co_raw c /\ c_date y = co_date c /\
  medicine_name_clean y = option_map standardize (medicine_name (co_raw c)).
Proof.
  unfold finish_row.
  destruct (astype_int int_of_string (prescription_required (co_raw c))) as [z | e];
    simpl; [| discriminate].
  intros H. injection H as <-. repeat split.
Qed.


Lemma clean_data_rows (df : list RawRow) (out : list CleanRow) :
  clean df = Py.Return out ->
  map raw out = filter kept df /\
  map c_date out
  = map (fun r => match date r with Some s => to_datetime s | None => None end)
        (filter kept df) /\
  map medicine_name_clean out
  = map (fun r => option_map standardize (medicine_name r)) (filter kept df).
Proof.
  rewrite clean_data_mask. intros H.
  split; [| split].
  - rewrite <- (map_id (filter kept df)) at 1.
    rewrite <- (map_map (coerce to_datetime numeric_of_string) co_raw).
    + apply (omap_map_fst _ raw co_raw _ (fun c y E => proj1 (finish_row_fields c E)) H).
  - rewrite <- (map_map (coerce to_datetime numeric_of_string) co_date).
    apply (omap_map_fst _ c_date co_date _
             (fun c y E => proj1 (proj2 (finish_row_fields c E))) H).
  - rewrite <- (map_map (coerce to_datetime numeric_of_string)
                        (fun c => option_map standardize (medicine_name (co_raw c)))).
    apply (omap_map_fst _ medicine_name_clean _ _
             (fun c y E => proj2 (proj2 (finish_row_fields c E))) H).
Qed.

End CleaningFacts.


(** X10. Engine.py, [clean_data]: what the returned frame holds.  Its rows
    are the retained rows of the input, each once and in the order of the
    input; their dates are the parsed dates (NaT where the text does not
    parse) and their medicine keys the standardized names. *)
Theorem sanitizer_keeps_retained_rows_in_order
    (to_datetime : string -> option Calendar.Timestamp)
    (numeric_of_string : string -> option Q)
    (int_of_string : string -> option Z)
    (df : list Sanitizer.RawRow) (out : list Sanitizer.CleanRow) :
  Pipeline.clean_data_with_summary
    to_datetime numeric_of_string int_of_string df = Py.Return out ->
  map Sanitizer.raw out = filter (Pipeline.retained numeric_of_string) df /\
  length out <= length df /\
  map Sanitizer.c_date out
  = map (fun r => match Sanitizer.date r with
                  | Some s => to_datetime s
                  | None => None
                  end)
        (filter (Pipeline.retained numeric_of_string) df) /\
  map Sanitizer.medicine_name_clean out
  = map (fun r => option_map Sanitizer.standardize (Sanitizer.medicine_name r))
        (filter (Pipeline.retained numeric_of_string) df).
Proof.
  unfold Pipeline.clean_data_with_summary. intros H.
  destruct (Sanitizer.clean_data to_datetime numeric_of_string int_of_string df)
    as [rows | e] eqn:E; simpl in H; [| discriminate].
  destruct (length df =? 0); [discriminate |]. injection H as <-.
  destruct (clean_data_rows _ _ _ _ E) as (Hraw & Hdate & Hname).
  split; [exact Hraw |]. split; [| split; assumption].
  rewrite <- (length_map Sanitizer.raw), Hraw. apply filter_length_le.
Qed.

Lemma sanitizer_keeps_retained_rows_in_order_witness :
  exists out,
    Pipeline.clean_data_with_summary
      Examples.iso_date Examples.numeric_of_digits Examples.natural_of_string
      RawExamples.three_rows = Py.Return out /\
    map Sanitizer.raw out
    = filter (Pipeline.retained Examples.numeric_of_digits) RawExamples.three_rows /\
    length out <= length RawExamples.three_rows /\
    map Sanitizer.c_date out
    = map (fun r => match Sanitizer.date r with
                    | Some s => Examples.iso_date s
                    | None => None
                    end)
          (filter (Pipeline.retained Examples.numeric_of_digits)
                  RawExamples.three_rows) /\
    map Sanitizer.medicine_name_clean out
    = map (fun r => option_map Sanitizer.standardize (Sanitizer.medicine_name r))
          (filter (Pipeline.retained Examples.numeric_of_digits)
                  RawExamples.three_rows).
Proof.
  eexists. split; [vm_compute; reflexivity |].
  apply (@sanitizer_keeps_retained_rows_in_order
           Examples.iso_date Examples.numeric_of_digits Examples.natural_of_string
           RawExamples.three_rows).
  vm_compute. reflexivity.
Defined.

(** A missing prescription flag: fatal in a row that is retained, harmless
    in a row that is dropped for its quantity. *)
Example missing_flag_raises_only_when_retained :
  (exists e,
      Pipeline.clean_data_with_summary
        Examples.iso_date Examples.numeric_of_digits Examples.natural_of_string
        [RawExamples.unflagged_row (Sanitizer.Num 2)]
      = Py.Raise e) /\
  Pipeline.clean_data_with_summary
    Examples.iso_date Examples.numeric_of_digits Examples.natural_of_string
    [RawExamples.unflagged_row (Sanitizer.Num 0)]
  = Py.Return [].
Proof. split; [eexists |]; reflexivity. Qed.

(** X11. Engine.py, [clean_data] followed by [create_features]: a sale
    whose date does not parse is counted as a sale of the winter.  The
    feature frame has one row per cleaned row; a row with a date gets the
    season of its month, a row whose date is NaT gets [Winter]; so every
    retained raw row with an unparsed date appears with the season
    [Winter]. *)
Theorem unparsed_dates_count_as_winter
    (to_datetime : string -> option Calendar.Timestamp)
    (numeric_of_string : string -> option Q)
    (int_of_string : string -> option Z)
    (df : list Sanitizer.RawRow) (out : list Sanitizer.CleanRow) :
  Pipeline.clean_data_with_summary
    to_datetime numeric_of_string int_of_string df = Py.Return out ->
  let features := Pipeline.create_features out in
  map Pipeline.cleaned features = out /\
  Forall (fun f =>
            match Sanitizer.c_date (Pipeline.cleaned f) with
            | Some d =>
              Pipeline.Month f = Some (Calendar.month_of d) /\
              Pipeline.Season f = Calendar.get_season (Calendar.month_of d)
            | None =>
              Pipeline.Month f = None /\ Pipeline.Season f = "Winter"%string
            end)
         features /\
  forall r s,
    In r df -> Pipeline.retained numeric_of_string r = true ->
    Sanitizer.date r = Some s -> to_datetime s = None ->
    exists f,
      In f features /\ Sanitizer.raw (Pipeline.cleaned f) = r /\
      Pipeline.Season f = "Winter"%string.
Proof.
  intros H features.
  assert (Hmap : map Pipeline.cleaned features = out).
  { unfold features, Pipeline.create_features. rewrite map_map. apply map_id. }
  assert (Hall : Forall (fun f =>
            match Sanitizer.c_date (Pipeline.cleaned f) with
            | Some d =>
              Pipeline.Month f = Some (Calendar.month_of d) /\
              Pipeline.Season f = Calendar.get_season (Calendar.month_of d)
            | None =>
              Pipeline.Month f = None /\ Pipeline.Season f = "Winter"%string
            end) features).
  { apply Forall_forall. intros f Hf. unfold features, Pipeline.create_features in Hf.
    apply in_map_iff in Hf. destruct Hf as (c & <- & _). simpl.
    destruct (Sanitizer.c_date c); split; reflexivity. }
  split; [exact Hmap |]. split; [exact Hall |].
  intros r s Hr Hkept Hdate Hnat.
  unfold Pipeline.clean_data_with_summary in H.
  destruct (Sanitizer.clean_data to_datetime numeric_of_string int_of_string df)
    as [rows | e] eqn:E; simpl in H; [| discriminate].
  destruct (length df =? 0); [discriminate |]. injection H as <-.
  rewrite clean_data_mask in E.
  assert (Hc : In (Sanitizer.coerce to_datetime numeric_of_string r)
                  (map (Sanitizer.coerce to_datetime numeric_of_string)
                       (filter (Pipeline.retained numeric_of_string) df)))
    by (apply in_map, filter_In; now split).
  destruct (omap_In_total _ _ E _ Hc) as (y & Hy & Hfin).
  destruct (finish_row_fields _ _ Hfin) as (Hraw & Hd & _).
  exists (Pipeline.mkFeatured y (option_map Calendar.month_of (Sanitizer.c_date y))
            (Pipeline.get_season (option_map Calendar.month_of (Sanitizer.c_date y)))).
  split; [| split].
  - unfold features, Pipeline.create_features.
    apply in_map_iff. exists y. split; [reflexivity | exact Hy].
  - exact Hraw.
  - simpl. rewrite Hd. simpl. rewrite Hdate, Hnat. reflexivity.
Qed.

Lemma unparsed_dates_count_as_winter_witness :
  exists out,
    Pipeline.clean_data_with_summary
      Examples.iso_date Examples.numeric_of_digits Examples.natural_of_string
      RawExamples.three_rows = Py.Return out /\
    let features := Pipeline.create_features out in
    map Pipeline.cleaned features = out /\
    Forall (fun f =>
              match Sanitizer.c_date (Pipeline.cleaned f) with
              | Some d =>
                Pipeline.Month f = Some (Calendar.month_of d) /\
                Pipeline.Season f = Calendar.get_season (Calendar.month_of d)
              | None =>
                Pipeline.Month f = None /\ Pipeline.Season f = "Winter"%string
              end)
           features /\
    forall r s,
      In r RawExamples.three_rows ->
      Pipeline.retained Examples.numeric_of_digits r = true ->
      Sanitizer.date r = Some s -> Examples.iso_date s = None ->
      exists f,
        In f features /\ Sanitizer.raw (Pipeline.cleaned f) = r /\
        Pipeline.Season f = "Winter"%string.
Proof.
  eexists. split; [vm_compute; reflexivity |].
  apply (@unparsed_dates_count_as_winter
           Examples.iso_date Examples.numeric_of_digits Examples.natural_of_string
           RawExamples.three_rows).
  vm_compute. reflexivity.
Defined.

(** ** The medicine key *)

Section KeyFacts.
Import Sanitizer.
Local Open Scope string_scope.

Lemma is_space_upper_char (c : ascii) : is_space (upper_char c) = is_space c.
Proof. destruct c as [[] [] [] [] [] [] [] []]; reflexivity. Qed.

Lemma upper_char_idem (c : ascii) : upper_char (upper_char c) = upper_char c.
Proof. destruct c as [[] [] [] [] [] [] [] []]; reflexivity. Qed.

Lemma upper_idem (s : string) : upper (upper s) = upper s.
Proof.
  induction s as [| c s IH]; simpl; [reflexivity |].
  now rewrite upper_char_idem, IH.
Qed.

Lemma upper_empty (s : string) : upper s = EmptyString -> s = EmptyString.
Proof. destruct s; [reflexivity | discriminate]. Qed.

Lemma lstrip_upper (s : string) : lstrip (upper s) = upper (lstrip s).
Proof.
  induction s as [| c s IH]; simpl; [reflexivity |].
  rewrite is_space_upper_char. destruct (is_space c); [exact IH | reflexivity].
Qed.

Lemma rstrip_upper (s : string) : rstrip (upper s) = upper (rstrip s).
Proof.
  induction s as [| c s IH]; simpl; [reflexivity |].
  rewrite IH, is_space_upper_char.
  destruct (rstrip s) as [| d t]; simpl; [destruct (is_space c) |]; reflexivity.
Qed.

Lemma strip_upper (s : string) : strip (upper s) = upper (strip s).
Proof. unfold strip. now rewrite rstrip_upper, lstrip_upper. Qed.

Lemma collapse_upper (b : bool) (s : string) :
  upper (collapse_spaces b s) = collapse_spaces b (upper s).
Proof.
  revert b. induction s as [| c s IH]; intros b; simpl; [reflexivity |].
  rewrite is_space_upper_char.
  destruct (is_space c); [destruct b |]; simpl; now rewrite IH.
Qed.

Lemma rstrip_idem (s : string) : rstrip (rstrip s) = rstrip s.
Proof.
  induction s as [| c s IH]; simpl; [reflexivity |].
  destruct (rstrip s) as [| d t] eqn:E.
  - destruct (is_space c) eqn:Ec; simpl; [reflexivity | now rewrite Ec].
  - simpl in IH |- *. now rewrite IH.
Qed.

(** Stripping on the left keeps a stripped right end. *)
Lemma rstrip_lstrip (s : string) : rstrip s = s -> rstrip (lstrip s) = lstrip s.
Proof.
  induction s as [| c s IH]; simpl; [reflexivity |].
  intros H. destruct (is_space c) eqn:Ec.
  - apply IH. destruct (rstrip s) as [| d t]; [discriminate | now injection H].
  - simpl. rewrite Ec. exact H.
Qed.

Lemma lstrip_idem (s : string) : lstrip (lstrip s) = lstrip s.
Proof.
  induction s as [| c s IH]; simpl; [reflexivity |].
  destruct (is_space c) eqn:Ec; [exact IH | simpl; now rewrite Ec].
Qed.

Lemma strip_ends (s : string) :
  lstrip (strip s) = strip s /\ rstrip (strip s) = strip s.
Proof.
  unfold strip. split; [apply lstrip_idem | apply rstrip_lstrip, rstrip_idem].
Qed.

Lemma strip_idem (s : string) : strip (strip s) = strip s.
Proof.
  destruct (strip_ends s) as [Hl Hr]. unfold strip at 1. now rewrite Hr, Hl.
Qed.

(** Collapsing leaves nothing only of a text of whitespace. *)
Lemma collapse_empty (b : bool) (s : string) :
  collapse_spaces b s = EmptyString -> rstrip s = EmptyString.
Proof.
  revert b. induction s as [| c s IH]; intros b; simpl; [reflexivity |].
  destruct (is_space c) eqn:Ec.
  - destruct b; [| discriminate]. intros H. now rewrite (IH true H).
  - discriminate.
Qed.

Lemma collapse_lstrip (b : bool) (s : string) :
  lstrip s = s -> lstrip (collapse_spaces b s) = collapse_spaces b s.
Proof.
  destruct s as [| c s]; simpl; [reflexivity |].
  destruct (is_space c) eqn:Ec.
  - intros H. exfalso. clear b.
    assert (Hlen : String.length (lstrip s) <= String.length s).
    { clear. induction s as [| d s IH]; simpl; [lia |].
      destruct (is_space d); simpl; lia. }
    rewrite H in Hlen. simpl in Hlen. lia.
  - intros _. simpl. now rewrite Ec.
Qed.

Lemma collapse_rstrip (b : bool) (s : string) :
  rstrip s = s -> rstrip (collapse_spaces b s) = collapse_spaces b s.
Proof.
  revert b. induction s as [| c s IH]; intros b; simpl; [reflexivity |].
  intros H.
  assert (Hs : rstrip s = s).
  { destruct (rstrip s) as [| d t].
    - destruct (is_space c); [discriminate | now injection H].
    - now injection H. }
  assert (Hne : s <> EmptyString -> forall b', collapse_spaces b' s <> EmptyString).
  { intros Hne b' E. apply collapse_empty in E. congruence. }
  destruct (is_space c) eqn:Ec.
  - assert (Hs' : s <> EmptyString).
    { intros ->. simpl in H. discriminate. }
    destruct b.
    + now apply IH.
    + simpl. rewrite (IH true Hs).
      destruct (collapse_spaces true s) eqn:E; [| reflexivity].
      exfalso. now apply (Hne Hs' true).
  - simpl. rewrite (IH false Hs).
    destruct (collapse_spaces false s); [now rewrite Ec | reflexivity].
Qed.

(** A collapsed text has no run of whitespace left to collapse. *)
Lemma collapse_idem (s : string) :
  collapse_spaces false (collapse_spaces false s) = collapse_spaces false s /\
  collapse_spaces false (collapse_spaces true s) = collapse_spaces true s /\
  collapse_spaces true (collapse_spaces true s) = collapse_spaces true s.
Proof.
  induction s as [| c s (IHa & IHb & IHc)]; simpl; [repeat split |].
  destruct (is_space c) eqn:Ec.
  - repeat split; try assumption.
    change (is_space " ") with true. cbv iota. simpl. now rewrite IHc.
  - simpl. rewrite Ec, IHa. repeat split.
Qed.

Lemma standardize_ends (s : string) :
  strip (standardize s) = standardize s.
Proof.
  unfold standardize. destruct (strip_ends s) as [Hl Hr].
  assert (Hl' : lstrip (upper (strip s)) = upper (strip s))
    by now rewrite lstrip_upper, Hl.
  assert (Hr' : rstrip (upper (strip s)) = upper (strip s))
    by now rewrite rstrip_upper, Hr.
  unfold strip at 1.
  now rewrite (collapse_rstrip false Hr'), (collapse_lstrip false Hl').
Qed.

End KeyFacts.

(** X12. Engine.py [clean_data] and utils.py [clean_medicine_name]: the
    medicine key is a normal form, for names within ASCII.  Standardizing a
    key gives the same key again, and a name gives the same key whatever
    its letter case and the whitespace around it; both functions compute
    the same key. *)
Theorem medicine_key_is_canonical (name : string) :
  Sanitizer.standardize (Sanitizer.standardize name) = Sanitizer.standardize name /\
  Sanitizer.standardize (Sanitizer.upper name) = Sanitizer.standardize name /\
  Sanitizer.standardize (Sanitizer.strip name) = Sanitizer.standardize name /\
  Keys.clean_medicine_name (Some name) = Sanitizer.standardize name.
Proof.
  split; [| split; [| split]].
  - unfold Sanitizer.standardize at 1.
    rewrite standardize_ends. unfold Sanitizer.standardize.
    rewrite collapse_upper, upper_idem. apply collapse_idem.
  - unfold Sanitizer.standardize. now rewrite strip_upper, upper_idem.
  - unfold Sanitizer.standardize. now rewrite strip_idem.
  - reflexivity.
Qed.

(** ** Priorities by position *)

Section PositionFacts.
Import Prim Engine Dashboard.

Local Abbreviation frame_t := (list (Recommendation * Priority.level)).

(** The priority at position [i] of a frame whose tiers start at [s] and
    have the sizes [a], [b] and [c]. *)
Local Abbreviation priority_at a b c s :=
  (fun i : nat =>
     if i <? s + a then Priority.CRITICAL
     else if i <? s + a + b then Priority.HIGH
     else if i <? s + a + b + c then Priority.MEDIUM
     else Priority.LOW).

Local Abbreviation positional g s l :=
  (map (fun x : nat * Recommendation => (snd x, g (fst x)))
       (combine (seq s (length l)) l)).

Local Abbreviation tagged p l :=
  (map (fun r : Recommendation => (r, p)) l).

Lemma combine_seq_map (A B : Type) (h : nat * A -> B) (s : nat) (l : list A) :
  combine (seq s (length l)) (map h (combine (seq s (length l)) l))
  = map (fun x => (fst x, h x)) (combine (seq s (length l)) l).
Proof.
  revert s. induction l as [| x l IH]; intros s; simpl; [reflexivity |].
  now rewrite IH.
Qed.

Lemma length_positional (g : nat -> Priority.level) (l : list Recommendation) :
  length (positional g 0 l) = length l.
Proof. now rewrite length_map, length_combine, length_seq, Nat.min_id. Qed.

(** An assignment through [loc] changes the priority of the positions of
    its slice and of no other. *)
Lemma loc_set_positional (start stop : Z) (p : Priority.level)
    (g : nat -> Priority.level) (l : list Recommendation) :
  loc_set start stop p (positional g 0 l)
  = positional (fun i => if ((start <=? Z.of_nat i) && (Z.of_nat i <=? stop))%Z
                         then p else g i) 0 l.
Proof.
  unfold loc_set. rewrite length_positional, combine_seq_map, map_map.
  apply map_ext. intros [i r]. cbn [fst snd].
  destruct ((start <=? Z.of_nat i) && (Z.of_nat i <=? stop))%Z; reflexivity.
Qed.

Lemma tagged_positional (p : Priority.level) (l : list Recommendation) :
  tagged p l = positional (fun _ => p) 0 l.
Proof.
  transitivity (tagged p (map snd (combine (seq 0 (length l)) l))).
  - now rewrite map_snd_combine by apply length_seq.
  - now rewrite map_map.
Qed.

(** Labelling by position is cutting the frame into the four slices. *)
Lemma positional_slices (a b c s : nat) (l : list Recommendation) :
  positional (priority_at a b c s) s l
  = tagged Priority.CRITICAL (head a l)
    ++ tagged Priority.HIGH (iloc a (a + b) l)
    ++ tagged Priority.MEDIUM (iloc (a + b) (a + b + c) l)
    ++ tagged Priority.LOW (iloc_from (a + b + c) l).
Proof.
  revert a b c s. induction l as [| x l IH]; intros a b c s.
  - unfold head, iloc, iloc_from. now rewrite !firstn_nil, !skipn_nil.
  - assert (Hstep : forall a' b' c',
               (forall i, S s <= i ->
                          priority_at a b c s i = priority_at a' b' c' (S s) i) ->
               positional (priority_at a b c s) (S s) l
               = tagged Priority.CRITICAL (head a' l)
                 ++ tagged Priority.HIGH (iloc a' (a' + b') l)
                 ++ tagged Priority.MEDIUM (iloc (a' + b') (a' + b' + c') l)
                 ++ tagged Priority.LOW (iloc_from (a' + b' + c') l)).
    { intros a' b' c' H. rewrite <- (IH a' b' c' (S s)). apply map_ext_in. intros [i r] Hin.
      apply in_combine_l in Hin. apply in_seq in Hin. cbn [fst snd]. f_equal. apply H. lia. }
    cbn [length seq combine map fst snd].
    destruct a as [| a'].
    + destruct b as [| b'].
      * destruct c as [| c'].
        -- rewrite (Hstep 0 0 0).
           ++ replace (s <? s + 0) with false by (symmetry; apply Nat.ltb_ge; lia).
              replace (s <? s + 0 + 0) with false by (symmetry; apply Nat.ltb_ge; lia).
              replace (s <? s + 0 + 0 + 0) with false
                by (symmetry; apply Nat.ltb_ge; lia).
              reflexivity.
           ++ intros i Hi.
              repeat match goal with
                     | |- context [?u <? ?v] => destruct (Nat.ltb_spec u v)
                     end; try reflexivity; lia.
        -- rewrite (Hstep 0 0 c').
           ++ replace (s <? s + 0) with false by (symmetry; apply Nat.ltb_ge; lia).
              replace (s <? s + 0 + 0) with false by (symmetry; apply Nat.ltb_ge; lia).
              replace (s <? s + 0 + 0 + S c') with true
                by (symmetry; apply Nat.ltb_lt; lia).
              reflexivity.
           ++ intros i Hi.
              repeat match goal with
                     | |- context [?u <? ?v] => destruct (Nat.ltb_spec u v)
                     end; try reflexivity; lia.
      * rewrite (Hstep 0 b' c).
        -- replace (s <? s + 0) with false by (symmetry; apply Nat.ltb_ge; lia).
           replace (s <? s + 0 + S b') with true by (symmetry; apply Nat.ltb_lt; lia).
           reflexivity.
        -- intros i Hi.
           repeat match goal with
                  | |- context [?u <? ?v] => destruct (Nat.ltb_spec u v)
                  end; try reflexivity; lia.
    + rewrite (Hstep a' b c).
      * replace (s <? s + S a') with true by (symmetry; apply Nat.ltb_lt; lia).
        reflexivity.
      * intros i Hi.
        repeat match goal with
               | |- context [?u <? ?v] => destruct (Nat.ltb_spec u v)
               end; try reflexivity; lia.
Qed.

End PositionFacts.

Section SeasonalFacts.
Import Prim Engine Dashboard.

Lemma count_of_tier (n : nat) (p : Priority.level) :
  count_of n (Priority.PRIORITY_LEVELS p) = Z.of_nat (Priority.tier_count n p).
Proof. unfold count_of, Priority.tier_count. lia. Qed.

Lemma filter_tag_same (p : Priority.level) (l : list Recommendation) :
  filter (has_priority p) (map (fun r => (r, p)) l) = map (fun r => (r, p)) l.
Proof.
  induction l as [| r l IH]; simpl; [reflexivity |].
  rewrite IH. destruct p; reflexivity.
Qed.

Lemma filter_tag_other (p q : Priority.level) (l : list Recommendation) :
  p <> q -> filter (has_priority p) (map (fun r => (r, q)) l) = [].
Proof.
  intros Hpq. induction l as [| r l IH]; simpl; [reflexivity |].
  rewrite IH. destruct p, q; try reflexivity; congruence.
Qed.

(** The frame of priorities is the frame of recommendations cut into the
    four tiers. *)
Lemma loc_priorities (recs : list Recommendation) :
  let n := length recs in
  let a := Priority.tier_count n Priority.CRITICAL in
  let b := Priority.tier_count n Priority.HIGH in
  let c := Priority.tier_count n Priority.MEDIUM in
  loc_set (count_of n (20 # 100) + count_of n (30 # 100))
          (count_of n (20 # 100) + count_of n (30 # 100) + count_of n (30 # 100) - 1)
          Priority.MEDIUM
    (loc_set (count_of n (20 # 100))
             (count_of n (20 # 100) + count_of n (30 # 100) - 1)
             Priority.HIGH
       (loc_set 0 (count_of n (20 # 100) - 1) Priority.CRITICAL
          (map (fun rec => (rec, Priority.LOW)) recs)))
  = map (fun r => (r, Priority.CRITICAL)) (head a recs)
    ++ map (fun r => (r, Priority.HIGH)) (iloc a (a + b) recs)
    ++ map (fun r => (r, Priority.MEDIUM)) (iloc (a + b) (a + b + c) recs)
    ++ map (fun r => (r, Priority.LOW)) (iloc_from (a + b + c) recs).
Proof.
  intros n a b c.
  assert (Ha : count_of n (20 # 100) = Z.of_nat a)
    by apply (count_of_tier n Priority.CRITICAL).
  assert (Hb : count_of n (30 # 100) = Z.of_nat b)
    by apply (count_of_tier n Priority.HIGH).
  assert (Hbc : b = c) by reflexivity.
  rewrite Ha, Hb.
  pose proof (tagged_positional Priority.LOW recs) as H0.
  pose proof (eq_trans
                (f_equal (loc_set 0 (Z.of_nat a - 1) Priority.CRITICAL) H0)
                (loc_set_positional 0 (Z.of_nat a - 1) Priority.CRITICAL _ recs))
    as H1.
  pose proof (eq_trans
                (f_equal (loc_set (Z.of_nat a) (Z.of_nat a + Z.of_nat b - 1)
                                  Priority.HIGH) H1)
                (loc_set_positional (Z.of_nat a) (Z.of_nat a + Z.of_nat b - 1)
                                    Priority.HIGH _ recs))
    as H2.
  pose proof (eq_trans
                (f_equal (loc_set (Z.of_nat a + Z.of_nat b)
                                  (Z.of_nat a + Z.of_nat b + Z.of_nat b - 1)
                                  Priority.MEDIUM) H2)
                (loc_set_positional (Z.of_nat a + Z.of_nat b)
                                    (Z.of_nat a + Z.of_nat b + Z.of_nat b - 1)
                                    Priority.MEDIUM _ recs))
    as H3.
  etransitivity; [exact H3 |]. clear H0 H1 H2 H3.
  rewrite <- (positional_slices a b c 0 recs).
  apply map_ext. intros [i r]. cbn [fst snd]. f_equal.
  repeat match goal with
         | |- context [(?u <=? ?v)%Z] => destruct (Z.leb_spec u v)
         | |- context [?u <? ?v] => destruct (Nat.ltb_spec u v)
         end; cbn [andb]; try reflexivity; lia.
Qed.

Lemma map_fst_tagged (p : Priority.level) (l : list Recommendation) :
  map fst (map (fun r => (r, p)) l) = l.
Proof. rewrite map_map. apply map_id. Qed.

Lemma count_tagged (p q : Priority.level) (l : list Recommendation) :
  length (filter (has_priority p) (map (fun r => (r, q)) l))
  = match p, q with
    | Priority.CRITICAL, Priority.CRITICAL
    | Priority.HIGH, Priority.HIGH
    | Priority.MEDIUM, Priority.MEDIUM
    | Priority.LOW, Priority.LOW => length l
    | _, _ => 0
    end.
Proof.
  destruct p, q;
    (rewrite filter_tag_same; apply length_map)
    || (rewrite filter_tag_other by discriminate; reflexivity).
Qed.

Variable sort_values_desc : list Scored -> list Scored.

(** The result in closed form: the recommendations of the engine, cut
    into the four tiers. *)
Lemma seasonal_result (df : list FeatRow) (target_season : string) (buffer : Q)
    (res : SeasonalRecommendations) :
  get_seasonal_recommendations sort_values_desc df target_season buffer = Some res ->
  let recs := get_heuristic_recommendations sort_values_desc df target_season buffer in
  let n := length recs in
  let a := Priority.tier_count n Priority.CRITICAL in
  let b := Priority.tier_count n Priority.HIGH in
  let c := Priority.tier_count n Priority.MEDIUM in
  recommendations res
  = map (fun r => (r, Priority.CRITICAL)) (head a recs)
    ++ map (fun r => (r, Priority.HIGH)) (iloc a (a + b) recs)
    ++ map (fun r => (r, Priority.MEDIUM)) (iloc (a + b) (a + b + c) recs)
    ++ map (fun r => (r, Priority.LOW)) (iloc_from (a + b + c) recs) /\
  critical_count (summary res) = Z.of_nat a /\
  high_count (summary res) = Z.of_nat b /\
  medium_count (summary res) = Z.of_nat c /\
  low_count (summary res)
  = (Z.of_nat (length (recommendations res)) - Z.of_nat a - Z.of_nat b - Z.of_nat c)%Z.
Proof.
  intros H. cbv zeta.
  assert (Hdf : df <> []) by (intros ->; discriminate H).
  unfold get_seasonal_recommendations in H.
  destruct df as [| f0 df'] eqn:Edf; [congruence |]. rewrite <- Edf in *.
  clear Edf Hdf f0 df'.
  destruct (filter (fun r => String.eqb (Season r) target_season) df)
    as [| r0 rest] eqn:E; [discriminate |].
  rewrite (recommendations_of_season sort_values_desc _ _ buffer E).
  injection H as <-.
  cbn [recommendations summary critical_count high_count medium_count low_count].
  set (recs := rank_and_flag (75 # 100) _).
  rewrite (loc_priorities recs).
  split; [reflexivity |].
  split; [apply (count_of_tier _ Priority.CRITICAL) |].
  split; [apply (count_of_tier _ Priority.HIGH) |].
  split; [apply (count_of_tier _ Priority.MEDIUM) |].
  rewrite (count_of_tier _ Priority.CRITICAL).
  rewrite (count_of_tier _ Priority.HIGH) at 1.
  rewrite (count_of_tier _ Priority.MEDIUM). reflexivity.
Qed.

End SeasonalFacts.

(** X13. analysis_engine.py, [get_seasonal_recommendations]: the priorities
    assigned through [loc] are the tiers of the engine.  The frame holds
    the recommendations of [get_heuristic_recommendations] in their order,
    each with the tier that [categorize_medicines_by_priority] puts it in.
    The counts of the summary are the nominal sizes of the tiers: they
    agree with the number of rows of each priority exactly when there are
    at least 3 medicines, and [low_count] is negative exactly when there
    are at most 2. *)
Theorem seasonal_priorities_follow_the_tiers
    (sort_values_desc : list Engine.Scored -> list Engine.Scored)
    (df : list Engine.FeatRow) (target_season : string) (buffer : Q)
    (res : Dashboard.SeasonalRecommendations) :
  Dashboard.get_seasonal_recommendations sort_values_desc df target_season buffer
  = Some res ->
  let frame := Dashboard.recommendations res in
  let recs := map fst frame in
  let n := Z.of_nat (length recs) in
  let s := Dashboard.summary res in
  recs = Engine.get_heuristic_recommendations sort_values_desc df target_season buffer /\
  frame = flat_map (fun tier => map (fun x => (Priority.row x, fst tier)) (snd tier))
                   (Priority.categorize_medicines_by_priority recs) /\
  ((Dashboard.low_count s < 0)%Z <-> (n <= 2)%Z) /\
  ((Dashboard.critical_count s = Dashboard.count_priority Priority.CRITICAL frame /\
    Dashboard.high_count s = Dashboard.count_priority Priority.HIGH frame /\
    Dashboard.medium_count s = Dashboard.count_priority Priority.MEDIUM frame /\
    Dashboard.low_count s = Dashboard.count_priority Priority.LOW frame)
   <-> (3 <= n)%Z).
Proof.
  intros H.
  destruct (seasonal_result _ _ _ _ H) as (Hframe & Hc & Hh & Hm & Hl).
  cbv zeta in Hframe, Hc, Hh, Hm, Hl |- *.
  set (recs0 := Engine.get_heuristic_recommendations
                  sort_values_desc df target_season buffer) in *.
  set (a := Priority.tier_count (length recs0) Priority.CRITICAL) in *.
  set (b := Priority.tier_count (length recs0) Priority.HIGH) in *.
  set (c := Priority.tier_count (length recs0) Priority.MEDIUM) in *.
  assert (Hrecs : map fst (Dashboard.recommendations res) = recs0).
  { rewrite Hframe, !map_app, !map_fst_tagged. apply slices_concat. }
  rewrite Hrecs.
  split; [reflexivity |].
  split.
  { rewrite Hframe.
    assert (Hcase : recs0 = [] \/ recs0 <> [])
      by (clear; clearbody recs0; destruct recs0; [now left | right; discriminate]).
    destruct Hcase as [E | Hne].
    - rewrite E. unfold Prim.head, Prim.iloc, Prim.iloc_from.
      now rewrite !firstn_nil, !skipn_nil.
    - destruct (categorize_four_tiers Hne) as (Hcat & _).
      cbv zeta in Hcat. fold a b c in Hcat. rewrite Hcat.
      cbn [flat_map fst snd]. unfold Priority.tag. rewrite !map_map.
      cbn [Priority.row]. now rewrite app_nil_r. }
  assert (Ha : a = Nat.max (length recs0 / 5) 1) by apply tier_count_CRITICAL.
  assert (Hb : b = Nat.max (3 * length recs0 / 10) 1)
    by (apply tier_count_30; now left).
  assert (Hbc : c = b) by reflexivity.
  assert (Hlen : length (Dashboard.recommendations res) = length recs0)
    by (rewrite <- Hrecs; symmetry; apply length_map).
  assert (Hcount : forall p,
             Dashboard.count_priority p (Dashboard.recommendations res)
             = Z.of_nat
                 match p with
                 | Priority.CRITICAL => Nat.min a (length recs0)
                 | Priority.HIGH => Nat.min (a + b) (length recs0) - a
                 | Priority.MEDIUM => Nat.min (a + b + c) (length recs0) - (a + b)
                 | Priority.LOW => length recs0 - (a + b + c)
                 end).
  { intros p. unfold Dashboard.count_priority. f_equal.
    rewrite Hframe, !filter_app, !length_app, !count_tagged.
    rewrite length_head, !length_iloc, length_iloc_from.
    destruct p; lia. }
  rewrite !Hcount, Hc, Hh, Hm, Hl, Hlen.
  pose proof (Nat.div_mod_eq (length recs0) 5).
  pose proof (Nat.mod_upper_bound (length recs0) 5).
  pose proof (Nat.div_mod_eq (3 * length recs0) 10).
  pose proof (Nat.mod_upper_bound (3 * length recs0) 10).
  split; [| split]; lia.
Qed.

Lemma seasonal_priorities_follow_the_tiers_witness :
  exists res,
    Dashboard.get_seasonal_recommendations
      Engine.stable_sort_desc SeasonExamples.monsoon_2023 "Monsoon"
      Engine.default_buffer = Some res /\
    let frame := Dashboard.recommendations res in
    let recs := map fst frame in
    let n := Z.of_nat (length recs) in
    let s := Dashboard.summary res in
    recs = Engine.get_heuristic_recommendations
             Engine.stable_sort_desc SeasonExamples.monsoon_2023 "Monsoon"
             Engine.default_buffer /\
    frame = flat_map (fun tier => map (fun x => (Priority.row x, fst tier)) (snd tier))
                     (Priority.categorize_medicines_by_priority recs) /\
    ((Dashboard.low_count s < 0)%Z <-> (n <= 2)%Z) /\
    ((Dashboard.critical_count s = Dashboard.count_priority Priority.CRITICAL frame /\
      Dashboard.high_count s = Dashboard.count_priority Priority.HIGH frame /\
      Dashboard.medium_count s = Dashboard.count_priority Priority.MEDIUM frame /\
      Dashboard.low_count s = Dashboard.count_priority Priority.LOW frame)
     <-> (3 <= n)%Z).
Proof.
  eexists. split; [vm_compute; reflexivity |].
  apply (@seasonal_priorities_follow_the_tiers
           Engine.stable_sort_desc SeasonExamples.monsoon_2023
           "Monsoon"%string Engine.default_buffer).
  vm_compute. reflexivity.
Defined.

(** ** Sales by season *)

Section SeasonSums.
Import Prim Engine Dashboard.
Local Open Scope Q_scope.

Lemma get_season_cases (month : Z) :
  In (Calendar.get_season month) ["Summer"; "Monsoon"; "Winter"]%string.
Proof.
  unfold Calendar.get_season.
  destruct (existsb _ _); [now left |].
  destruct (existsb _ _); [right; now left | right; right; now left].
Qed.

Lemma season_row_quantity (df : list FeatRow) (season : string) :
  match season_row df season with
  | Some row => Total_Quantity row
  | None => 0
  end = qsum (map quantity (group_of Season season df)).
Proof. unfold season_row. destruct (group_of Season season df); reflexivity. Qed.

Lemma season_row_revenue (df : list FeatRow) (season : string) :
  match season_row df season with
  | Some row => Total_Revenue_INR row
  | None => 0
  end = qsum (map total_sales (group_of Season season df)).
Proof. unfold season_row. destruct (group_of Season season df); reflexivity. Qed.

Lemma season_row_missing (df : list FeatRow) (season : string) :
  season_row df season = None <-> forall r, In r df -> Season r <> season.
Proof.
  unfold season_row. destruct (group_of Season season df) as [| g gs] eqn:E.
  - split; [| reflexivity]. intros _ r Hr Hs.
    assert (Hin : In r (group_of Season season df)).
    { apply filter_In. split; [exact Hr |]. now apply String.eqb_eq. }
    rewrite E in Hin. destruct Hin.
  - split; [discriminate |]. intros H. exfalso.
    assert (Hin : In g (group_of Season season df)) by (rewrite E; now left).
    apply filter_In in Hin. destruct Hin as [Hg Hs].
    apply String.eqb_eq in Hs. exact (H g Hg Hs).
Qed.

End SeasonSums.

(** X14. analysis_engine.py, [get_seasonal_summary] on a frame with rows,
    whose seasons are those of the months of its dates: the breakdown has
    the three seasons in the order Summer, Monsoon, Winter; a season
    without a sale holds NaN; the quantities and the revenues of the
    seasons add up to the quantity and the revenue of the whole frame, so
    no sale is counted twice or left out. *)
Theorem seasons_partition_the_sales (df : list Engine.FeatRow) :
  df <> [] ->
  Forall (fun r => Engine.Season r
                   = Calendar.get_season (Calendar.month_of (Engine.date r))) df ->
  let s := Dashboard.get_seasonal_summary df in
  let breakdown := Dashboard.seasonal_breakdown s in
  let column (f : Dashboard.SeasonRow -> Q) :=
    map (fun x : string * option Dashboard.SeasonRow =>
           match snd x with Some row => f row | None => 0%Q end) breakdown in
  map fst breakdown = ["Summer"; "Monsoon"; "Winter"]%string /\
  Forall (fun x => snd x = None
                   <-> forall r, In r df -> Engine.Season r <> fst x) breakdown /\
  (Prim.qsum (column Dashboard.Total_Quantity)
   == Prim.qsum (map Engine.quantity df))%Q /\
  (Prim.qsum (column Dashboard.Total_Revenue_INR) == Dashboard.total_revenue s)%Q /\
  Dashboard.total_quantity s
  = Prim.py_int (Prim.qsum (column Dashboard.Total_Quantity)) /\
  Dashboard.total_records s = Z.of_nat (length df).
Proof.
  intros Hne Hseason. destruct df as [| r0 rest] eqn:E; [congruence |].
  rewrite <- E in *. cbv zeta.
  assert (Hs : Dashboard.get_seasonal_summary df
               = Dashboard.mkSeasonalSummary
                   (map (fun season => (season, Dashboard.season_row df season))
                        ["Summer"; "Monsoon"; "Winter"]%string)
                   (Z.of_nat (length df))
                   (Calendar.min_date (Engine.date r0) (map Engine.date df),
                    Calendar.max_date (Engine.date r0) (map Engine.date df))
                   (Prim.nunique (map Engine.medicine_name_clean df))
                   (Prim.qsum (map Engine.total_sales df))
                   (Prim.py_int (Prim.qsum (map Engine.quantity df))))
    by (rewrite E; reflexivity).
  rewrite Hs. clear Hs.
  cbn [Dashboard.seasonal_breakdown Dashboard.total_revenue
         Dashboard.total_quantity Dashboard.total_records].
  assert (Hnd : NoDup ["Summer"; "Monsoon"; "Winter"]%string).
  { repeat constructor; simpl; intuition discriminate. }
  assert (Hcover : forall r, In r df ->
                             In (Engine.Season r) ["Summer"; "Monsoon"; "Winter"]%string).
  { intros r Hr. rewrite Forall_forall in Hseason. rewrite (Hseason r Hr).
    apply get_season_cases. }
  assert (Hq : (Prim.qsum
                  (map (fun x : string * option Dashboard.SeasonRow =>
                          match snd x with
                          | Some row => Dashboard.Total_Quantity row
                          | None => 0%Q
                          end)
                       (map (fun season => (season, Dashboard.season_row df season))
                            ["Summer"; "Monsoon"; "Winter"]%string))
                == Prim.qsum (map Engine.quantity df))%Q).
  { rewrite map_map. cbn [snd].
    rewrite (map_ext _ _ (season_row_quantity df)).
    apply (group_sums Engine.Season Engine.quantity Hnd df Hcover). }
  split; [reflexivity |].
  split.
  { apply Forall_forall. intros x Hx. apply in_map_iff in Hx.
    destruct Hx as (season & <- & _). cbn [fst snd]. apply season_row_missing. }
  split; [exact Hq |].
  split.
  { rewrite map_map. cbn [snd].
    rewrite (map_ext _ _ (season_row_revenue df)).
    apply (group_sums Engine.Season Engine.total_sales Hnd df Hcover). }
  split; [symmetry; apply py_int_comp; exact Hq | reflexivity].
Qed.

Lemma seasons_partition_the_sales_witness :
  let s := Dashboard.get_seasonal_summary SeasonExamples.monsoon_2023 in
  let breakdown := Dashboard.seasonal_breakdown s in
  let column (f : Dashboard.SeasonRow -> Q) :=
    map (fun x : string * option Dashboard.SeasonRow =>
           match snd x with Some row => f row | None => 0%Q end) breakdown in
  map fst breakdown = ["Summer"; "Monsoon"; "Winter"]%string /\
  Forall (fun x => snd x = None
                   <-> forall r, In r SeasonExamples.monsoon_2023 ->
                                 Engine.Season r <> fst x) breakdown /\
  (Prim.qsum (column Dashboard.Total_Quantity)
   == Prim.qsum (map Engine.quantity SeasonExamples.monsoon_2023))%Q /\
  (Prim.qsum (column Dashboard.Total_Revenue_INR) == Dashboard.total_revenue s)%Q /\
  Dashboard.total_quantity s
  = Prim.py_int (Prim.qsum (column Dashboard.Total_Quantity)) /\
  Dashboard.total_records s = Z.of_nat (length SeasonExamples.monsoon_2023).
Proof.
  apply (@seasons_partition_the_sales SeasonExamples.monsoon_2023).
  - discriminate.
  - repeat constructor.
Defined.

(** ** The enhanced medicines *)

Section EnhancedFacts.
Import Prim Enhanced.

Lemma combine_seq_fst (A : Type) (s n : nat) (l : list A) :
  length l <= n -> map fst (combine (seq s n) l) = seq s (length l).
Proof.
  revert s n. induction l as [| x l IH]; intros s n Hn.
  - now rewrite combine_nil.
  - destruct n as [| n]; [simpl in Hn; lia |]. simpl. f_equal.
    apply IH. simpl in Hn. lia.
Qed.

Lemma combine_seq_snd (A : Type) (s n : nat) (l : list A) :
  length l <= n -> map snd (combine (seq s n) l) = l.
Proof.
  revert s n. induction l as [| x l IH]; intros s n Hn.
  - now rewrite combine_nil.
  - destruct n as [| n]; [simpl in Hn; lia |]. simpl. f_equal.
    apply IH. simpl in Hn. lia.
Qed.

Lemma Sorted_firstn (A : Type) (R : A -> A -> Prop) (k : nat) (l : list A) :
  Sorted R l -> Sorted R (firstn k l).
Proof.
  revert k. induction l as [| x l IH]; intros k Hs.
  - now rewrite firstn_nil.
  - destruct k as [| k]; [constructor |]. simpl.
    inversion Hs as [| ? ? Hl Hx]; subst. constructor; [now apply IH |].
    destruct l as [| y l]; [destruct k; constructor |].
    destruct k as [| k]; [constructor |]. simpl. constructor.
    now inversion Hx.
Qed.

Lemma NoDup_firstn (A : Type) (k : nat) (l : list A) :
  NoDup l -> NoDup (firstn k l).
Proof.
  intros H. rewrite <- (firstn_skipn k l) in H. now apply NoDup_app_remove_r in H.
Qed.

Lemma top_medicines_names (df : list SaleRow) :
  map tm_medicine_name (top_medicines_of df) = group_keys medicine_name df.
Proof. unfold top_medicines_of. rewrite map_map. apply map_id. Qed.

End EnhancedFacts.

(** X15. analysis_engine.py, [get_enhanced_medicines] on a frame with
    rows: the entries are the medicines in the order of their names, not of
    their priority or revenue.  The list holds the first 20 of the distinct
    names in ascending order, each once, with the ids 1, 2, ... in that
    order; a medicine whose name comes later is left out whatever it
    sold. *)
Theorem enhanced_medicines_are_in_name_order (df : list Enhanced.SaleRow) :
  df <> [] ->
  let entries := Enhanced.get_enhanced_medicines df in
  map Enhanced.name entries
  = Prim.head 20 (Prim.group_keys Enhanced.medicine_name df) /\
  map Enhanced.id entries = seq 1 (length entries) /\
  length entries = Nat.min 20 (Prim.nunique (map Enhanced.medicine_name df)) /\
  Sorted (fun a b => String.leb a b = true) (map Enhanced.name entries) /\
  NoDup (map Enhanced.name entries) /\
  (forall medicine,
      In medicine (map Enhanced.name entries) ->
      exists r, In r df /\ Enhanced.medicine_name r = medicine).
Proof.
  intros Hne. cbv zeta.
  destruct df as [| r0 rest] eqn:E; [congruence |]. rewrite <- E in *.
  assert (Hdef : Enhanced.get_enhanced_medicines df
                 = map (Enhanced.entry_of
                          (Enhanced.qmax (map Enhanced.tm_total_revenue
                                              (Enhanced.top_medicines_of df)))
                          (Enhanced.qmax (map Enhanced.tm_quantity_sold
                                              (Enhanced.top_medicines_of df))))
                       (combine (seq 0 (length (Enhanced.top_medicines_of df)))
                                (Prim.head 20 (Enhanced.top_medicines_of df))))
    by (rewrite E; reflexivity).
  rewrite Hdef. clear Hdef E Hne r0 rest.
  set (top := Enhanced.top_medicines_of df).
  set (entry := Enhanced.entry_of _ _).
  assert (Hle : length (Prim.head 20 top) <= length top)
    by (rewrite length_head; lia).
  assert (Hnames : map Enhanced.name
                       (map entry (combine (seq 0 (length top)) (Prim.head 20 top)))
                   = Prim.head 20 (Prim.group_keys Enhanced.medicine_name df)).
  { rewrite map_map.
    transitivity (map Enhanced.tm_medicine_name
                      (map snd (combine (seq 0 (length top)) (Prim.head 20 top)))).
    - rewrite map_map. apply map_ext. now intros [i m].
    - rewrite combine_seq_snd by exact Hle.
      unfold Prim.head. rewrite <- firstn_map. unfold top.
      now rewrite top_medicines_names. }
  assert (Hlen : length (map entry (combine (seq 0 (length top)) (Prim.head 20 top)))
                 = length (Prim.head 20 top)).
  { rewrite length_map, length_combine, length_seq. lia. }
  split; [exact Hnames |].
  split.
  { rewrite Hlen, map_map.
    transitivity (map (fun i => i + 1)
                      (map fst (combine (seq 0 (length top)) (Prim.head 20 top)))).
    - rewrite map_map. apply map_ext. now intros [i m].
    - rewrite combine_seq_fst by exact Hle.
      rewrite <- seq_shift. apply map_ext. intros i. lia. }
  split.
  { rewrite Hlen, length_head. unfold top, Prim.nunique.
    rewrite <- (length_map Enhanced.tm_medicine_name), top_medicines_names.
    unfold Prim.group_keys.
    now rewrite (Permutation_length (isort_perm String.leb _)). }
  rewrite Hnames.
  split.
  { apply Sorted_firstn. apply isort_sorted. apply String.leb_total. }
  split.
  { apply NoDup_firstn, group_keys_NoDup. }
  intros medicine Hin.
  assert (Hin' : In medicine (Prim.group_keys Enhanced.medicine_name df)).
  { unfold Prim.head in Hin. rewrite <- (firstn_skipn 20 (Prim.group_keys _ df)).
    apply in_or_app. now left. }
  apply group_keys_In in Hin'. destruct Hin' as (r & Hr & Hk). now exists r.
Qed.

Lemma enhanced_medicines_are_in_name_order_witness :
  let entries := Enhanced.get_enhanced_medicines DashboardExamples.three_medicines in
  map Enhanced.name entries
  = Prim.head 20 (Prim.group_keys Enhanced.medicine_name
                                  DashboardExamples.three_medicines) /\
  map Enhanced.id entries = seq 1 (length entries) /\
  length entries
  = Nat.min 20 (Prim.nunique (map Enhanced.medicine_name
                                  DashboardExamples.three_medicines)) /\
  Sorted (fun a b => String.leb a b = true) (map Enhanced.name entries) /\
  NoDup (map Enhanced.name entries) /\
  (forall medicine,
      In medicine (map Enhanced.name entries) ->
      exists r, In r DashboardExamples.three_medicines /\
                Enhanced.medicine_name r = medicine).
Proof.
  apply (@enhanced_medicines_are_in_name_order DashboardExamples.three_medicines).
  discriminate.
Defined.

(** ** The priority chart *)

Section ChartFacts.
Import Prim Enhanced.
Local Open Scope Q_scope.

Lemma qmax_spec (x : Q) (xs : list Q) :
  In (qmax (x :: xs)) (x :: xs) /\ forall y, In y (x :: xs) -> y <= qmax (x :: xs).
Proof.
  unfold qmax. induction xs as [| a xs [IHin IHge]]; simpl.
  - split; [now left |]. intros y [<- | []]. apply Qle_refl.
  - destruct (Qle_bool a (fold_right _ x xs)) eqn:E.
    + apply Qle_bool_iff in E. split.
      * destruct IHin as [H | H]; [now left | right; now right].
      * intros y [<- | [<- | Hy]];
          [apply IHge; now left | exact E | apply IHge; now right].
    + assert (Hlt : fold_right (fun a b => if Qle_bool a b then b else a) x xs < a).
      { apply Qnot_le_lt. intros H. apply Qle_bool_iff in H. congruence. }
      split; [right; now left |].
      intros y [<- | [<- | Hy]].
      * apply Qlt_le_weak. apply Qle_lt_trans with (2 := Hlt). apply IHge. now left.
      * apply Qle_refl.
      * apply Qlt_le_weak. apply Qle_lt_trans with (2 := Hlt). apply IHge. now right.
Qed.

(** Counting a column value by value counts every row once, when every
    value is one of the list. *)
Lemma count_occ_partition (keys : list string) (l : list string) :
  NoDup keys -> Forall (fun x => In x keys) l ->
  fold_right Nat.add 0%nat (map (count_occ string_dec l) keys) = length l.
Proof.
  intros Hnd Hall. induction l as [| x l IH].
  - simpl. clear. induction keys as [| k keys IH]; simpl; [reflexivity | exact IH].
  - inversion Hall as [| ? ? Hx Hl]; subst. cbn [length].
    rewrite <- (IH Hl). clear IH Hall Hl.
    induction Hnd as [| k keys Hnotin Hnd IHk]; [destruct Hx |].
    cbn [map fold_right].
    destruct (string_dec x k) as [E | E].
    + subst k.
      assert (Hsame : map (count_occ string_dec (x :: l)) keys
                      = map (count_occ string_dec l) keys).
      { apply map_ext_in. intros k Hk. apply count_occ_cons_neq.
        intros ->. contradiction. }
      rewrite Hsame, count_occ_cons_eq by reflexivity. lia.
    + destruct Hx as [Hx | Hx]; [congruence |].
      rewrite (IHk Hx), count_occ_cons_neq by exact E. lia.
Qed.

Lemma priority_distribution_rows (df : list SaleRow) :
  df <> [] ->
  map (fun row => (Dashboard.priority row, Dashboard.count row))
      (Dashboard.get_priority_distribution df)
  = map (fun p =>
           (p, Z.of_nat
                 (count_occ string_dec
                    (map (fun m =>
                            Dashboard.get_priority
                              (xdiv (tm_total_revenue m)
                                    (qmax (map tm_total_revenue (top_medicines_of df)))))
                         (top_medicines_of df))
                    p)))
        ["Critical"; "High"; "Medium"; "Low"]%string.
Proof. destruct df; [congruence | reflexivity]. Qed.

End ChartFacts.

(** X16. analysis_engine.py, [get_priority_distribution] on a frame with
    rows: the chart has the rows Critical, High, Medium and Low in this
    order, and their counts add up to the number of medicines: every
    medicine is counted in one row.  When the largest revenue is positive
    at least one medicine is Critical; when it is zero every score is NaN
    or infinite and every medicine is counted as Low. *)
Theorem priority_chart_counts_every_medicine (df : list Enhanced.SaleRow) :
  df <> [] ->
  let chart := Dashboard.get_priority_distribution df in
  let medicines := Enhanced.top_medicines_of df in
  let max_revenue := Enhanced.qmax (map Enhanced.tm_total_revenue medicines) in
  exists critical high medium low,
    map (fun row => (Dashboard.priority row, Dashboard.count row)) chart
    = [("Critical", critical); ("High", high); ("Medium", medium); ("Low", low)]%string /\
    (0 <= critical /\ 0 <= high /\ 0 <= medium /\ 0 <= low)%Z /\
    (critical + high + medium + low = Z.of_nat (length medicines))%Z /\
    length medicines = Prim.nunique (map Enhanced.medicine_name df) /\
    ((0 < max_revenue)%Q -> (1 <= critical)%Z) /\
    ((max_revenue == 0)%Q -> low = Z.of_nat (length medicines)).
Proof.
  intros Hne. cbv zeta.
  destruct df as [| r0 rest] eqn:E; [congruence |]. rewrite <- E in *.
  set (top := Enhanced.top_medicines_of df).
  set (mx := Enhanced.qmax (map Enhanced.tm_total_revenue top)).
  rewrite (priority_distribution_rows Hne). fold top. fold mx.
  set (labels := map (fun m => Dashboard.get_priority
                                 (Enhanced.xdiv (Enhanced.tm_total_revenue m) mx)) top).
  assert (Hlabels : Forall (fun x => In x ["Critical"; "High"; "Medium"; "Low"]%string)
                           labels).
  { apply Forall_forall. intros x Hx. apply in_map_iff in Hx.
    destruct Hx as (m & <- & _). unfold Dashboard.get_priority.
    destruct (Enhanced.xge _ (8 # 10)); [now left |].
    destruct (Enhanced.xge _ (6 # 10)); [right; now left |].
    destruct (Enhanced.xge _ (4 # 10)); [right; right; now left |].
    right; right; right; now left. }
  assert (Hnd : NoDup ["Critical"; "High"; "Medium"; "Low"]%string).
  { repeat constructor; simpl; intuition discriminate. }
  pose proof (count_occ_partition Hnd Hlabels) as Hsum.
  cbn [map fold_right] in Hsum.
  assert (Hlen : length labels = length top) by apply length_map.
  assert (Htop : length top = Prim.nunique (map Enhanced.medicine_name df)).
  { unfold top, Prim.nunique.
    rewrite <- (length_map Enhanced.tm_medicine_name), top_medicines_names.
    unfold Prim.group_keys.
    now rewrite (Permutation_length (isort_perm String.leb _)). }
  do 4 eexists. split; [reflexivity |].
  split; [lia |]. split; [lia |]. split; [exact Htop |].
  assert (Hrev : map Enhanced.tm_total_revenue top <> []).
  { intros H0. apply (f_equal (@length _)) in H0.
    rewrite length_map, Htop in H0. simpl in H0.
    assert (Hin : In (Enhanced.medicine_name r0)
                     (nodup string_dec (map Enhanced.medicine_name df)))
      by (apply nodup_In; rewrite E; now left).
    unfold Prim.nunique in H0.
    destruct (nodup string_dec (map Enhanced.medicine_name df));
      [destruct Hin | discriminate]. }
  destruct (map Enhanced.tm_total_revenue top) as [| x xs] eqn:Ex; [congruence |].
  destruct (qmax_spec x xs) as [Hin Hge]. fold mx in Hin, Hge.
  split.
  - intros Hpos.
    assert (Hc : In "Critical"%string labels).
    { rewrite <- Ex in Hin. apply in_map_iff in Hin. destruct Hin as (m & Hm & Hmin).
      unfold labels. apply in_map_iff. exists m. split; [| exact Hmin].
      rewrite Hm. unfold Dashboard.get_priority, Enhanced.xdiv.
      destruct (Qeq_bool mx 0) eqn:E0.
      - apply Qeq_bool_iff in E0. rewrite E0 in Hpos. discriminate.
      - cbn [Enhanced.xge].
        assert (H1 : Qle_bool (8 # 10) (mx / mx) = true).
        { apply Qle_bool_iff. unfold Qdiv. rewrite Qmult_inv_r; [discriminate |].
          intros H0. rewrite H0 in Hpos. discriminate. }
        now rewrite H1. }
    apply (count_occ_In string_dec) in Hc. lia.
  - intros Hzero.
    assert (Hall : forall l' : list Enhanced.TopMedicine,
               (forall m, In m l' -> (Enhanced.tm_total_revenue m <= mx)%Q) ->
               count_occ string_dec
                 (map (fun m => Dashboard.get_priority
                                  (Enhanced.xdiv (Enhanced.tm_total_revenue m) mx)) l')
                 "Low"%string
               = length l').
    { induction l' as [| m l' IH]; intros Hb; [reflexivity |].
      cbn [map count_occ length]. rewrite IH by (intros m' Hm'; apply Hb; now right).
      assert (Hm : Dashboard.get_priority
                     (Enhanced.xdiv (Enhanced.tm_total_revenue m) mx) = "Low"%string).
      { unfold Enhanced.xdiv.
        assert (E0 : Qeq_bool mx 0 = true) by now apply Qeq_bool_iff.
        rewrite E0.
        assert (Hle : (Enhanced.tm_total_revenue m <= 0)%Q).
        { rewrite <- Hzero. apply Hb. now left. }
        destruct (Qcompare_spec (Enhanced.tm_total_revenue m) 0) as [H | H | H];
          try reflexivity.
        exfalso. apply (Qlt_not_le _ _ H). exact Hle. }
      rewrite Hm. destruct (string_dec "Low" "Low"); [reflexivity | congruence]. }
    f_equal. rewrite <- Hlen. unfold labels at 2. rewrite length_map.
    apply Hall. intros m Hm. apply Hge. rewrite <- Ex. now apply in_map.
Qed.

Lemma priority_chart_counts_every_medicine_witness :
  let chart := Dashboard.get_priority_distribution DashboardExamples.three_medicines in
  let medicines := Enhanced.top_medicines_of DashboardExamples.three_medicines in
  let max_revenue := Enhanced.qmax (map Enhanced.tm_total_revenue medicines) in
  exists critical high medium low,
    map (fun row => (Dashboard.priority row, Dashboard.count row)) chart
    = [("Critical", critical); ("High", high); ("Medium", medium); ("Low", low)]%string /\
    (0 <= critical /\ 0 <= high /\ 0 <= medium /\ 0 <= low)%Z /\
    (critical + high + medium + low = Z.of_nat (length medicines))%Z /\
    length medicines
    = Prim.nunique (map Enhanced.medicine_name DashboardExamples.three_medicines) /\
    ((0 < max_revenue)%Q -> (1 <= critical)%Z) /\
    ((max_revenue == 0)%Q -> low = Z.of_nat (length medicines)).
Proof.
  apply (@priority_chart_counts_every_medicine DashboardExamples.three_medicines).
  discriminate.
Defined.

(** ** The Prophet forecast of the script *)

Section ScriptFacts.
Import Prim Forecast Script.

Variable ProphetModel : Type.
Variable Prophet_fit : series -> Py.outcome ProphetModel.
Variable Prophet_predict : ProphetModel -> Z -> Py.outcome (list ProphetRow).
Variable savefig : string -> Py.outcome unit.

Local Abbreviation script_prophet :=
  (get_timeseries_forecast_prophet Prophet_fit Prophet_predict savefig).

Lemma script_prophet_returns df medicine forecast_months :
  exists result tr,
    Py.run (script_prophet df medicine forecast_months) = (Py.Return result, tr).
Proof.
  unfold get_timeseries_forecast_prophet.
  destruct (filter _ df) as [| r0 rest].
  - run_py. eauto.
  - destruct (length _ <? 30)%nat.
    + run_py. eauto.
    + unfold Py.run, Py.try_except, Py.bind, Py.emit, Py.lift, Py.ret,
        call_Prophet_fit, call_Prophet_predict, call_savefig,
        Py.bind, Py.emit, Py.lift.
      destruct (Prophet_fit _) as [model | e]; cbn [app]; [| eauto].
      destruct (Prophet_predict model _) as [f | e]; cbn [app]; [| eauto].
      destruct (savefig _) as [[] | e]; cbn [app]; eauto.
Qed.

Lemma script_prophet_gated df medicine forecast_months :
  length (daily_sales_of
            (filter (fun r => String.eqb (Engine.medicine_name_clean r) medicine) df))
  < 30 ->
  exists tr,
    Py.run (script_prophet df medicine forecast_months) = (Py.Return None, tr) /\
    existsb is_prophet_fit tr = false.
Proof.
  intros Hlt. unfold get_timeseries_forecast_prophet.
  destruct (filter _ df) as [| r0 rest].
  - run_py. eexists. split; reflexivity.
  - apply Nat.ltb_lt in Hlt. rewrite Hlt. run_py. eexists. split; reflexivity.
Qed.

Lemma script_prophet_attempted df medicine forecast_months :
  let daily_sales :=
    daily_sales_of
      (filter (fun r => String.eqb (Engine.medicine_name_clean r) medicine) df) in
  30 <= length daily_sales ->
  exists rest,
    snd (Py.run (script_prophet df medicine forecast_months))
    = ProphetFit daily_sales :: rest.
Proof.
  cbv zeta. intros Hge. unfold get_timeseries_forecast_prophet.
  destruct (filter _ df) as [| r0 rest] eqn:E.
  - simpl in Hge. lia.
  - apply Nat.ltb_ge in Hge. rewrite Hge.
    unfold Py.run, Py.try_except, Py.bind, Py.emit, Py.lift, Py.ret,
      call_Prophet_fit, call_Prophet_predict, call_savefig,
      Py.bind, Py.emit, Py.lift.
    destruct (Prophet_fit _) as [model | e]; cbn [app snd]; [| eauto].
    destruct (Prophet_predict model _) as [f | e]; cbn [app snd]; [| eauto].
    destruct (savefig _) as [[] | e]; cbn [app snd]; eauto.
Qed.

Lemma daily_sales_days (med_data : list Engine.FeatRow) :
  length (daily_sales_of med_data)
  = length (nodup Z.eq_dec (map Engine.date med_data)).
Proof.
  unfold daily_sales_of. rewrite length_map.
  apply Permutation_length, isort_perm.
Qed.

End ScriptFacts.

(** X17. Engine.py, [get_timeseries_forecast_prophet]: the script's Prophet
    forecast never raises, and its gate counts sale dates.  When the
    medicine was sold on fewer than 30 distinct dates (none included) it
    returns [None] without calling the fit; from 30 dates on, the fit on
    the daily totals is its first call. *)
Theorem script_prophet_gate_is_30_dates
    (ProphetModel : Type)
    (Prophet_fit : Forecast.series -> Py.outcome ProphetModel)
    (Prophet_predict : ProphetModel -> Z -> Py.outcome (list Forecast.ProphetRow))
    (savefig : string -> Py.outcome unit)
    (df : list Engine.FeatRow) (medicine : string) (forecast_months : Z) :
  let med_data :=
    filter (fun r => String.eqb (Engine.medicine_name_clean r) medicine) df in
  let dates := length (nodup Z.eq_dec (map Engine.date med_data)) in
  let r := Py.run (Script.get_timeseries_forecast_prophet
                     Prophet_fit Prophet_predict savefig
                     df medicine forecast_months) in
  (exists result tr, r = (Py.Return result, tr)) /\
  (dates < 30 ->
   exists tr, r = (Py.Return None, tr) /\
              existsb Forecast.is_prophet_fit tr = false) /\
  (30 <= dates ->
   exists rest, snd r = Forecast.ProphetFit (Script.daily_sales_of med_data) :: rest).
Proof.
  cbv zeta. split; [apply script_prophet_returns |]. split.
  - intros Hlt. apply script_prophet_gated. now rewrite daily_sales_days.
  - intros Hge. apply script_prophet_attempted. now rewrite daily_sales_days.
Qed.

Lemma script_prophet_gate_is_30_dates_witness :
  (exists tr,
      Py.run (Script.get_timeseries_forecast_prophet
                Examples.naive_fit Examples.naive_predict Examples.savefig_ok
                (Examples.rows_of_series "PARA 500" (Examples.daily_sales 29))
                "PARA 500" 3)
      = (Py.Return None, tr) /\
      existsb Forecast.is_prophet_fit tr = false) /\
  exists rest,
    snd (Py.run (Script.get_timeseries_forecast_prophet
                   Examples.naive_fit Examples.naive_predict Examples.savefig_ok
                   (Examples.rows_of_series "PARA 500" (Examples.daily_sales 30))
                   "PARA 500" 3))
    = Forecast.ProphetFit
        (Script.daily_sales_of
           (filter (fun r => String.eqb (Engine.medicine_name_clean r) "PARA 500")
                   (Examples.rows_of_series "PARA 500" (Examples.daily_sales 30))))
      :: rest.
Proof.
  split.
  - apply (@script_prophet_gate_is_30_dates Forecast.series
             Examples.naive_fit Examples.naive_predict Examples.savefig_ok
             (Examples.rows_of_series "PARA 500" (Examples.daily_sales 29))
             "PARA 500"%string 3%Z).
    vm_compute. lia.
  - apply (@script_prophet_gate_is_30_dates Forecast.series
             Examples.naive_fit Examples.naive_predict Examples.savefig_ok
             (Examples.rows_of_series "PARA 500" (Examples.daily_sales 30))
             "PARA 500"%string 3%Z).
    vm_compute. lia.
Defined.

(** ** Down the ranking *)

Section RankingOrder.
Import Prim Calendar Engine.
Local Open Scope Q_scope.

(** [int(x)] keeps the order. *)
Lemma py_int_mono (x y : Q) : x <= y -> (py_int x <= py_int y)%Z.
Proof.
  intros Hxy.
  assert (Hneg : forall z : Q, z < 0 -> py_int z = (- Qfloor (- z))%Z).
  { intros z Hz.
    assert (Hz' : py_int z = (- py_int (- z))%Z).
    { unfold py_int. destruct z as [n d]. simpl.
      rewrite Z.quot_opp_l by lia. lia. }
    rewrite Hz', py_int_floor by lra. reflexivity. }
  destruct (Qlt_le_dec x 0) as [Hx | Hx], (Qlt_le_dec y 0) as [Hy | Hy].
  - rewrite (Hneg x Hx), (Hneg y Hy).
    assert (H : (Qfloor (- y) <= Qfloor (- x))%Z) by (apply Qfloor_resp_le; lra).
    lia.
  - rewrite (Hneg x Hx), (py_int_floor Hy).
    assert (H1 : (0 <= Qfloor (- x))%Z).
    { change 0%Z with (Qfloor 0). apply Qfloor_resp_le. lra. }
    assert (H2 : (0 <= Qfloor y)%Z).
    { change 0%Z with (Qfloor 0). apply Qfloor_resp_le. exact Hy. }
    lia.
  - exfalso. lra.
  - rewrite (py_int_floor Hx), (py_int_floor Hy). now apply Qfloor_resp_le.
Qed.

(** With a buffer of -100 % or more, the suggested stock grows with the
    sales of the season. *)
Lemma suggested_stock_mono (buffer : Q) (x y : Q) :
  0 <= 1 + buffer -> x <= y ->
  (suggested_stock x buffer <= suggested_stock y buffer)%Z.
Proof.
  intros Hb Hxy. unfold suggested_stock. apply py_int_mono.
  now apply Qmult_le_compat_r.
Qed.

Lemma StronglySorted_seq (s n : nat) : StronglySorted lt (seq s n).
Proof.
  revert s. induction n as [| n IH]; intros s; simpl; constructor.
  - apply IH.
  - apply Forall_forall. intros i Hi. apply in_seq in Hi. lia.
Qed.

Lemma StronglySorted_and (A : Type) (R1 R2 : A -> A -> Prop) (l : list A) :
  StronglySorted R1 l -> StronglySorted R2 l ->
  StronglySorted (fun a b => R1 a b /\ R2 a b) l.
Proof.
  induction 1 as [| x l H1 IH Hall1]; intros H2; constructor.
  - apply IH. now inversion H2.
  - inversion H2 as [| ? ? _ Hall2]; subst.
    rewrite Forall_forall in *. intros y Hy. split; auto.
Qed.

Lemma StronglySorted_app_r (A : Type) (R : A -> A -> Prop) (l1 l2 : list A) :
  StronglySorted R (l1 ++ l2) -> StronglySorted R l2.
Proof.
  induction l1 as [| x l1 IH]; simpl; intros H; [exact H |].
  apply IH. now inversion H.
Qed.

Lemma StronglySorted_app_rel (A : Type) (R : A -> A -> Prop) (l1 l2 : list A) :
  StronglySorted R (l1 ++ l2) ->
  forall x y, In x l1 -> In y l2 -> R x y.
Proof.
  induction l1 as [| a l1 IH]; simpl; intros H x y Hx Hy; [destruct Hx |].
  inversion H as [| ? ? Hs Hall]; subst. destruct Hx as [<- | Hx].
  - rewrite Forall_forall in Hall. apply Hall, in_or_app. now right.
  - now apply IH.
Qed.

(** The columns computed from the sales keep the order of the sales. *)
Lemma ranked_columns_sorted (q buffer : Q) (days : Z) (sorted : list Scored) :
  (0 < days)%Z ->
  StronglySorted (fun a b => sc_key b <= sc_key a) sorted ->
  (forall x, In x sorted -> exists a, x = score buffer days a) ->
  StronglySorted
    (fun a b =>
       daily_avg_sales b <= daily_avg_sales a /\
       (0 <= 1 + buffer ->
        (suggested_stock_quantity b <= suggested_stock_quantity a)%Z))
    (rank_and_flag q sorted).
Proof.
  intros Hdays Hsorted Hscore. unfold rank_and_flag.
  set (t := quantile q _). clearbody t.
  unfold add_rank. generalize 1%nat as start.
  induction Hsorted as [| x l Hs IH Hall]; intros start; [constructor |].
  cbn [length seq combine map]. constructor.
  - apply IH. intros y Hy. apply Hscore. now right.
  - rewrite Forall_forall in Hall |- *. intros rec Hrec.
    apply in_map_iff in Hrec. destruct Hrec as ([k y] & <- & Hky).
    apply in_combine_r in Hky. specialize (Hall y Hky).
    destruct (Hscore x (or_introl eq_refl)) as (a & ->).
    destruct (Hscore y (or_intror Hky)) as (b & ->).
    cbn [finish daily_avg_sales suggested_stock_quantity sc_agg
           sc_suggested_stock_quantity sc_daily_avg_sales score].
    split.
    + apply (score_daily_mono buffer a b Hdays Hall).
    + intros Hb. apply suggested_stock_mono; assumption.
Qed.

End RankingOrder.

Section RankedFrame.
Import Prim Calendar Engine.
Local Open Scope Q_scope.

Variable sort_values_desc : list Scored -> list Scored.
Hypothesis sort_ok : sort_contract sort_values_desc.
Variable df : list FeatRow.
Variable target_season : string.
Variable buffer : Q.

Local Abbreviation recs :=
  (get_heuristic_recommendations sort_values_desc df target_season buffer).

Lemma engine_frame_ranked : StronglySorted (Ranking.outranks buffer) recs.
Proof.
  assert (Hrank : StronglySorted (fun a b => (rank a < rank b)%nat) recs).
  { apply StronglySorted_unmap. rewrite engine_ranks. apply StronglySorted_seq. }
  destruct (filter (fun t => String.eqb (Season t) target_season) df)
    as [| r0 rest] eqn:E.
  - rewrite (recommendations_of_empty_season sort_values_desc _ _ buffer E).
    constructor.
  - rewrite (recommendations_of_season sort_values_desc _ _ buffer E) in Hrank |- *.
    apply StronglySorted_and; [exact Hrank |].
    apply StronglySorted_and; [apply rank_and_flag_sorted, sort_ok |].
    apply ranked_columns_sorted with (days := days_in_season r0 (r0 :: rest)).
    + apply days_in_season_pos.
    + apply sort_values_desc_strongly_sorted, sort_ok.
    + intros x Hx. apply (Permutation_in _ (proj1 (sort_ok _))) in Hx.
      apply in_map_iff in Hx. destruct Hx as (a & <- & _). now exists a.
Qed.

End RankedFrame.

(** X18. Engine.py, [get_heuristic_recommendations]: the columns computed
    from the sales keep the order of the ranking.  Every recommendation
    has a lower rank number than every recommendation after it, and at
    least its sales, its daily average and, with a buffer of -100 % or
    more, its suggested stock; no two recommendations share a rank. *)
Theorem better_rank_never_sells_less
    (sort_values_desc : list Engine.Scored -> list Engine.Scored)
    (df : list Engine.FeatRow) (target_season : string) (buffer : Q) :
  Engine.sort_contract sort_values_desc ->
  let recs :=
    Engine.get_heuristic_recommendations sort_values_desc df target_season buffer in
  StronglySorted (Ranking.outranks buffer) recs /\
  NoDup (map Engine.rank recs).
Proof.
  intros Hsort recs. split.
  - apply engine_frame_ranked, Hsort.
  - unfold recs. rewrite engine_ranks. apply seq_NoDup.
Qed.

Lemma better_rank_never_sells_less_witness :
  StronglySorted (Ranking.outranks Engine.default_buffer)
    (Engine.get_heuristic_recommendations
       Engine.stable_sort_desc SeasonExamples.monsoon_2023
       "Monsoon" Engine.default_buffer) /\
  NoDup (map Engine.rank
             (Engine.get_heuristic_recommendations
                Engine.stable_sort_desc SeasonExamples.monsoon_2023
                "Monsoon" Engine.default_buffer)).
Proof.
  apply (@better_rank_never_sells_less
           Engine.stable_sort_desc SeasonExamples.monsoon_2023
           "Monsoon"%string Engine.default_buffer).
  apply stable_sort_contract.
Defined.

(** X19. Engine.py, [categorize_medicines_by_priority] on the
    recommendations of [get_heuristic_recommendations]: the tiers follow
    the ranking.  Every medicine of a tier has a better rank than every
    medicine of a later tier, and has sold at least as much. *)
Theorem tiers_follow_the_ranking
    (sort_values_desc : list Engine.Scored -> list Engine.Scored)
    (df : list Engine.FeatRow) (target_season : string) (buffer : Q) :
  Engine.sort_contract sort_values_desc ->
  let recs :=
    Engine.get_heuristic_recommendations sort_values_desc df target_season buffer in
  recs <> [] ->
  exists critical high medium low,
    Priority.categorize_medicines_by_priority recs
    = [ (Priority.CRITICAL, critical); (Priority.HIGH, high);
        (Priority.MEDIUM, medium); (Priority.LOW, low) ] /\
    let above (t1 t2 : list (Priority.tiered Engine.Recommendation)) :=
      forall x y, In x t1 -> In y t2 ->
                  Ranking.outranks buffer (Priority.row x) (Priority.row y) in
    above critical high /\ above critical medium /\ above critical low /\
    above high medium /\ above high low /\ above medium low.
Proof.
  intros Hsort recs Hne.
  destruct (categorize_four_tiers Hne) as (Hcat & _). cbv zeta in Hcat.
  set (a := Priority.tier_count (length recs) Priority.CRITICAL) in *.
  set (b := Priority.tier_count (length recs) Priority.HIGH) in *.
  set (c := Priority.tier_count (length recs) Priority.MEDIUM) in *.
  do 4 eexists. split; [exact Hcat |]. cbv zeta.
  pose proof (engine_frame_ranked Hsort df target_season buffer) as Hss.
  fold recs in Hss. rewrite <- (slices_concat recs a b c) in Hss.
  assert (Hrow : forall p (x : Priority.tiered Engine.Recommendation) rows,
             In x (Priority.tag p rows) -> In (Priority.row x) rows).
  { intros p x rows Hx. unfold Priority.tag in Hx. apply in_map_iff in Hx.
    destruct Hx as (r & <- & Hr). exact Hr. }
  pose proof (StronglySorted_app_r _ _ Hss) as Hss2.
  pose proof (StronglySorted_app_r _ _ Hss2) as Hss3.
  split; [| split; [| split; [| split; [| split]]]];
    intros x y Hx Hy; apply Hrow in Hx; apply Hrow in Hy.
  - apply (StronglySorted_app_rel _ _ Hss _ _ Hx). apply in_or_app. now left.
  - apply (StronglySorted_app_rel _ _ Hss _ _ Hx).
    apply in_or_app. right. apply in_or_app. now left.
  - apply (StronglySorted_app_rel _ _ Hss _ _ Hx).
    apply in_or_app. right. apply in_or_app. now right.
  - apply (StronglySorted_app_rel _ _ Hss2 _ _ Hx). apply in_or_app. now left.
  - apply (StronglySorted_app_rel _ _ Hss2 _ _ Hx). apply in_or_app. now right.
  - apply (StronglySorted_app_rel _ _ Hss3 _ _ Hx Hy).
Qed.

Lemma tiers_follow_the_ranking_witness :
  let recs :=
    Engine.get_heuristic_recommendations
      Engine.stable_sort_desc SeasonExamples.monsoon_2023
      "Monsoon" Engine.default_buffer in
  exists critical high medium low,
    Priority.categorize_medicines_by_priority recs
    = [ (Priority.CRITICAL, critical); (Priority.HIGH, high);
        (Priority.MEDIUM, medium); (Priority.LOW, low) ] /\
    let above (t1 t2 : list (Priority.tiered Engine.Recommendation)) :=
      forall x y, In x t1 -> In y t2 ->
                  Ranking.outranks Engine.default_buffer
                                   (Priority.row x) (Priority.row y) in
    above critical high /\ above critical medium /\ above critical low /\
    above high medium /\ above high low /\ above medium low.
Proof.
  apply (@tiers_follow_the_ranking
           Engine.stable_sort_desc SeasonExamples.monsoon_2023
           "Monsoon"%string Engine.default_buffer).
  - apply stable_sort_contract.
  - vm_compute. discriminate.
Defined.

(** ** The recommendations of the backend *)

Section AnalyzerFacts.
Import Prim Engine Analyzer.
Local Open Scope Q_scope.

Lemma duration_days_pos (season : string) (days : Z) :
  duration_days season = Some days -> (0 < days)%Z.
Proof.
  unfold duration_days.
  repeat (destruct (String.eqb season _); [intros H; injection H as <-; lia |]).
  discriminate.
Qed.

Lemma analyzer_frame_ranked (df : list AggRow) (buffer : Q) (days : Z) :
  (0 < days)%Z ->
  StronglySorted (fun a b => agg_last_season_sales b <= agg_last_season_sales a) df ->
  StronglySorted (Ranking.outranks buffer)
    (rank_and_flag fast_mover_threshold_q (map (score buffer days) df)).
Proof.
  intros Hdays Hsorted.
  assert (Hkeys : StronglySorted (fun a b => sc_key b <= sc_key a)
                                 (map (score buffer days) df)).
  { apply StronglySorted_map with (R := fun a b => sc_key b <= sc_key a)
                                  (f := score buffer days).
    exact Hsorted. }
  apply StronglySorted_and.
  { apply StronglySorted_unmap.
    rewrite rank_and_flag_rank. apply StronglySorted_seq. }
  apply StronglySorted_and.
  { apply StronglySorted_unmap with (f := last_season_sales)
                                    (R := fun x y => y <= x).
    rewrite rank_and_flag_sales.
    apply StronglySorted_map with (f := sc_key) (R := fun x y => y <= x).
    exact Hkeys. }
  apply ranked_columns_sorted with (days := days); [exact Hdays | exact Hkeys |].
  intros x Hx. apply in_map_iff in Hx. destruct Hx as (a & <- & _). now exists a.
Qed.

End AnalyzerFacts.

(** X20. analyzer.py, [generate_heuristic_recommendations]: the ranking is
    the order of the query.  For a season of the configuration and a
    non-empty query frame, the recommendations are the rows of the query in
    their order, ranked 1..N, each with its sales over the 120 days of the
    configured season as daily average, whatever the dates of the sales.
    When the query is in descending order of sales, as its ORDER BY asks,
    every recommendation has at least the sales, the daily average and
    (with a buffer of -100 % or more) the suggested stock of every
    recommendation after it.  For a season that is not configured the
    frame is empty. *)
Theorem analyzer_ranking_is_the_query_order
    (df : list Engine.AggRow) (target_season : string) (buffer : Q) :
  df <> [] ->
  let recs := Analyzer.generate_heuristic_recommendations df target_season buffer in
  (Analyzer.duration_days target_season = None -> recs = []) /\
  (Analyzer.duration_days target_season <> None ->
   map Engine.medicine_name recs = map Engine.agg_medicine_name df /\
   map Engine.rank recs = seq 1 (length df) /\
   map Engine.daily_avg_sales recs
   = map (fun a => Prim.round2 (Engine.agg_last_season_sales a / 120)%Q) df /\
   (StronglySorted (fun a b => (Engine.agg_last_season_sales b
                                <= Engine.agg_last_season_sales a)%Q) df ->
    StronglySorted (Ranking.outranks buffer) recs)).
Proof.
  intros Hne recs. unfold recs, Analyzer.generate_heuristic_recommendations.
  destruct df as [| a0 rest] eqn:E; [congruence |]. rewrite <- E in *.
  destruct (Analyzer.duration_days target_season) as [days |] eqn:Ed.
  - split; [discriminate |]. intros _.
    assert (Hdays : days = 120%Z).
    { unfold Analyzer.duration_days in Ed.
      repeat (destruct (String.eqb target_season _);
              [injection Ed as <-; reflexivity |]).
      discriminate. }
    subst days.
    split; [| split; [| split]].
    + rewrite rank_and_flag_names, map_map. reflexivity.
    + now rewrite rank_and_flag_rank, length_map.
    + rewrite rank_and_flag_daily, map_map. reflexivity.
    + intros Hsorted. apply analyzer_frame_ranked; [lia | exact Hsorted].
  - split; [reflexivity | congruence].
Qed.

Lemma analyzer_ranking_is_the_query_order_witness :
  let recs :=
    Analyzer.generate_heuristic_recommendations
      Examples.query_frame "Winter" Engine.default_buffer in
  (Analyzer.duration_days "Winter" = None -> recs = []) /\
  (Analyzer.duration_days "Winter" <> None ->
   map Engine.medicine_name recs
   = map Engine.agg_medicine_name Examples.query_frame /\
   map Engine.rank recs = seq 1 (length Examples.query_frame) /\
   map Engine.daily_avg_sales recs
   = map (fun a => Prim.round2 (Engine.agg_last_season_sales a / 120)%Q)
         Examples.query_frame /\
   (StronglySorted (fun a b => (Engine.agg_last_season_sales b
                                <= Engine.agg_last_season_sales a)%Q)
                   Examples.query_frame ->
    StronglySorted (Ranking.outranks Engine.default_buffer) recs)).
Proof.
  apply (@analyzer_ranking_is_the_query_order
           Examples.query_frame "Winter"%string Engine.default_buffer).
  discriminate.
Defined.

(** ** Months and seasons *)

Section SeasonFacts.
Import Calendar.
Local Open Scope Z_scope.

(** The month of a date is a month of the year. *)
Lemma month_of_range (t : Timestamp) : 1 <= month_of t <= 12.
Proof.
  unfold month_of. cbv zeta.
  match goal with
  | |- context [?a <? 10] => destruct (Z.ltb_spec a 10)
  end; Z.div_mod_to_equations; lia.
Qed.

End SeasonFacts.

(** X21. The season maps of Engine.py ([create_features]), forecast.py and
    analysis_engine.py: every date falls in a month 1..12 and so in one
    season; Summer is February to May, Monsoon June to September, Winter
    October to January; the three maps give the same season, forecast.py
    in lower case. *)
Theorem every_date_has_one_season (t : Calendar.Timestamp) :
  let month := Calendar.month_of t in
  (1 <= month <= 12)%Z /\
  (Calendar.get_season month = "Summer"%string <-> (2 <= month <= 5)%Z) /\
  (Calendar.get_season month = "Monsoon"%string <-> (6 <= month <= 9)%Z) /\
  (Calendar.get_season month = "Winter"%string
   <-> (month = 1 \/ 10 <= month <= 12)%Z) /\
  Pipeline.get_season (Some month) = Calendar.get_season month /\
  Sanitizer.upper (Forecast.get_season month)
  = Sanitizer.upper (Calendar.get_season month).
Proof.
  cbv zeta. pose proof (month_of_range t) as Hm.
  set (month := Calendar.month_of t) in *. clearbody month.
  split; [exact Hm |].
  assert (Hcases : (month = 1 \/ month = 2 \/ month = 3 \/ month = 4 \/ month = 5
                    \/ month = 6 \/ month = 7 \/ month = 8 \/ month = 9
                    \/ month = 10 \/ month = 11 \/ month = 12)%Z) by lia.
  repeat (destruct Hcases as [-> | Hcases]); try subst month;
    (split; [split; [intros H; try discriminate H; lia
                    | intros H; try reflexivity; lia] |]);
    (split; [split; [intros H; try discriminate H; lia
                    | intros H; try reflexivity; lia] |]);
    (split; [split; [intros H; try discriminate H; lia
                    | intros H; try reflexivity; lia] |]);
    split; reflexivity.
Qed.

(** ** The week plans *)

Section WeekPlanFacts.
Import Prim Enhanced WeekPlans.

Local Abbreviation cost_of l :=
  (Planning.zsum (map (fun m => py_int (tm_total_revenue m * (1 # 10))%Q) l)).

(** The loop puts the medicines three by three into the four weeks. *)
Lemma placed_three_by_three (top : list TopMedicine) (w1 w2 w3 w4 : WeekPlan) :
  items w1 = [] -> items w2 = [] -> items w3 = [] -> items w4 = [] ->
  estimatedCost w1 = 0%Z -> estimatedCost w2 = 0%Z ->
  estimatedCost w3 = 0%Z -> estimatedCost w4 = 0%Z ->
  map (fun w => (priority w, items w, estimatedCost w))
      (fold_left place
                 (combine (seq 0 (length (head 12 top))) (head 12 top))
                 [w1; w2; w3; w4])
  = [ (priority w1, map tm_medicine_name (iloc 0 3 top), cost_of (iloc 0 3 top));
      (priority w2, map tm_medicine_name (iloc 3 6 top), cost_of (iloc 3 6 top));
      (priority w3, map tm_medicine_name (iloc 6 9 top), cost_of (iloc 6 9 top));
      (priority w4, map tm_medicine_name (iloc 9 12 top), cost_of (iloc 9 12 top)) ].
Proof.
  intros I1 I2 I3 I4 C1 C2 C3 C4.
  do 12 (destruct top as [| ? top];
         [cbn -[py_int Qmult Z.add];
          rewrite ?I1, ?I2, ?I3, ?I4, ?C1, ?C2, ?C3, ?C4;
          cbn -[py_int Qmult Z.add];
          repeat match goal with
                 | |- _ :: _ = _ :: _ => f_equal
                 | |- (_, _) = (_, _) => f_equal
                 end; try reflexivity; lia |]).
  cbn -[py_int Qmult Z.add];
    rewrite ?I1, ?I2, ?I3, ?I4, ?C1, ?C2, ?C3, ?C4;
    cbn -[py_int Qmult Z.add];
    repeat match goal with
           | |- _ :: _ = _ :: _ => f_equal
           | |- (_, _) = (_, _) => f_equal
           end; try reflexivity; lia.
Qed.

End WeekPlanFacts.

(** X22. analysis_engine.py, [get_week_plans] on a frame with rows: the
    twelve medicines of largest revenue are planned, three a week.  Week 1
    (critical) gets the first three of the frame sorted by revenue, week 2
    (high) the next three, then week 3 (medium) and week 4 (low); the cost
    of a week is the sum of the tenths of their revenues, each truncated;
    every week is pending, and a thirteenth medicine is in no week. *)
Theorem week_plans_take_three_each
    (sort_by_revenue : list Enhanced.TopMedicine -> list Enhanced.TopMedicine)
    (df : list Enhanced.SaleRow) :
  df <> [] ->
  let top := sort_by_revenue (Enhanced.top_medicines_of df) in
  let plans := WeekPlans.get_week_plans sort_by_revenue df in
  let planned (a b : nat) :=
    (map Enhanced.tm_medicine_name (Prim.iloc a b top),
     Planning.zsum
       (map (fun m => Prim.py_int (Enhanced.tm_total_revenue m * (1 # 10))%Q)
            (Prim.iloc a b top))) in
  map (fun w => (WeekPlans.priority w,
                 (WeekPlans.items w, WeekPlans.estimatedCost w))) plans
  = [ ("critical", planned 0 3); ("high", planned 3 6);
      ("medium", planned 6 9); ("low", planned 9 12) ]%string /\
  Forall (fun w => WeekPlans.status w = Some "pending"%string /\
                   length (WeekPlans.items w) <= 3) plans /\
  length (concat (map WeekPlans.items plans)) = Nat.min 12 (length top).
Proof.
  intros Hne. cbv zeta.
  set (top := sort_by_revenue (Enhanced.top_medicines_of df)).
  set (w1 := WeekPlans.mkWeekPlan "Week 1 (Dec 1-7)" "critical" [] 0 None).
  set (w2 := WeekPlans.mkWeekPlan "Week 2 (Dec 8-14)" "high" [] 0 None).
  set (w3 := WeekPlans.mkWeekPlan "Week 3 (Dec 15-21)" "medium" [] 0 None).
  set (w4 := WeekPlans.mkWeekPlan "Week 4 (Dec 22-28)" "low" [] 0 None).
  set (weeks := fold_left WeekPlans.place
                          (combine (seq 0 (length (Prim.head 12 top)))
                                   (Prim.head 12 top))
                          [w1; w2; w3; w4]).
  assert (Hdef : WeekPlans.get_week_plans sort_by_revenue df
                 = map (fun w => WeekPlans.mkWeekPlan
                                   (WeekPlans.week w) (WeekPlans.priority w)
                                   (WeekPlans.items w) (WeekPlans.estimatedCost w)
                                   (Some "pending"%string))
                       weeks)
    by (destruct df; [congruence | reflexivity]).
  rewrite Hdef. clear Hdef.
  pose proof (@placed_three_by_three top w1 w2 w3 w4
                eq_refl eq_refl eq_refl eq_refl eq_refl eq_refl eq_refl eq_refl)
    as Hplaced.
  fold weeks in Hplaced. cbn [WeekPlans.priority w1 w2 w3 w4] in Hplaced.
  assert (Hitems : map WeekPlans.items weeks
                   = map (fun a => map Enhanced.tm_medicine_name
                                       (Prim.iloc a (a + 3) top)) [0; 3; 6; 9]).
  { transitivity (map (fun x : string * list string * Z => snd (fst x))
                      (map (fun w => (WeekPlans.priority w, WeekPlans.items w,
                                      WeekPlans.estimatedCost w)) weeks)).
    - rewrite map_map. reflexivity.
    - rewrite Hplaced. reflexivity. }
  split; [| split].
  - rewrite map_map. cbn [WeekPlans.priority WeekPlans.items WeekPlans.estimatedCost].
    transitivity (map (fun x : string * list string * Z =>
                         (fst (fst x), (snd (fst x), snd x)))
                      (map (fun w => (WeekPlans.priority w, WeekPlans.items w,
                                      WeekPlans.estimatedCost w)) weeks)).
    + rewrite map_map. reflexivity.
    + rewrite Hplaced. reflexivity.
  - apply Forall_forall. intros w Hw. apply in_map_iff in Hw.
    destruct Hw as (w0 & <- & Hw0). split; [reflexivity |].
    cbn [WeekPlans.items].
    apply (in_map WeekPlans.items) in Hw0. rewrite Hitems in Hw0.
    cbn [map] in Hw0.
    destruct Hw0 as [<- | [<- | [<- | [<- | []]]]];
      rewrite length_map, length_iloc; lia.
  - assert (Hm : map WeekPlans.items
                       (map (fun w => WeekPlans.mkWeekPlan
                                        (WeekPlans.week w) (WeekPlans.priority w)
                                        (WeekPlans.items w)
                                        (WeekPlans.estimatedCost w)
                                        (Some "pending"%string))
                            weeks)
                 = map WeekPlans.items weeks)
      by (rewrite map_map; apply map_ext; reflexivity).
    rewrite Hm, Hitems.
    cbn [map concat]. rewrite !length_app, !length_map, !length_iloc.
    simpl length. lia.
Qed.

Lemma week_plans_take_three_each_witness :
  let top :=
    DashboardExamples.sort_by_revenue
      (Enhanced.top_medicines_of DashboardExamples.three_medicines) in
  let plans :=
    WeekPlans.get_week_plans DashboardExamples.sort_by_revenue
                             DashboardExamples.three_medicines in
  let planned (a b : nat) :=
    (map Enhanced.tm_medicine_name (Prim.iloc a b top),
     Planning.zsum
       (map (fun m => Prim.py_int (Enhanced.tm_total_revenue m * (1 # 10))%Q)
            (Prim.iloc a b top))) in
  map (fun w => (WeekPlans.priority w,
                 (WeekPlans.items w, WeekPlans.estimatedCost w))) plans
  = [ ("critical", planned 0 3); ("high", planned 3 6);
      ("medium", planned 6 9); ("low", planned 9 12) ]%string /\
  Forall (fun w => WeekPlans.status w = Some "pending"%string /\
                   length (WeekPlans.items w) <= 3) plans /\
  length (concat (map WeekPlans.items plans)) = Nat.min 12 (length top).
Proof.
  apply (@week_plans_take_three_each
           DashboardExamples.sort_by_revenue DashboardExamples.three_medicines).
  discriminate.
Defined.
